(** * sportsreference: field extraction for NHL box scores and NBA schedules

    A shallow embedding of [sportsreference/nhl/boxscore.py] and
    [sportsreference/nba/schedule.py], with the semantics of Python 3 for
    the built-in operations they use.  Python values are modelled by a small
    universe of dynamic values, exceptions by an error monad, and an
    instance's [__dict__] by an association list that keeps insertion order.
    Strings are sequences of code points below 256, floats are binary64.

    The file has two parts: the embedding (Python primitives, PyQuery
    objects, the two modules, the helpers that the sources import, sample
    data), then the properties. *)

From Stdlib Require Import String Ascii List ZArith Lia Bool Arith.
From Stdlib Require Import Floats.SpecFloat.
Import ListNotations.

Local Open Scope string_scope.
Local Open Scope list_scope.

(** ** Exceptions and the error monad *)

Inductive Exn : Type :=
| IndexError
| KeyError
| ValueError
| TypeError
| AttributeError
| ZeroDivisionError
| OverflowError
| StopIteration.

Inductive Result (A : Type) : Type :=
| Ok (a : A)
| Raise (e : Exn).

Arguments Ok {A} a.
Arguments Raise {A} e.

Definition bind {A B : Type} (r : Result A) (k : A -> Result B) : Result B :=
  match r with
  | Ok a => k a
  | Raise e => Raise e
  end.

Notation "x <- r ;; k" := (bind r (fun x => k))
  (at level 61, r at next level, right associativity).

Definition raises {A : Type} (r : Result A) : Prop := exists e, r = Raise e.

(** [foldM] runs a Python [for] loop whose body may raise. *)
Fixpoint foldM {A S : Type} (body : S -> A -> Result S) (xs : list A) (s : S)
  : Result S :=
  match xs with
  | [] => Ok s
  | x :: rest => s' <- body s x ;; foldM body rest s'
  end.

(** ** Python strings *)

Module PyStr.

Definition code (c : ascii) : nat := nat_of_ascii c.

(** [str.isspace] on one code point below 256. *)
Definition is_space (c : ascii) : bool :=
  let n := code c in
  (((9 <=? n) && (n <=? 13)) || ((28 <=? n) && (n <=? 32))
   || (n =? 133) || (n =? 160))%nat.

Definition is_digit (c : ascii) : bool :=
  let n := code c in ((48 <=? n) && (n <=? 57))%nat.

Definition digit_value (c : ascii) : Z := (Z.of_nat (code c) - 48)%Z.

Definition newline : ascii := ascii_of_nat 10.

(** [s] between two double quotes. *)
Definition quoted (s : string) : string :=
  String (ascii_of_nat 34) (s ++ String (ascii_of_nat 34) EmptyString).

(** [str.lower] on one code point below 256. *)
Definition lower_char (c : ascii) : ascii :=
  let n := code c in
  if (((65 <=? n) && (n <=? 90))
      || ((192 <=? n) && (n <=? 222) && negb (n =? 215)))%nat
  then ascii_of_nat (n + 32) else c.

Fixpoint lower (s : string) : string :=
  match s with
  | EmptyString => EmptyString
  | String c r => String (lower_char c) (lower r)
  end.

Fixpoint startswith (p s : string) : bool :=
  match p, s with
  | EmptyString, _ => true
  | String a p', String b s' => Ascii.eqb a b && startswith p' s'
  | String _ _, EmptyString => false
  end.

(** [p in s] for strings. *)
Fixpoint contains (p s : string) : bool :=
  startswith p s ||
  match s with
  | EmptyString => false
  | String _ r => contains p r
  end.

Fixpoint drop (n : nat) (s : string) : string :=
  match n, s with
  | O, _ => s
  | S k, String _ r => drop k r
  | S _, EmptyString => EmptyString
  end.

Fixpoint rev_onto (s acc : string) : string :=
  match s with
  | EmptyString => acc
  | String c r => rev_onto r (String c acc)
  end.

Definition rev (s : string) : string := rev_onto s EmptyString.

Fixpoint lstrip (s : string) : string :=
  match s with
  | String c r => if is_space c then lstrip r else s
  | EmptyString => EmptyString
  end.

Definition rstrip (s : string) : string := rev (lstrip (rev s)).

(** [s.strip()] *)
Definition strip (s : string) : string := rstrip (lstrip s).

(** [s.split(sep)] for a one-character separator: never an empty list. *)
Fixpoint split_acc (sep : ascii) (s cur : string) : list string :=
  match s with
  | EmptyString => [rev cur]
  | String c r =>
      if Ascii.eqb c sep then rev cur :: split_acc sep r EmptyString
      else split_acc sep r (String c cur)
  end.

Definition split (sep : ascii) (s : string) : list string :=
  split_acc sep s EmptyString.

(** [sep.join(parts)] *)
Fixpoint join (sep : string) (parts : list string) : string :=
  match parts with
  | [] => EmptyString
  | [p] => p
  | p :: rest => p ++ sep ++ join sep rest
  end.

(** [s.replace(old, new)] for a non-empty [old]: non-overlapping occurrences
    from the left.  The fuel is the length of [s], which bounds the scan. *)
Fixpoint replace_fuel (fuel : nat) (old new s : string) : string :=
  match fuel with
  | O => s
  | S f =>
      match s with
      | EmptyString => EmptyString
      | String c r =>
          if startswith old s
          then new ++ replace_fuel f old new (drop (String.length old) s)
          else String c (replace_fuel f old new r)
      end
  end.

Definition replace (old new s : string) : string :=
  replace_fuel (String.length s) old new s.

(** The digits of an integer literal: one or more digits, single underscores
    allowed between digits. *)
Fixpoint digits_value (s : string) (acc : Z) (after_digit : bool) : option Z :=
  match s with
  | EmptyString => if after_digit then Some acc else None
  | String c r =>
      if is_digit c then digits_value r (10 * acc + digit_value c)%Z true
      else if Ascii.eqb c "_"
           then (if after_digit then digits_value r acc false else None)
           else None
  end.

(** The white space [int] and [float] skip around a literal, on one code
    point below 256: the six characters of the C locale and, above 127, the
    two that [str.isspace] accepts.  The separators U+001C to U+001F, which
    [str.strip] removes, are not among them: [int] raises [ValueError] on a
    string that has one. *)
Definition is_int_space (c : ascii) : bool :=
  let n := code c in
  (((9 <=? n) && (n <=? 13)) || (n =? 32) || (n =? 133) || (n =? 160))%nat.

Fixpoint int_lstrip (s : string) : string :=
  match s with
  | String c r => if is_int_space c then int_lstrip r else s
  | EmptyString => EmptyString
  end.

Definition int_strip (s : string) : string :=
  rev (int_lstrip (rev (int_lstrip s))).

(** [int(s)] on a string, base 10: [None] stands for [ValueError]. *)
Definition int (s : string) : option Z :=
  match int_strip s with
  | String "+" r => digits_value r 0%Z false
  | String "-" r => option_map Z.opp (digits_value r 0%Z false)
  | t => digits_value t 0%Z false
  end.

End PyStr.


(** ** Regular expressions

    The four patterns of the sources ([.*/boxscores/], [\.html.*], [.*/teams/]
    and [/.*]) are sequences of literal characters, [.] and [.*]; [.] matches
    every character except a newline, [.*] is greedy and backtracks. *)

Module PyRe.

Inductive Re : Type :=
| Lit (c : ascii)
| Dot
| DotStar.

Fixpoint lits (s : string) : list Re :=
  match s with
  | EmptyString => []
  | String c r => Lit c :: lits r
  end.

(** [match_len pat s]: the number of characters the pattern consumes when it
    matches at the start of [s], as [re.match] finds it. *)
Fixpoint match_len (pat : list Re) (s : string) : option nat :=
  match pat with
  | [] => Some O
  | Lit c :: p =>
      match s with
      | String d r => if Ascii.eqb c d then option_map S (match_len p r) else None
      | EmptyString => None
      end
  | Dot :: p =>
      match s with
      | String d r =>
          if Ascii.eqb d PyStr.newline then None else option_map S (match_len p r)
      | EmptyString => None
      end
  | DotStar :: p =>
      (fix star (t : string) : option nat :=
         match t with
         | String d r =>
             if Ascii.eqb d PyStr.newline then match_len p t
             else match star r with
                  | Some n => Some (S n)
                  | None => match_len p t
                  end
         | EmptyString => match_len p t
         end) s
  end.

(** [re.sub(pat, repl, s)]: scan from the left, replace every match, copy the
    characters in between.  [skip] counts the characters of [s] that still
    belong to the match found last. *)
Fixpoint sub_scan (pat : list Re) (repl s : string) (skip : nat) : string :=
  match s with
  | EmptyString =>
      match skip, match_len pat EmptyString with
      | O, Some _ => repl
      | _, _ => EmptyString
      end
  | String c r =>
      match skip with
      | S k => sub_scan pat repl r k
      | O =>
          match match_len pat s with
          | Some (S k) => repl ++ sub_scan pat repl r k
          | Some O => repl ++ String c (sub_scan pat repl r O)
          | None => String c (sub_scan pat repl r O)
          end
      end
  end.

Definition sub (pat : list Re) (repl s : string) : string :=
  sub_scan pat repl s O.

(** [r'.*/boxscores/'], [r'\.html.*'], [r'.*/teams/'] and [r'/.*'] *)
Definition up_to_boxscores : list Re := DotStar :: lits "/boxscores/".
Definition from_html : list Re := lits ".html" ++ [DotStar].
Definition up_to_teams : list Re := DotStar :: lits "/teams/".
Definition from_slash : list Re := lits "/" ++ [DotStar].

End PyRe.

(** ** Python floats

    A [float] is an IEEE 754 binary64 number; the operations are the ones of
    [SpecFloat], which round to nearest, ties to even. *)

Module PyFloat.

Definition prec : Z := 53.
Definition emax : Z := 1024.

Definition zero : spec_float := S754_zero false.

Definition is_zero (x : spec_float) : bool :=
  match x with
  | S754_zero _ => true
  | _ => false
  end.

(** [float(n)] for an [int]: [OverflowError] when [n] is too large. *)
Definition of_int (n : Z) : Result spec_float :=
  match binary_normalize prec emax n 0 false with
  | S754_infinity _ => Raise OverflowError
  | x => Ok x
  end.

(** [x / y] *)
Definition truediv (x y : spec_float) : Result spec_float :=
  if is_zero y then Raise ZeroDivisionError else Ok (SFdiv prec emax x y).

(** The integer nearest to [num / den] for [den > 0], ties to even. *)
Definition div_half_even (num den : Z) : Z :=
  let q := (num / den)%Z in
  let r := (num mod den)%Z in
  match (2 * r ?= den)%Z with
  | Lt => q
  | Gt => (q + 1)%Z
  | Eq => if Z.even q then q else (q + 1)%Z
  end.

(** [round(x, ndigits)] for [ndigits >= 0]: the decimal with [ndigits] places
    nearest to the exact value of [x], converted back to the nearest float. *)
Definition round (x : spec_float) (ndigits : nat) : spec_float :=
  match x with
  | S754_finite s m e =>
      match e with
      | Zneg p =>
          let scale := (10 ^ Z.of_nat ndigits)%Z in
          let k := div_half_even (Zpos m * scale) (2 ^ Zpos p) in
          match k with
          | Zpos kp =>
              SFdiv prec emax (S754_finite s kp 0)
                    (S754_finite false (Z.to_pos scale) 0)
          | _ => S754_zero s
          end
      | _ => x
      end
  | _ => x
  end.

End PyFloat.

(** ** PyQuery objects

    A PyQuery object is a list of elements.  An element is known by its
    markup ([str]), its text, and what each selector finds below it. *)

#[warnings="-register-all"]
Inductive Elem : Type :=
| mkElem (markup text : string) (find : string -> list Elem).

Definition PyQuery : Type := list Elem.

Module Pq.

Definition markup (e : Elem) : string :=
  match e with mkElem m _ _ => m end.

Definition elem_text (e : Elem) : string :=
  match e with mkElem _ t _ => t end.

Definition find (e : Elem) : string -> list Elem :=
  match e with mkElem _ _ f => f end.

(** [p(selector)] *)
Definition select (p : PyQuery) (selector : string) : PyQuery :=
  flat_map (fun e => find e selector) p.

(** [p.items()] *)
Definition items (p : PyQuery) : list PyQuery :=
  map (fun e => [e]) p.

(** [p.text()] *)
Definition text (p : PyQuery) : string :=
  PyStr.join " " (map elem_text p).

(** [str(p)] *)
Definition str (p : PyQuery) : string :=
  String.concat EmptyString (map markup p).

(** [len(p)] *)
Definition len (p : PyQuery) : nat := List.length p.

(** Truth value of [p]: an empty PyQuery object is false. *)
Definition truth (p : PyQuery) : bool :=
  match p with
  | [] => false
  | _ :: _ => true
  end.

(** [[i.text() for i in p(selector).items()]] *)
Definition texts (p : PyQuery) (selector : string) : list string :=
  map text (items (select p selector)).

End Pq.


(** ** Dynamic values and instances *)

Inductive PyValue : Type :=
| VNone
| VStr (s : string)
| VInt (n : Z)
| VFloat (x : spec_float)
| VList (l : list string)
| VTag (p : PyQuery).

(** An instance is its [__dict__]: attribute names with their values, in
    insertion order. *)
Definition Instance : Type := list (string * PyValue).

Fixpoint lookup_attr (self : Instance) (name : string) : option PyValue :=
  match self with
  | [] => None
  | (k, v) :: rest => if String.eqb k name then Some v else lookup_attr rest name
  end.

Definition getattr (self : Instance) (name : string) : Result PyValue :=
  match lookup_attr self name with
  | Some v => Ok v
  | None => Raise AttributeError
  end.

Fixpoint setattr (self : Instance) (name : string) (v : PyValue) : Instance :=
  match self with
  | [] => [(name, v)]
  | (k, w) :: rest =>
      if String.eqb k name then (k, v) :: rest else (k, w) :: setattr rest name v
  end.

(** [table[key]] for a constant table of the package: [KeyError] when the key
    is missing. *)
Definition subscript {A : Type} (table : string -> option A) (key : string)
  : Result A :=
  match table key with
  | Some a => Ok a
  | None => Raise KeyError
  end.

(** [xs[i]] for a non-negative [i]. *)
Definition item {A : Type} (xs : list A) (i : nat) : Result A :=
  match nth_error xs i with
  | Some a => Ok a
  | None => Raise IndexError
  end.

(** [name in names] for a list of strings. *)
Definition in_list (name : string) (names : list string) : bool :=
  existsb (String.eqb name) names.

(** [xs[:i]] and [xs[i:]] for any integer [i]. *)
Definition slice_bound {A : Type} (xs : list A) (i : Z) : nat :=
  if (i <? 0)%Z then Z.to_nat (Z.of_nat (List.length xs) + i) else Z.to_nat i.

Definition slice_to {A : Type} (xs : list A) (i : Z) : list A :=
  firstn (slice_bound xs i) xs.

Definition slice_from {A : Type} (xs : list A) (i : Z) : list A :=
  skipn (slice_bound xs i) xs.

Definition chars (s : string) : list string :=
  map (fun c => String c EmptyString) (list_ascii_of_string s).

(** A method of [str] called on a value: [AttributeError] on anything that is
    not a string. *)
Definition as_str (v : PyValue) : Result string :=
  match v with
  | VStr s => Ok s
  | _ => Raise AttributeError
  end.

(** [v.text()] *)
Definition tag_text (v : PyValue) : Result string :=
  match v with
  | VTag p => Ok (Pq.text p)
  | _ => Raise AttributeError
  end.

Definition of_int_option (n : option Z) : PyValue :=
  match n with
  | Some z => VInt z
  | None => VNone
  end.

Definition of_float_option (x : option spec_float) : PyValue :=
  match x with
  | Some f => VFloat f
  | None => VNone
  end.

Definition Exn_eqb (a b : Exn) : bool :=
  match a, b with
  | IndexError, IndexError | KeyError, KeyError | ValueError, ValueError
  | TypeError, TypeError | AttributeError, AttributeError
  | ZeroDivisionError, ZeroDivisionError | OverflowError, OverflowError
  | StopIteration, StopIteration => true
  | _, _ => false
  end.

(** [try: body  except exn: handler] *)
Definition try_except {A : Type} (body : Result A) (exn : Exn)
  (handler : Result A) : Result A :=
  match body with
  | Ok a => Ok a
  | Raise e => if Exn_eqb e exn then handler else Raise e
  end.

(** [x > y] on the results of two integer properties. *)
Definition gt (x y : option Z) : Result bool :=
  match x, y with
  | Some a, Some b => Ok (b <? a)%Z
  | _, _ => Raise TypeError
  end.

(** [float(v)] on the result of an integer property. *)
Definition float_of (v : option Z) : Result spec_float :=
  match v with
  | Some n => PyFloat.of_int n
  | None => Raise TypeError
  end.

(** * sportsreference/nhl/boxscore.py *)

Module NHL.

(** The sum of [nhl_int_property_decorator]: [int(x)] is added when it
    succeeds, [ValueError] skips the entry. *)
Fixpoint sum_ints (value_subset : list string) (num : Z) : Z :=
  match value_subset with
  | [] => num
  | x :: rest =>
      match PyStr.int x with
      | Some n => sum_ints rest (num + n)
      | None => sum_ints rest num
      end
  end.

Definition goalie_properties : list string :=
  ["away_saves"; "away_shutout"; "home_saves"; "home_shutout"].

(** The side of the property: the first chunk for the away team, the second
    chunk for the home team. *)
Definition side_subset {A : Type} (func_name : string) (value : list A)
  (index : Z) : list A :=
  if PyStr.contains "home" func_name then slice_from value index
  else slice_to value index.

(** [nhl_int_property_decorator(func)], with [func.__name__] given apart. *)
Definition nhl_int_property_decorator (func_name : string)
  (func : Instance -> Result PyValue) (self : Instance) : Result Z :=
  value <- func self ;;
  num_skaters <- getattr self "_away_skaters" ;;
  num_goalies <- getattr self "_away_goalies" ;;
  let index :=
    if in_list func_name goalie_properties then num_goalies else num_skaters in
  match index with
  | VInt i =>
      match value with
      | VList l => Ok (sum_ints (side_subset func_name l i) 0)
      | VStr s => Ok (sum_ints (side_subset func_name (chars s) i) 0)
      | VTag p =>
          match side_subset func_name p i with
          | [] => Ok 0%Z
          | _ :: _ => Raise TypeError
          end
      | _ => Raise TypeError
      end
  | _ => Raise TypeError
  end.

Definition playoff_rounds : list string :=
  ["eastern first round"; "western first round";
   "eastern second round"; "western second round";
   "eastern conference finals"; "western conference finals";
   "stanley cup final"].

Definition is_playoff_round (line : string) : bool :=
  existsb (fun label => PyStr.contains label (PyStr.lower line)) playoff_rounds.

Definition fields_to_special_parse : list string :=
  ["away_even_strength_assists"; "away_power_play_assists";
   "away_short_handed_assists"; "away_game_winning_goals";
   "away_saves"; "away_save_percentage"; "away_shutout";
   "home_even_strength_assists"; "home_power_play_assists";
   "home_short_handed_assists"; "home_game_winning_goals";
   "home_saves"; "home_save_percentage"; "home_shutout"].

(** The attributes [Boxscore.__init__] sets to [None], in order, after
    [_uri]. *)
Definition boxscore_attributes : list string :=
  ["_date"; "_time"; "_arena"; "_attendance"; "_duration";
   "_away_name"; "_home_name"; "_winner"; "_winning_name"; "_winning_abbr";
   "_losing_name"; "_losing_abbr";
   "_away_goals"; "_away_assists"; "_away_points";
   "_away_penalties_in_minutes"; "_away_even_strength_goals";
   "_away_power_play_goals"; "_away_short_handed_goals";
   "_away_game_winning_goals"; "_away_even_strength_assists";
   "_away_power_play_assists"; "_away_short_handed_assists";
   "_away_shots_on_goal"; "_away_shooting_percentage"; "_away_saves";
   "_away_save_percentage"; "_away_shutout";
   "_home_goals"; "_home_assists"; "_home_points";
   "_home_penalties_in_minutes"; "_home_even_strength_goals";
   "_home_power_play_goals"; "_home_short_handed_goals";
   "_home_game_winning_goals"; "_home_even_strength_assists";
   "_home_power_play_assists"; "_home_short_handed_assists";
   "_home_shots_on_goal"; "_home_shooting_percentage"; "_home_saves";
   "_home_save_percentage"; "_home_shutout"].

(** The instance before [_parse_game_data] runs. *)
Definition new_boxscore (uri : string) : Instance :=
  ("_uri", VStr uri) :: map (fun name => (name, VNone)) boxscore_attributes.

Section Boxscore.

(** What the sources import from the rest of the package: the constants of
    [nhl/constants.py] and [constants.py], the helpers of [utils.py], the
    decorators of [decorators.py], and the retrieval of a page by [pq(url)]. *)
Variable BOXSCORE_URL : string -> string.
Variable BOXSCORE_SCHEME : string -> option string.
Variable BOXSCORE_ELEMENT_INDEX : string -> option nat.
Variable HOME AWAY : string.
Variable pq_url : string -> Result PyQuery.
Variable _remove_html_comment_tags : PyQuery -> PyQuery.
Variable _parse_field :
  (string -> option string) -> PyQuery -> string -> nat -> Result PyValue.
Variable _parse_abbreviation : PyValue -> Result string.
Variable int_property_decorator :
  (Instance -> Result PyValue) -> Instance -> Result (option Z).
Variable float_property_decorator :
  (Instance -> Result PyValue) -> Instance -> Result (option spec_float).

(** [None] when the download raises, whatever it raises. *)
Definition _retrieve_html_page (uri : string) : option PyQuery :=
  match pq_url (BOXSCORE_URL uri) with
  | Raise _ => None
  | Ok url_data => Some (_remove_html_comment_tags url_data)
  end.

Definition _parse_game_date_and_location (field : string) (boxscore : PyQuery)
  : Result string :=
  scheme <- subscript BOXSCORE_SCHEME field ;;
  let items := Pq.texts boxscore scheme in
  block <- item items 0 ;;
  let game_info := PyStr.split PyStr.newline block in
  index <- subscript BOXSCORE_ELEMENT_INDEX field ;;
  round_line <- item game_info 1 ;;
  let index :=
    if is_playoff_round round_line
    then (if negb (String.eqb field "date") && negb (String.eqb field "time")
          then index + 1 else index)
    else index in
  try_except (item game_info index) IndexError (Ok EmptyString).

Definition _parse_name (field : string) (boxscore : PyQuery) : Result PyQuery :=
  scheme <- subscript BOXSCORE_SCHEME field ;;
  Ok (Pq.select boxscore scheme).

(** One turn of the loop [for field in self.__dict__]. *)
Definition parse_attribute (boxscore : PyQuery) (self : Instance)
  (field : string) : Result Instance :=
  let short_field := PyStr.drop 1 field in
  if in_list short_field
       ["winner"; "winning_name"; "winning_abbr"; "losing_name";
        "losing_abbr"; "uri"]
  then Ok self
  else if in_list short_field
            ["date"; "time"; "arena"; "attendance"; "time_of_day"; "duration"]
  then value <- _parse_game_date_and_location short_field boxscore ;;
       Ok (setattr self field (VStr value))
  else if in_list short_field ["away_name"; "home_name"]
  then value <- _parse_name short_field boxscore ;;
       Ok (setattr self field (VTag value))
  else if in_list short_field fields_to_special_parse
  then scheme <- subscript BOXSCORE_SCHEME short_field ;;
       Ok (setattr self field (VList (Pq.texts boxscore scheme)))
  else
    let index :=
      match BOXSCORE_ELEMENT_INDEX short_field with
      | Some i => i
      | None => 0
      end in
    value <- _parse_field BOXSCORE_SCHEME boxscore short_field index ;;
    Ok (setattr self field value).

Definition count_away_players (boxscore : PyQuery) (self : Instance)
  : Result Instance :=
  skaters <- subscript BOXSCORE_SCHEME "away_skaters" ;;
  let self := setattr self "_away_skaters"
                (VInt (Z.of_nat (Pq.len (Pq.select boxscore skaters)))) in
  goalies <- subscript BOXSCORE_SCHEME "away_goalies" ;;
  match Pq.items (Pq.select boxscore goalies) with
  | _ :: table :: _ =>
      Ok (setattr self "_away_goalies"
            (VInt (Z.of_nat (Pq.len (Pq.select table "tbody tr")))))
  | _ => Raise StopIteration
  end.

Definition _parse_game_data (self : Instance) (uri : string) : Result Instance :=
  match _retrieve_html_page uri with
  | None => Ok self
  | Some boxscore =>
      if negb (Pq.truth boxscore) then Ok self
      else
        self <- foldM (parse_attribute boxscore) (map fst self) self ;;
        count_away_players boxscore self
  end.

(** [Boxscore(uri)] *)
Definition Boxscore (uri : string) : Result Instance :=
  _parse_game_data (new_boxscore uri) uri.

(** *** The properties of [Boxscore] *)

Definition attr (name : string) (self : Instance) : Result PyValue :=
  getattr self name.

Definition date (self : Instance) : Result string :=
  v <- getattr self "_date" ;;
  s <- as_str v ;;
  let date := PyStr.split "," s in
  Ok (PyStr.join "," (removelast date)).

Definition time (self : Instance) : Result string :=
  v <- getattr self "_time" ;;
  s <- as_str v ;;
  let time := PyStr.split "," s in
  Ok (PyStr.strip (last time EmptyString)).

Definition arena (self : Instance) : Result string :=
  v <- getattr self "_arena" ;;
  s <- as_str v ;;
  Ok (PyStr.replace "Arena: " EmptyString s).

Definition attendance : Instance -> Result (option Z) :=
  int_property_decorator (fun self =>
    v <- getattr self "_attendance" ;;
    s <- as_str v ;;
    Ok (VStr (PyStr.replace "," EmptyString
                 (PyStr.replace "Attendance: " EmptyString s)))).

Definition duration (self : Instance) : Result string :=
  v <- getattr self "_duration" ;;
  s <- as_str v ;;
  Ok (PyStr.replace "Game Duration: " EmptyString s).

Definition away_goals := int_property_decorator (attr "_away_goals").
Definition away_assists := int_property_decorator (attr "_away_assists").
Definition away_points := int_property_decorator (attr "_away_points").
Definition away_penalties_in_minutes :=
  int_property_decorator (attr "_away_penalties_in_minutes").
Definition away_even_strength_goals :=
  int_property_decorator (attr "_away_even_strength_goals").
Definition away_power_play_goals :=
  int_property_decorator (attr "_away_power_play_goals").
Definition away_short_handed_goals :=
  int_property_decorator (attr "_away_short_handed_goals").
Definition away_shots_on_goal :=
  int_property_decorator (attr "_away_shots_on_goal").
Definition away_shooting_percentage :=
  float_property_decorator (attr "_away_shooting_percentage").

Definition home_goals := int_property_decorator (attr "_home_goals").
Definition home_assists := int_property_decorator (attr "_home_assists").
Definition home_points := int_property_decorator (attr "_home_points").
Definition home_penalties_in_minutes :=
  int_property_decorator (attr "_home_penalties_in_minutes").
Definition home_even_strength_goals :=
  int_property_decorator (attr "_home_even_strength_goals").
Definition home_power_play_goals :=
  int_property_decorator (attr "_home_power_play_goals").
Definition home_short_handed_goals :=
  int_property_decorator (attr "_home_short_handed_goals").
Definition home_shots_on_goal :=
  int_property_decorator (attr "_home_shots_on_goal").
Definition home_shooting_percentage :=
  float_property_decorator (attr "_home_shooting_percentage").

(** A property under [nhl_int_property_decorator] that returns the raw
    attribute of its own name. *)
Definition nhl_property (name : string) : Instance -> Result Z :=
  nhl_int_property_decorator name (attr (String "_" name)).

Definition away_game_winning_goals := nhl_property "away_game_winning_goals".
Definition away_even_strength_assists :=
  nhl_property "away_even_strength_assists".
Definition away_power_play_assists := nhl_property "away_power_play_assists".
Definition away_short_handed_assists :=
  nhl_property "away_short_handed_assists".
Definition away_saves := nhl_property "away_saves".
Definition away_shutout := nhl_property "away_shutout".
Definition home_game_winning_goals := nhl_property "home_game_winning_goals".
Definition home_even_strength_assists :=
  nhl_property "home_even_strength_assists".
Definition home_power_play_assists := nhl_property "home_power_play_assists".
Definition home_short_handed_assists :=
  nhl_property "home_short_handed_assists".
Definition home_saves := nhl_property "home_saves".
Definition home_shutout := nhl_property "home_shutout".

Definition winner (self : Instance) : Result string :=
  home <- home_goals self ;;
  away <- away_goals self ;;
  more <- gt home away ;;
  if more then Ok HOME else Ok AWAY.

Definition winning_name (self : Instance) : Result string :=
  w <- winner self ;;
  if String.eqb w HOME
  then (tag <- getattr self "_home_name" ;; tag_text tag)
  else (tag <- getattr self "_away_name" ;; tag_text tag).

Definition winning_abbr (self : Instance) : Result string :=
  w <- winner self ;;
  if String.eqb w HOME
  then (tag <- getattr self "_home_name" ;; _parse_abbreviation tag)
  else (tag <- getattr self "_away_name" ;; _parse_abbreviation tag).

Definition losing_name (self : Instance) : Result string :=
  w <- winner self ;;
  if String.eqb w HOME
  then (tag <- getattr self "_away_name" ;; tag_text tag)
  else (tag <- getattr self "_home_name" ;; tag_text tag).

Definition losing_abbr (self : Instance) : Result string :=
  w <- winner self ;;
  if String.eqb w HOME
  then (tag <- getattr self "_away_name" ;; _parse_abbreviation tag)
  else (tag <- getattr self "_home_name" ;; _parse_abbreviation tag).

Definition away_save_percentage (self : Instance) : Result spec_float :=
  try_except
    (saves <- away_saves self ;;
     made <- PyFloat.of_int saves ;;
     shots <- home_shots_on_goal self ;;
     opportunity <- float_of shots ;;
     save_pct <- PyFloat.truediv made opportunity ;;
     Ok (PyFloat.round save_pct 3))
    ZeroDivisionError (Ok PyFloat.zero).

Definition home_save_percentage (self : Instance) : Result spec_float :=
  try_except
    (saves <- home_saves self ;;
     made <- PyFloat.of_int saves ;;
     shots <- away_shots_on_goal self ;;
     opportunity <- float_of shots ;;
     save_pct <- PyFloat.truediv made opportunity ;;
     Ok (PyFloat.round save_pct 3))
    ZeroDivisionError (Ok PyFloat.zero).

(** The typed properties of the class by name, each with its result as a
    dynamic value ([dataframe] apart). *)
Definition str_property (f : Instance -> Result string) (self : Instance)
  : Result PyValue :=
  s <- f self ;; Ok (VStr s).

Definition int_property (f : Instance -> Result (option Z)) (self : Instance)
  : Result PyValue :=
  n <- f self ;; Ok (of_int_option n).

Definition float_property (f : Instance -> Result (option spec_float))
  (self : Instance) : Result PyValue :=
  x <- f self ;; Ok (of_float_option x).

Definition sum_property (f : Instance -> Result Z) (self : Instance)
  : Result PyValue :=
  n <- f self ;; Ok (VInt n).

Definition computed_property (f : Instance -> Result spec_float)
  (self : Instance) : Result PyValue :=
  x <- f self ;; Ok (VFloat x).

Definition properties : list (string * (Instance -> Result PyValue)) :=
  [("date", str_property date);
   ("time", str_property time);
   ("arena", str_property arena);
   ("attendance", int_property attendance);
   ("duration", str_property duration);
   ("winner", str_property winner);
   ("winning_name", str_property winning_name);
   ("winning_abbr", str_property winning_abbr);
   ("losing_name", str_property losing_name);
   ("losing_abbr", str_property losing_abbr);
   ("away_goals", int_property away_goals);
   ("away_assists", int_property away_assists);
   ("away_points", int_property away_points);
   ("away_penalties_in_minutes", int_property away_penalties_in_minutes);
   ("away_even_strength_goals", int_property away_even_strength_goals);
   ("away_power_play_goals", int_property away_power_play_goals);
   ("away_short_handed_goals", int_property away_short_handed_goals);
   ("away_game_winning_goals", sum_property away_game_winning_goals);
   ("away_even_strength_assists", sum_property away_even_strength_assists);
   ("away_power_play_assists", sum_property away_power_play_assists);
   ("away_short_handed_assists", sum_property away_short_handed_assists);
   ("away_shots_on_goal", int_property away_shots_on_goal);
   ("away_shooting_percentage", float_property away_shooting_percentage);
   ("away_saves", sum_property away_saves);
   ("away_save_percentage", computed_property away_save_percentage);
   ("away_shutout", sum_property away_shutout);
   ("home_goals", int_property home_goals);
   ("home_assists", int_property home_assists);
   ("home_points", int_property home_points);
   ("home_penalties_in_minutes", int_property home_penalties_in_minutes);
   ("home_even_strength_goals", int_property home_even_strength_goals);
   ("home_power_play_goals", int_property home_power_play_goals);
   ("home_short_handed_goals", int_property home_short_handed_goals);
   ("home_game_winning_goals", sum_property home_game_winning_goals);
   ("home_even_strength_assists", sum_property home_even_strength_assists);
   ("home_power_play_assists", sum_property home_power_play_assists);
   ("home_short_handed_assists", sum_property home_short_handed_assists);
   ("home_shots_on_goal", int_property home_shots_on_goal);
   ("home_shooting_percentage", float_property home_shooting_percentage);
   ("home_saves", sum_property home_saves);
   ("home_save_percentage", computed_property home_save_percentage);
   ("home_shutout", sum_property home_shutout)].

End Boxscore.

(** *** The class [Boxscores] *)

Module Boxscores.

Definition _get_boxscore_uri (url : PyQuery) : string :=
  let uri := PyRe.sub PyRe.up_to_boxscores EmptyString (Pq.str url) in
  PyStr.strip (PyRe.sub PyRe.from_html EmptyString uri).

Definition _parse_abbreviation (abbr : PyQuery) : string :=
  let abbr := PyRe.sub PyRe.up_to_teams EmptyString (Pq.str abbr) in
  PyRe.sub PyRe.from_slash EmptyString abbr.

End Boxscores.

End NHL.

(** ** [datetime] *)

Module PyDatetime.

Local Open Scope nat_scope.

Record datetime : Type := mkDatetime {
  year : nat; month : nat; day : nat;
  hour : nat; minute : nat; second : nat
}.

Definition digit (c : ascii) : option nat :=
  if PyStr.is_digit c then Some (PyStr.code c - 48) else None.

Definition is_leap (y : nat) : bool :=
  ((y mod 4 =? 0) && (negb (y mod 100 =? 0) || (y mod 400 =? 0)))%nat.

Definition days_in_month (y m : nat) : nat :=
  match m with
  | 2 => if is_leap y then 29 else 28
  | 4 | 6 | 9 | 11 => 30
  | _ => 31
  end.

(** [%Y]: four digits. *)
Definition directive_Y (s : string) : option (nat * string) :=
  match s with
  | String a (String b (String c (String d rest))) =>
      match digit a, digit b, digit c, digit d with
      | Some a, Some b, Some c, Some d =>
          Some (1000 * a + 100 * b + 10 * c + d, rest)
      | _, _, _, _ => None
      end
  | _ => None
  end.

(** [%m]: [1[0-2]|0[1-9]|[1-9]], the alternatives in this order. *)
Definition directive_m (s : string) : option (nat * string) :=
  match s with
  | String a rest =>
      match digit a with
      | Some x =>
          let two :=
            match rest with
            | String b rest' =>
                match digit b with
                | Some y =>
                    if ((x =? 1) && (y <=? 2)) || ((x =? 0) && (1 <=? y))
                    then Some (10 * x + y, rest') else None
                | None => None
                end
            | EmptyString => None
            end in
          match two with
          | Some r => Some r
          | None => if 1 <=? x then Some (x, rest) else None
          end
      | None => None
      end
  | EmptyString => None
  end.

(** [%d]: [3[0-1]|[1-2]\d|0[1-9]|[1-9]| [1-9]], the alternatives in this
    order. *)
Definition directive_d (s : string) : option (nat * string) :=
  match s with
  | String a rest =>
      match digit a with
      | Some x =>
          let two :=
            match rest with
            | String b rest' =>
                match digit b with
                | Some y =>
                    if ((x =? 3) && (y <=? 1)) || ((1 <=? x) && (x <=? 2))
                       || ((x =? 0) && (1 <=? y))
                    then Some (10 * x + y, rest') else None
                | None => None
                end
            | EmptyString => None
            end in
          match two with
          | Some r => Some r
          | None => if 1 <=? x then Some (x, rest) else None
          end
      | None =>
          if Ascii.eqb a " "
          then match rest with
               | String b rest' =>
                   match digit b with
                   | Some y => if 1 <=? y then Some (y, rest') else None
                   | None => None
                   end
               | EmptyString => None
               end
          else None
      end
  | EmptyString => None
  end.

Definition dash (s : string) : option string :=
  match s with
  | String "-" rest => Some rest
  | _ => None
  end.

(** [datetime.strptime(s, '%Y-%m-%d')]: [None] stands for [ValueError]
    (no match, unconverted data, or a date that does not exist). *)
Definition strptime_ymd (s : string) : option datetime :=
  match directive_Y s with
  | Some (y, s1) =>
      match dash s1 with
      | Some s2 =>
          match directive_m s2 with
          | Some (m, s3) =>
              match dash s3 with
              | Some s4 =>
                  match directive_d s4 with
                  | Some (d, EmptyString) =>
                      if (1 <=? y) && (d <=? days_in_month y m)
                      then Some (mkDatetime y m d 0 0 0) else None
                  | _ => None
                  end
              | None => None
              end
          | None => None
          end
      | None => None
      end
  | None => None
  end.

End PyDatetime.

(** * sportsreference/nba/schedule.py *)

Module NBA.

(** The attributes [Game.__init__] sets to [None], in order. *)
Definition game_attributes : list string :=
  ["_game"; "_date"; "_datetime"; "_boxscore"; "_location"; "_opponent_abbr";
   "_result"; "_points_scored"; "_points_allowed"; "_field_goals";
   "_field_goal_attempts"; "_field_goal_percentage";
   "_three_point_field_goals"; "_three_point_field_goal_attempts";
   "_three_point_field_goal_percentage"; "_free_throws";
   "_free_throw_attempts"; "_free_throw_percentage"; "_offensive_rebounds";
   "_total_rebounds"; "_assists"; "_steals"; "_blocks"; "_turnovers";
   "_personal_fouls"; "_opp_field_goals"; "_opp_field_goal_attempts";
   "_opp_field_goal_percentage"; "_opp_three_point_field_goals";
   "_opp_three_point_field_goal_attempts";
   "_opp_three_point_field_goal_percentage"; "_opp_free_throws";
   "_opp_free_throw_attempts"; "_opp_free_throw_percentage";
   "_opp_offensive_rebounds"; "_opp_total_rebounds"; "_opp_assists";
   "_opp_steals"; "_opp_blocks"; "_opp_turnovers"; "_opp_personal_fouls"].

Definition new_game : Instance :=
  map (fun name => (name, VNone)) game_attributes.

(** The two substitutions of [_parse_boxscore] on the markup of the cell. *)
Definition boxscore_uri (markup : string) : string :=
  let boxscore := PyRe.sub PyRe.up_to_boxscores EmptyString markup in
  PyRe.sub PyRe.from_html EmptyString boxscore.

Definition _parse_boxscore (self : Instance) (game_data : PyQuery) : Instance :=
  let boxscore := Pq.select game_data
      ("td[data-stat=" ++ PyStr.quoted "box_score_text" ++ "]:first") in
  setattr self "_boxscore" (VStr (boxscore_uri (Pq.str boxscore))).

Section Schedule.

(** What the sources import from the rest of the package. *)
Variable SCHEDULE_SCHEME : string -> option string.
Variable SCHEDULE_URL : string -> string -> string.
Variable pq_url : string -> Result PyQuery.
Variable _parse_field :
  (string -> option string) -> PyQuery -> string -> nat -> Result PyValue.
Variable _find_year_for_season : string -> string.
Variable _get_stats_table : PyQuery -> string -> list PyQuery.

(** One turn of the loop [for field in self.__dict__]. *)
Definition parse_attribute (game_data : PyQuery) (self : Instance)
  (field : string) : Result Instance :=
  let short_name := PyStr.drop 1 field in
  if String.eqb short_name "datetime" then Ok self
  else if String.eqb short_name "boxscore"
  then Ok (_parse_boxscore self game_data)
  else value <- _parse_field SCHEDULE_SCHEME game_data short_name 0 ;;
       Ok (setattr self field value).

Definition _parse_game_data (self : Instance) (game_data : PyQuery)
  : Result Instance :=
  foldM (parse_attribute game_data) (map fst self) self.

(** [Game(game_data)] *)
Definition Game (game_data : PyQuery) : Result Instance :=
  _parse_game_data new_game game_data.

(** The property [Game.date]. *)
Definition date (self : Instance) : Result PyValue := getattr self "_date".

(** The property [Game.datetime]. *)
Definition datetime (self : Instance) : Result PyDatetime.datetime :=
  v <- getattr self "_date" ;;
  match v with
  | VStr s =>
      match PyDatetime.strptime_ymd s with
      | Some d => Ok d
      | None => Raise ValueError
      end
  | _ => Raise TypeError
  end.

(** The test of [Schedule.__call__] on one game; [and] evaluates
    [game.datetime] again for each comparison it reaches. *)
Definition same_day (game : Instance) (date : PyDatetime.datetime)
  : Result bool :=
  d <- datetime game ;;
  if (PyDatetime.year d =? PyDatetime.year date)%nat then
    d <- datetime game ;;
    if (PyDatetime.month d =? PyDatetime.month date)%nat then
      d <- datetime game ;;
      Ok (PyDatetime.day d =? PyDatetime.day date)%nat
    else Ok false
  else Ok false.

(** [Schedule.__call__(date)] on the list [self._games]. *)
Fixpoint __call__ (games : list Instance) (date : PyDatetime.datetime)
  : Result Instance :=
  match games with
  | [] => Raise ValueError
  | game :: rest =>
      found <- same_day game date ;;
      if found then Ok game else __call__ rest date
  end.

Definition is_header_row (item : PyQuery) : bool :=
  PyStr.contains ("class=" ++ PyStr.quoted "thead") (Pq.str item)
  || PyStr.contains ("class=" ++ PyStr.quoted "over_header thead") (Pq.str item).

(** One turn of the loop [for item in schedule]. *)
Definition add_game (games : list Instance) (item : PyQuery)
  : Result (list Instance) :=
  if is_header_row item then Ok games
  else game <- Game item ;; Ok (games ++ [game]).

Definition _add_games_to_schedule (games : list Instance)
  (schedule : list PyQuery) : Result (list Instance) :=
  foldM add_game schedule games.

Definition _pull_schedule (games : list Instance) (abbreviation : string)
  (year : option string) : Result (list Instance) :=
  let year :=
    match year with
    | None | Some EmptyString => _find_year_for_season "nba"
    | Some y => y
    end in
  doc <- pq_url (SCHEDULE_URL abbreviation year) ;;
  let schedule := _get_stats_table doc "table#tgl_basic" in
  games <- _add_games_to_schedule games schedule ;;
  if PyStr.contains "tgl_basic_playoffs" (Pq.str doc)
  then
    let playoffs := _get_stats_table doc "div#all_tgl_basic_playoffs" in
    _add_games_to_schedule games playoffs
  else Ok games.

(** [Schedule(abbreviation, year)]: the list [self._games] it ends with. *)
Definition Schedule (abbreviation : string) (year : option string)
  : Result (list Instance) :=
  _pull_schedule [] abbreviation year.

End Schedule.

End NBA.

(** * The helpers the sources import, as the specification describes them *)

Module Utils.

(** Modelled from the spec: [utils._parse_field] (the Field Extractor of
    section 4.1; [utils.py] is not among the sources).  The selector of the
    field is resolved against the document, the whole-fragment marker stands
    for the document itself; an empty match gives the empty string, a single
    element its text, several elements the text at [index], and an index out
    of range is an error. *)
Definition _parse_field (whole_fragment : string)
  (scheme : string -> option string) (html : PyQuery) (field : string)
  (index : nat) : Result PyValue :=
  selector <- subscript scheme field ;;
  let items :=
    if String.eqb selector whole_fragment then map Pq.text (Pq.items html)
    else Pq.texts html selector in
  match items with
  | [] => Ok (VStr EmptyString)
  | [text] => Ok (VStr text)
  | _ => text <- item items index ;; Ok (VStr text)
  end.

End Utils.

Module Decorators.

(** Modelled from the spec: [decorators.int_property_decorator] (section 4.3,
    integer fields; [decorators.py] is not among the sources).  The raw text
    is parsed as a base-10 integer; a record without data has no integer to
    report, so the property fails on a null raw value, as [int(None)] does. *)
Definition int_property_decorator (func : Instance -> Result PyValue)
  (self : Instance) : Result (option Z) :=
  value <- func self ;;
  match value with
  | VStr s =>
      match PyStr.int s with
      | Some n => Ok (Some n)
      | None => Raise ValueError
      end
  | VInt n => Ok (Some n)
  | _ => Raise TypeError
  end.

(** A decimal literal [digits.digits] read as the nearest float; [k] counts
    the digits after the point. *)
Fixpoint decimal_digits (s : string) (acc : Z) (k : option nat) (seen : bool)
  : option (Z * nat) :=
  match s with
  | EmptyString =>
      if seen then Some (acc, match k with Some n => n | None => O end)
      else None
  | String c r =>
      if PyStr.is_digit c
      then decimal_digits r (10 * acc + PyStr.digit_value c)%Z
             (option_map S k) true
      else if Ascii.eqb c "."
           then match k with
                | None => decimal_digits r acc (Some O) seen
                | Some _ => None
                end
           else None
  end.

Definition decimal (negative : bool) (s : string) : option spec_float :=
  match decimal_digits s 0%Z None false with
  | Some (Zpos m, k) =>
      Some (SFdiv PyFloat.prec PyFloat.emax (S754_finite negative m 0)
              (S754_finite false (Z.to_pos (10 ^ Z.of_nat k)) 0))
  | Some (_, _) => Some (S754_zero negative)
  | None => None
  end.

(** Modelled from the spec: [decorators.float_property_decorator] (section
    4.3, percentage fields; [decorators.py] is not among the sources).  The
    raw text is parsed as a floating-point number on its native scale, here a
    signed decimal literal; the property fails on a null raw value. *)
Definition float_property_decorator (func : Instance -> Result PyValue)
  (self : Instance) : Result (option spec_float) :=
  value <- func self ;;
  match value with
  | VStr s =>
      let parsed :=
        match PyStr.int_strip s with
        | String "+" r => decimal false r
        | String "-" r => decimal true r
        | t => decimal false t
        end in
      match parsed with
      | Some x => Ok (Some x)
      | None => Raise ValueError
      end
  | VFloat x => Ok (Some x)
  | _ => Raise TypeError
  end.

End Decorators.

(** * Vocabulary of the statements *)

Definition Zsum (ns : list Z) : Z := fold_right Z.add 0%Z ns.

(** The integers of the entries that parse, in order. *)
Definition parsed_ints (cells : list string) : list Z :=
  flat_map (fun x => match PyStr.int x with Some n => [n] | None => [] end)
           cells.

Definition away_skater_properties : list string :=
  ["away_game_winning_goals"; "away_even_strength_assists";
   "away_power_play_assists"; "away_short_handed_assists"].

Definition home_skater_properties : list string :=
  ["home_game_winning_goals"; "home_even_strength_assists";
   "home_power_play_assists"; "home_short_handed_assists"].

Definition away_goalie_properties : list string :=
  ["away_saves"; "away_shutout"].

Definition home_goalie_properties : list string :=
  ["home_saves"; "home_shutout"].

(** The line, compared without case, contains a playoff-round label. *)
Definition has_round_label (line : string) : Prop :=
  exists label,
    In label NHL.playoff_rounds
    /\ PyStr.contains label (PyStr.lower line) = true.

(** The line a field reads: the empty string past the end of the block. *)
Definition read_line (game_info : list string) (index : nat) : string :=
  nth index game_info EmptyString.

Definition same_date (d q : PyDatetime.datetime) : Prop :=
  PyDatetime.year d = PyDatetime.year q
  /\ PyDatetime.month d = PyDatetime.month q
  /\ PyDatetime.day d = PyDatetime.day q.

(** A property that reports no data: it raises, or it returns [None]. *)
Definition reports_no_data (r : Result PyValue) : Prop :=
  raises r \/ r = Ok VNone.

(** A decorator that reports no data whenever the function it wraps does. *)
Definition keeps_no_data {A : Type}
  (decorator : (Instance -> Result PyValue) -> Instance -> Result (option A))
  : Prop :=
  forall func self,
    raises (func self) \/ func self = Ok VNone ->
    raises (decorator func self) \/ decorator func self = Ok None.

(** The rows that are not header separators. *)
Definition data_rows (rows : list PyQuery) : list PyQuery :=
  filter (fun item => negb (NBA.is_header_row item)) rows.

(** Each row builds the game at the same position. *)
Definition built_by (Game : PyQuery -> Result Instance)
  (rows : list PyQuery) (games : list Instance) : Prop :=
  Forall2 (fun item game => Game item = Ok game) rows games.

Definition no_newline (s : string) : Prop :=
  PyStr.contains (String PyStr.newline EmptyString) s = false.

(** * Sample data

    A small page, a scheme for it and the instances built from it; the
    statements below are run on them. *)

Module Sample.

Definition lines (ls : list string) : string :=
  PyStr.join (String PyStr.newline EmptyString) ls.

Definition leaf (markup text : string) : Elem :=
  mkElem markup text (fun _ => []).

Definition cell (text : string) : Elem :=
  leaf ("<td>" ++ text ++ "</td>") text.

(** Every field is found under a selector of its own name. *)
Definition scheme (field : string) : option string := Some field.

Definition element_index (field : string) : option nat :=
  if in_list field ["date"; "time"] then Some 0
  else if String.eqb field "arena" then Some 1
  else if String.eqb field "attendance" then Some 2
  else if String.eqb field "duration" then Some 3
  else None.

Definition playoff_block : string :=
  lines ["Wed, Oct 18, 2017, 7:00 PM"; "Eastern Conference Finals";
         "Arena: X"; "Attendance: 1,234"; "Game Duration: 2:31"].

Definition regular_block : string :=
  lines ["Wed, Oct 18, 2017, 7:00 PM"; "Arena: X"; "Attendance: 1,234";
         "Game Duration: 2:31"].

Definition short_block : string :=
  lines ["Wed, Oct 18, 2017, 7:00 PM"; "Arena: X"].

Definition one_line_block : string := lines ["Wed, Oct 18, 2017, 7:00 PM"].

(** Cells with the separators U+001F, U+001C, U+001D and U+001E around
    their digits. *)
Definition separator_cells : list string :=
  [String (ascii_of_nat 31) "7"; String "5" (String (ascii_of_nat 28) EmptyString);
   String (ascii_of_nat 29) (String (ascii_of_nat 30) "3")].

Definition team_tag (abbr name : string) : Elem :=
  leaf ("<a href=" ++ PyStr.quoted ("/teams/" ++ abbr ++ "/2018.html")
        ++ ">" ++ name ++ "</a>") name.

Definition goalie_table : Elem :=
  mkElem "<table></table>" EmptyString
    (fun selector =>
       if String.eqb selector "tbody tr" then [cell "Holtby"] else []).

(** What each selector finds in the page, for a given information block and
    the two goal totals. *)
Definition page_find (block away_goals home_goals selector : string)
  : list Elem :=
  if in_list selector ["date"; "time"; "arena"; "attendance"; "duration"]
  then [leaf ("<div>" ++ block ++ "</div>") block]
  else if String.eqb selector "away_name"
  then [team_tag "WSH" "Washington Capitals"]
  else if String.eqb selector "home_name"
  then [team_tag "VEG" "Vegas Golden Knights"]
  else if in_list selector NHL.fields_to_special_parse
  then [cell "1"; cell EmptyString; cell "2"; cell EmptyString; cell "3"]
  else if String.eqb selector "away_skaters"
  then [cell "a"; cell "b"; cell "c"]
  else if String.eqb selector "away_goalies"
  then [leaf "<table></table>" EmptyString; goalie_table]
  else if String.eqb selector "away_goals" then [cell away_goals]
  else if String.eqb selector "home_goals" then [cell home_goals]
  else if in_list selector ["away_shots_on_goal"; "home_shots_on_goal"]
  then [cell "30"]
  else [].

Definition page (block away_goals home_goals : string) : PyQuery :=
  [mkElem "<html></html>" EmptyString (page_find block away_goals home_goals)].

Definition boxscore_url (uri : string) : string :=
  "https://www.hockey-reference.com/boxscores/" ++ uri ++ ".html".

(** The site: one played game, anything else fails to download. *)
Definition site (url : string) : Result PyQuery :=
  if String.eqb url (boxscore_url "201806070VEG")
  then Ok (page playoff_block "4" "3")
  else if String.eqb url (boxscore_url "201710180TIE")
  then Ok (page regular_block "2" "2")
  else Raise ValueError.

Definition parse_field := Utils._parse_field "table".

Definition parse_abbreviation (tag : PyValue) : Result string :=
  match tag with
  | VTag p => Ok (NHL.Boxscores._parse_abbreviation p)
  | _ => Raise TypeError
  end.

Definition Boxscore (uri : string) : Result Instance :=
  NHL.Boxscore boxscore_url scheme element_index site (fun p => p)
    parse_field uri.

(** The instance of the played game, as [Boxscore] builds it. *)
Definition played : Instance :=
  match Boxscore "201806070VEG" with
  | Ok self => self
  | Raise _ => []
  end.

Definition tied : Instance :=
  match Boxscore "201710180TIE" with
  | Ok self => self
  | Raise _ => []
  end.



(** The anchor of a box score, as the daily listing shows it. *)
Definition anchor : PyQuery :=
  [leaf ("<a href=" ++ PyStr.quoted "/boxscores/201806070VEG.html"
         ++ ">Final</a>") "Final"].

(** A row of a team's game log and the rows around it. *)
Definition box_score_cell (uri : string) : Elem :=
  leaf ("<td data-stat=" ++ PyStr.quoted "box_score_text" ++ "><a href="
        ++ PyStr.quoted ("/boxscores/" ++ uri ++ ".html")
        ++ ">Box Score</a></td>") "Box Score".

Definition row (date uri : string) : PyQuery :=
  [mkElem ("<tr><td>" ++ date ++ "</td></tr>") date
     (fun selector =>
        if String.eqb selector "date" then [cell date]
        else if String.eqb selector
                  ("td[data-stat=" ++ PyStr.quoted "box_score_text"
                   ++ "]:first")
        then [box_score_cell uri]
        else [])].

Definition header_row : PyQuery :=
  [leaf ("<tr class=" ++ PyStr.quoted "thead" ++ "><th>Date</th></tr>")
     "Date"].

Definition schedule_doc : PyQuery :=
  [mkElem "<div id=all_tgl_basic_playoffs><table id=tgl_basic_playoffs>"
     EmptyString
     (fun selector =>
        if String.eqb selector "table#tgl_basic"
        then row "2017-10-18" "201710180DET" ++ header_row
             ++ row "2017-10-20" "201710200WAS"
        else if String.eqb selector "div#all_tgl_basic_playoffs"
        then row "2018-04-14" "201804140DET"
        else [])].

Definition schedule_url (abbreviation year : string) : string :=
  "https://www.basketball-reference.com/teams/" ++ abbreviation ++ "/"
  ++ year ++ "/gamelog/".

Definition schedule_site (url : string) : Result PyQuery :=
  if String.eqb url (schedule_url "DET" "2018") then Ok schedule_doc
  else Raise ValueError.

Definition get_stats_table (doc : PyQuery) (selector : string)
  : list PyQuery :=
  Pq.items (Pq.select doc selector).

Definition Game (game_data : PyQuery) : Result Instance :=
  NBA.Game scheme parse_field game_data.

Definition game (date uri : string) : Instance :=
  match Game (row date uri) with
  | Ok self => self
  | Raise _ => []
  end.

(** The game of a row for which the extractor finds no field at all. *)
Definition undated : Instance :=
  match NBA.Game scheme (fun _ _ _ _ => Ok VNone)
          (row "2017-10-18" "201710180DET") with
  | Ok self => self
  | Raise _ => []
  end.

Definition Schedule (abbreviation : string) (year : option string)
  : Result (list Instance) :=
  NBA.Schedule scheme schedule_url schedule_site parse_field
    (fun _ => "2018") get_stats_table abbreviation year.

End Sample.

(** * Further functions of the two files *)

(** [[f(x) for x in xs]] where [f] may raise. *)
Fixpoint mapM {A B : Type} (f : A -> Result B) (xs : list A)
  : Result (list B) :=
  match xs with
  | [] => Ok []
  | x :: rest => y <- f x ;; ys <- mapM f rest ;; Ok (y :: ys)
  end.

(** [xs[i]] for any integer [i]: a negative index counts from the end. *)
Definition index {A : Type} (xs : list A) (i : Z) : Result A :=
  let j := if (i <? 0)%Z then (i + Z.of_nat (List.length xs))%Z else i in
  if (j <? 0)%Z then Raise IndexError else item xs (Z.to_nat j).

(** No name occurs twice. *)
Fixpoint distinct (names : list string) : bool :=
  match names with
  | [] => true
  | x :: rest => negb (in_list x rest) && distinct rest
  end.

(** The attributes of a box score that only the properties compute. *)
Definition derived_attributes : list string :=
  ["_winner"; "_winning_name"; "_winning_abbr"; "_losing_name";
   "_losing_abbr"].

(** The character does not occur in the string. *)
Definition sep_free (sep : ascii) (s : string) : Prop :=
  PyStr.contains (String sep EmptyString) s = false.

(** The statistics that [nhl_int_property_decorator] splits between the two
    sides; the properties are [away_] and [home_] followed by the name. *)
Definition split_statistics : list string :=
  ["game_winning_goals"; "even_strength_assists"; "power_play_assists";
   "short_handed_assists"; "saves"; "shutout"].

(** The twelve properties under [nhl_int_property_decorator]. *)
Definition nhl_decorated_properties : list string :=
  away_skater_properties ++ away_goalie_properties
  ++ home_skater_properties ++ home_goalie_properties.

(** [int(x)] for a float: truncation towards zero. *)
Definition int_of_float (x : spec_float) : Result Z :=
  match x with
  | S754_zero _ => Ok 0%Z
  | S754_finite s m e =>
      let magnitude :=
        match e with
        | Zneg p => (Zpos m / 2 ^ Zpos p)%Z
        | _ => (Zpos m * 2 ^ e)%Z
        end in
      Ok (if s then (- magnitude)%Z else magnitude)
  | S754_infinity _ => Raise OverflowError
  | S754_nan => Raise ValueError
  end.

(** [int(v)] *)
Definition py_int (v : PyValue) : Result Z :=
  match v with
  | VStr s =>
      match PyStr.int s with
      | Some n => Ok n
      | None => Raise ValueError
      end
  | VInt n => Ok n
  | VFloat x => int_of_float x
  | VNone | VList _ | VTag _ => Raise TypeError
  end.

(** ** [Boxscore.dataframe] *)

Module NHLFrame.

(** A [DataFrame] by its index and its rows, a row by its columns in the
    order of the dictionary it comes from. *)
Record DataFrame : Type := mkDataFrame {
  frame_index : list PyValue;
  frame_rows : list (list (string * PyValue))
}.

(** The keys of [fields_to_include], in the order they are written. *)
Definition fields_to_include : list string :=
  ["arena"; "attendance"; "away_assists"; "away_even_strength_assists";
   "away_even_strength_goals"; "away_game_winning_goals"; "away_goals";
   "away_penalties_in_minutes"; "away_points"; "away_power_play_assists";
   "away_power_play_goals"; "away_save_percentage"; "away_saves";
   "away_shooting_percentage"; "away_short_handed_assists";
   "away_short_handed_goals"; "away_shots_on_goal"; "away_shutout";
   "date"; "duration"; "home_assists"; "home_even_strength_assists";
   "home_even_strength_goals"; "home_game_winning_goals"; "home_goals";
   "home_penalties_in_minutes"; "home_points"; "home_power_play_assists";
   "home_power_play_goals"; "home_save_percentage"; "home_saves";
   "home_shooting_percentage"; "home_short_handed_assists";
   "home_short_handed_goals"; "home_shots_on_goal"; "home_shutout";
   "losing_abbr"; "losing_name"; "time"; "winner"; "winning_abbr";
   "winning_name"].

Definition is_none (v : PyValue) : bool :=
  match v with
  | VNone => true
  | _ => false
  end.

Section Frame.

Variable HOME AWAY : string.
Variable _parse_abbreviation : PyValue -> Result string.
Variable int_property_decorator :
  (Instance -> Result PyValue) -> Instance -> Result (option Z).
Variable float_property_decorator :
  (Instance -> Result PyValue) -> Instance -> Result (option spec_float).

(** [self.<name>] for a property of the class. *)
Definition read_property (name : string) (self : Instance) : Result PyValue :=
  match find (fun entry => String.eqb (fst entry) name)
          (NHL.properties HOME AWAY _parse_abbreviation
             int_property_decorator float_property_decorator) with
  | Some (_, property) => property self
  | None => Raise AttributeError
  end.

Definition dataframe (self : Instance) : Result (option DataFrame) :=
  away_goals <- getattr self "_away_goals" ;;
  home_goals <- getattr self "_home_goals" ;;
  if is_none away_goals && is_none home_goals then Ok None
  else
    fields <- mapM (fun name => value <- read_property name self ;;
                                Ok (name, value)) fields_to_include ;;
    uri <- getattr self "_uri" ;;
    Ok (Some (mkDataFrame [uri] [fields])).

End Frame.

End NHLFrame.

(** ** The class [Boxscores], the games of a day *)

Module NHLBoxscores.

(** One dictionary of the list under ['boxscores']. *)
Record game_info : Type := mkGameInfo {
  boxscore : string;
  away_name : string;
  away_abbr : string;
  home_name : string;
  home_abbr : string
}.

Definition _get_name (name : PyQuery) : string * string :=
  (Pq.text name, NHL.Boxscores._parse_abbreviation name).

Definition _get_team_names (game : PyQuery)
  : Result (string * string * string * string) :=
  let links := Pq.items (Pq.select game "td a") in
  away <- item links 0 ;;
  home <- index links (-1) ;;
  let '(away_name, away_abbr) := _get_name away in
  let '(home_name, home_abbr) := _get_name home in
  Ok (away_name, away_abbr, home_name, home_abbr).

(** One turn of the loop [for game in games]. *)
Definition extract_game (all_boxscores : list game_info) (game : PyQuery)
  : Result (list game_info) :=
  names <- _get_team_names game ;;
  let '(away_name, away_abbr, home_name, home_abbr) := names in
  let boxscore_url :=
    Pq.select game ("td[class=" ++ PyStr.quoted "right gamelink" ++ "] a") in
  let boxscore_uri := NHL.Boxscores._get_boxscore_uri boxscore_url in
  Ok (all_boxscores
      ++ [mkGameInfo boxscore_uri away_name away_abbr home_name home_abbr]).

Definition _extract_game_info (games : list PyQuery)
  : Result (list game_info) :=
  foldM extract_game games [].

Section Find.

Variable BOXSCORES_URL : nat -> nat -> nat -> string.
Variable pq_url : string -> Result PyQuery.

Definition _create_url (date : PyDatetime.datetime) : string :=
  BOXSCORES_URL (PyDatetime.month date) (PyDatetime.day date)
    (PyDatetime.year date).

Definition _get_requested_page (url : string) : Result PyQuery := pq_url url.

(** [_find_games(date)]: the list it stores under ['boxscores']. *)
Definition _find_games (date : PyDatetime.datetime)
  : Result (list game_info) :=
  let url := _create_url date in
  page <- _get_requested_page url ;;
  let games :=
    Pq.items (Pq.select page ("table[class=" ++ PyStr.quoted "teams" ++ "]")) in
  _extract_game_info games.

(** [Boxscores(date).games['boxscores']] *)
Definition games (date : PyDatetime.datetime) : Result (list game_info) :=
  _find_games date.

End Find.

End NHLBoxscores.

(** The dictionary of one game: the away team from the first link, the home
    team from the last. *)
Definition info_of (game : PyQuery) : NHLBoxscores.game_info :=
  let links := Pq.items (Pq.select game "td a") in
  let away := hd [] links in
  let home := last links [] in
  NHLBoxscores.mkGameInfo
    (NHL.Boxscores._get_boxscore_uri
       (Pq.select game ("td[class=" ++ PyStr.quoted "right gamelink" ++ "] a")))
    (Pq.text away) (NHL.Boxscores._parse_abbreviation away)
    (Pq.text home) (NHL.Boxscores._parse_abbreviation home).

(** ** More of [Game] and [Schedule] *)

Module NBAGame.

Section Constants.

Variable WIN LOSS HOME AWAY : string.

Definition game (self : Instance) : Result Z :=
  v <- getattr self "_game" ;; py_int v.

Definition location (self : Instance) : Result string :=
  v <- getattr self "_location" ;;
  s <- as_str v ;;
  if String.eqb (PyStr.lower s) "@" then Ok AWAY else Ok HOME.

Definition opponent_abbr (self : Instance) : Result PyValue :=
  getattr self "_opponent_abbr".

Definition result (self : Instance) : Result string :=
  v <- getattr self "_result" ;;
  s <- as_str v ;;
  if String.eqb (PyStr.lower s) "l" then Ok LOSS else Ok WIN.

End Constants.

Definition points_scored (self : Instance) : Result Z :=
  v <- getattr self "_points_scored" ;; py_int v.

Definition points_allowed (self : Instance) : Result Z :=
  v <- getattr self "_points_allowed" ;; py_int v.

End NBAGame.

Module NBASchedule.

(** [schedule[index]] *)
Definition __getitem__ (games : list Instance) (i : Z) : Result Instance :=
  index games i.

Definition __repr__ (games : list Instance) : list Instance := games.

(** [iter(schedule)], as the list of what it yields. *)
Definition __iter__ (games : list Instance) : list Instance := __repr__ games.

Definition __len__ (games : list Instance) : nat :=
  List.length (__repr__ games).

End NBASchedule.

(** ** The games of a sample day *)

Module SampleDay.

Definition link (abbr name : string) : PyQuery := [Sample.team_tag abbr name].

Definition game_table (away_abbr away home_abbr home uri : string) : PyQuery :=
  [mkElem "<table class=teams></table>" EmptyString
     (fun selector =>
        if String.eqb selector "td a"
        then link away_abbr away
             ++ [Sample.leaf ("<a href=" ++ PyStr.quoted
                                ("/boxscores/" ++ uri ++ ".html")
                              ++ ">Final</a>") "Final"]
             ++ link home_abbr home
        else if String.eqb selector
                  ("td[class=" ++ PyStr.quoted "right gamelink" ++ "] a")
        then [Sample.leaf ("<a href=" ++ PyStr.quoted
                             ("/boxscores/" ++ uri ++ ".html")
                           ++ ">Final</a>") "Final"]
        else [])].

Definition day_page : PyQuery :=
  [mkElem "<html></html>" EmptyString
     (fun selector =>
        if String.eqb selector ("table[class=" ++ PyStr.quoted "teams" ++ "]")
        then game_table "WSH" "Washington Capitals" "VEG"
               "Vegas Golden Knights" "201806070VEG"
             ++ game_table "BOS" "Boston Bruins" "NYR" "New York Rangers"
                  "201806070NYR"
        else [])].

Definition empty_day_page : PyQuery :=
  [mkElem "<html></html>" EmptyString (fun _ => [])].

Definition boxscores_url (month day year : nat) : string :=
  if (month =? 6)%nat && (day =? 7)%nat && (year =? 2018)%nat then "played"
  else if (year =? 2018)%nat then "idle" else "missing".

Definition site (url : string) : Result PyQuery :=
  if String.eqb url "played" then Ok day_page
  else if String.eqb url "idle" then Ok empty_day_page
  else Raise ValueError.

Definition games (date : PyDatetime.datetime)
  : Result (list NHLBoxscores.game_info) :=
  NHLBoxscores.games boxscores_url site date.

End SampleDay.

(** ** A page with every statistic *)

Module SampleFull.

Definition page_find (selector : string) : list Elem :=
  match Sample.page_find Sample.playoff_block "4" "3" selector with
  | [] => [Sample.cell "7"]
  | found => found
  end.

Definition site (url : string) : Result PyQuery :=
  Ok [mkElem "<html></html>" EmptyString page_find].

(** A site whose pages have no element. *)
Definition empty_site (url : string) : Result PyQuery := Ok [].

Definition Boxscore (uri : string) : Result Instance :=
  NHL.Boxscore Sample.boxscore_url Sample.scheme Sample.element_index site
    (fun p => p) Sample.parse_field uri.

Definition played : Instance :=
  match Boxscore "201806070VEG" with
  | Ok self => self
  | Raise _ => []
  end.

Definition dataframe (self : Instance) : Result (option NHLFrame.DataFrame) :=
  NHLFrame.dataframe "Home" "Away" Sample.parse_abbreviation
    Decorators.int_property_decorator Decorators.float_property_decorator
    self.

Definition frame : NHLFrame.DataFrame :=
  match dataframe played with
  | Ok (Some frame) => frame
  | _ => NHLFrame.mkDataFrame [] []
  end.

End SampleFull.

(** * Properties *)

(** Membership in a list that is written out. *)
Ltac member := simpl; repeat (first [left; reflexivity | right]).

(** ** Opponent/side aggregation *)

Lemma sum_ints_acc (cells : list string) (num : Z) :
  NHL.sum_ints cells num = (num + Zsum (parsed_ints cells))%Z.
Proof.
  revert num.
  induction cells as [|x rest IH]; intros num; simpl.
  - lia.
  - unfold parsed_ints in *. simpl.
    destruct (PyStr.int x) as [n|]; rewrite IH; simpl; lia.
Qed.

Lemma slice_to_count {A : Type} (xs : list A) (n : nat) :
  slice_to xs (Z.of_nat n) = firstn n xs.
Proof.
  unfold slice_to, slice_bound.
  destruct (Z.ltb_spec (Z.of_nat n) 0); [lia|].
  now rewrite Nat2Z.id.
Qed.

Lemma slice_from_count {A : Type} (xs : list A) (n : nat) :
  slice_from xs (Z.of_nat n) = skipn n xs.
Proof.
  unfold slice_from, slice_bound.
  destruct (Z.ltb_spec (Z.of_nat n) 0); [lia|].
  now rewrite Nat2Z.id.
Qed.

(** The decorator on a list of cells, by the two tests it makes on the name
    of the property. *)
Lemma nhl_property_list (name : string) (self : Instance)
  (value : list string) (skaters goalies : nat) :
  getattr self (String "_" name) = Ok (VList value) ->
  getattr self "_away_skaters" = Ok (VInt (Z.of_nat skaters)) ->
  getattr self "_away_goalies" = Ok (VInt (Z.of_nat goalies)) ->
  NHL.nhl_property name self =
  Ok (Zsum (parsed_ints
       (let index :=
          if in_list name NHL.goalie_properties then goalies else skaters in
        if PyStr.contains "home" name then skipn index value
        else firstn index value))).
Proof.
  intros Hv Hs Hg.
  unfold NHL.nhl_property, NHL.nhl_int_property_decorator, NHL.attr.
  rewrite Hv, Hs, Hg. cbn [bind].
  destruct (in_list name NHL.goalie_properties); cbn zeta;
    unfold NHL.side_subset;
    destruct (PyStr.contains "home" name);
    rewrite ?slice_to_count, ?slice_from_count, sum_ints_acc;
    f_equal.
Qed.

(** C1: on a list of cells [value], with [skaters] and [goalies] the recorded
    away-side counts, an away-team property under [nhl_int_property_decorator]
    returns the sum of the entries that parse as integers among the first N
    cells, a home-team property the sum of those from position N onward, where
    N is the count of goalies for the saves and shutout properties and the
    count of skaters for the others. *)
Theorem nhl_int_property_decorator_sums (name : string) (self : Instance)
  (value : list string) (skaters goalies : nat) :
  getattr self (String "_" name) = Ok (VList value) ->
  getattr self "_away_skaters" = Ok (VInt (Z.of_nat skaters)) ->
  getattr self "_away_goalies" = Ok (VInt (Z.of_nat goalies)) ->
  (In name away_skater_properties ->
   NHL.nhl_property name self
   = Ok (Zsum (parsed_ints (firstn skaters value))))
  /\ (In name home_skater_properties ->
      NHL.nhl_property name self
      = Ok (Zsum (parsed_ints (skipn skaters value))))
  /\ (In name away_goalie_properties ->
      NHL.nhl_property name self
      = Ok (Zsum (parsed_ints (firstn goalies value))))
  /\ (In name home_goalie_properties ->
      NHL.nhl_property name self
      = Ok (Zsum (parsed_ints (skipn goalies value)))).
Proof.
  intros Hv Hs Hg.
  pose proof (nhl_property_list name self value skaters goalies Hv Hs Hg) as E.
  repeat split; intros Hin; simpl in Hin;
    repeat (destruct Hin as [<-|Hin]; [exact E|]); contradiction.
Qed.

Lemma nhl_int_property_decorator_sums_witness :
  NHL.nhl_property "away_power_play_assists" Sample.played = Ok 3%Z
  /\ NHL.nhl_property "home_power_play_assists" Sample.played = Ok 3%Z
  /\ NHL.nhl_property "away_saves" Sample.played = Ok 1%Z
  /\ NHL.nhl_property "home_saves" Sample.played = Ok 5%Z.
Proof.
  pose (cells := ["1"; EmptyString; "2"; EmptyString; "3"]).
  pose proof (fun name =>
    nhl_int_property_decorator_sums name Sample.played cells 3 1) as T.
  split; [|split; [|split]].
  - destruct (T "away_power_play_assists" eq_refl eq_refl eq_refl)
      as [H _].
    apply H. member.
  - destruct (T "home_power_play_assists" eq_refl eq_refl eq_refl)
      as [_ [H _]].
    apply H. member.
  - destruct (T "away_saves" eq_refl eq_refl eq_refl) as [_ [_ [H _]]].
    apply H. member.
  - destruct (T "home_saves" eq_refl eq_refl eq_refl) as [_ [_ [_ H]]].
    apply H. member.
Defined.

(** A cell with one of the separators U+001C to U+001F does not parse as an
    integer, although [str.strip] would remove the separator; the decorator
    skips such a cell.  The two white-space characters above 127 are
    skipped by [int] as the ASCII ones are. *)
Example separator_cells_are_skipped :
  let self :=
    setattr (setattr (setattr [] "_away_shutout"
                        (VList Sample.separator_cells))
               "_away_skaters" (VInt 3)) "_away_goalies" (VInt 3) in
  map PyStr.int Sample.separator_cells = [None; None; None]
  /\ map PyStr.strip Sample.separator_cells = ["7"; "5"; "3"]
  /\ NHL.nhl_property "away_shutout" self = Ok 0%Z
  /\ PyStr.int (String (ascii_of_nat 160) (" 7" ++ String (ascii_of_nat 133)
                                             (String PyStr.newline EmptyString)))
     = Some 7%Z.
Proof. cbv zeta. split; [|split; [|split]]; reflexivity. Qed.

(** ** The date and location block *)

Lemma is_playoff_round_label (line : string) :
  NHL.is_playoff_round line = true <-> has_round_label line.
Proof.
  unfold NHL.is_playoff_round, has_round_label.
  rewrite existsb_exists. reflexivity.
Qed.

Section DateAndLocation.

Variable BOXSCORE_SCHEME : string -> option string.
Variable BOXSCORE_ELEMENT_INDEX : string -> option nat.

Let parse := NHL._parse_game_date_and_location BOXSCORE_SCHEME
               BOXSCORE_ELEMENT_INDEX.

(** The function on a block that has a second line. *)
Lemma parse_block (field scheme block round_line : string) (index : nat)
  (boxscore : PyQuery) (others : list string) :
  BOXSCORE_SCHEME field = Some scheme ->
  BOXSCORE_ELEMENT_INDEX field = Some index ->
  Pq.texts boxscore scheme = block :: others ->
  nth_error (PyStr.split PyStr.newline block) 1 = Some round_line ->
  parse field boxscore =
  Ok (read_line (PyStr.split PyStr.newline block)
        (if NHL.is_playoff_round round_line
         then (if negb (String.eqb field "date")
                  && negb (String.eqb field "time")
               then index + 1 else index)
         else index)).
Proof.
  intros Hs Hi Ht Hl.
  unfold parse, NHL._parse_game_date_and_location, subscript, item.
  rewrite Hs, Hi. cbn [bind]. rewrite Ht.
  change (nth_error (block :: others) 0) with (Some block). cbn [bind].
  rewrite Hl. cbn [bind].
  set (i := if NHL.is_playoff_round round_line then _ else _).
  unfold read_line, try_except.
  destruct (nth_error (PyStr.split PyStr.newline block) i) as [l|] eqn:E.
  - f_equal. symmetry. now apply nth_error_nth.
  - cbn. f_equal. symmetry. apply nth_overflow. now apply nth_error_None.
Qed.

(** C2, amended: on a block that has a second line, when that line contains
    a playoff-round label (compared without case), every field except [date]
    and [time] is read from its configured index plus one, [date] and [time]
    from their own index; when that line has no such label, every field is
    read from its configured index. *)
Theorem playoff_round_shifts_index (field scheme block round_line : string)
  (index : nat) (boxscore : PyQuery) (others : list string) :
  BOXSCORE_SCHEME field = Some scheme ->
  BOXSCORE_ELEMENT_INDEX field = Some index ->
  Pq.texts boxscore scheme = block :: others ->
  nth_error (PyStr.split PyStr.newline block) 1 = Some round_line ->
  let game_info := PyStr.split PyStr.newline block in
  (has_round_label round_line -> field <> "date" -> field <> "time" ->
   parse field boxscore = Ok (read_line game_info (index + 1)))
  /\ (has_round_label round_line -> field = "date" \/ field = "time" ->
      parse field boxscore = Ok (read_line game_info index))
  /\ (~ has_round_label round_line ->
      parse field boxscore = Ok (read_line game_info index)).
Proof.
  intros Hs Hi Ht Hl game_info.
  pose proof (parse_block field scheme block round_line index boxscore others
                Hs Hi Ht Hl) as E.
  fold game_info in E.
  repeat split.
  - intros Hr Hd Htm. apply is_playoff_round_label in Hr.
    rewrite E, Hr.
    apply String.eqb_neq in Hd, Htm. now rewrite Hd, Htm.
  - intros Hr Hf. apply is_playoff_round_label in Hr.
    rewrite E, Hr.
    destruct Hf as [-> | ->]; reflexivity.
  - intros Hr. rewrite E.
    destruct (NHL.is_playoff_round round_line) eqn:Er; [|reflexivity].
    exfalso. apply Hr. now apply is_playoff_round_label.
Qed.

End DateAndLocation.

Lemma playoff_round_shifts_index_witness :
  let parse := NHL._parse_game_date_and_location Sample.scheme
                 Sample.element_index in
  parse "arena" (Sample.page Sample.playoff_block "4" "3") = Ok "Arena: X"
  /\ parse "date" (Sample.page Sample.playoff_block "4" "3")
     = Ok "Wed, Oct 18, 2017, 7:00 PM"
  /\ parse "arena" (Sample.page Sample.regular_block "2" "2") = Ok "Arena: X".
Proof.
  assert (Hlabel : has_round_label "Eastern Conference Finals").
  { exists "eastern conference finals". split; [member | reflexivity]. }
  assert (Hnone : ~ has_round_label "Arena: X").
  { intros H. apply is_playoff_round_label in H. discriminate H. }
  split; [|split].
  - destruct (playoff_round_shifts_index Sample.scheme Sample.element_index
                "arena" "arena" Sample.playoff_block
                "Eastern Conference Finals" 1
                (Sample.page Sample.playoff_block "4" "3") []
                eq_refl eq_refl eq_refl eq_refl) as [H _].
    apply H; [exact Hlabel | discriminate | discriminate].
  - destruct (playoff_round_shifts_index Sample.scheme Sample.element_index
                "date" "date" Sample.playoff_block
                "Eastern Conference Finals" 0
                (Sample.page Sample.playoff_block "4" "3") []
                eq_refl eq_refl eq_refl eq_refl) as [_ [H _]].
    apply H; [exact Hlabel | now left].
  - destruct (playoff_round_shifts_index Sample.scheme Sample.element_index
                "arena" "arena" Sample.regular_block "Arena: X" 1
                (Sample.page Sample.regular_block "2" "2") []
                eq_refl eq_refl eq_refl eq_refl) as [_ [_ H]].
    apply H. exact Hnone.
Defined.

(** A block of a single line has no second line to test: the function
    raises before it reads any field. *)
Lemma one_line_block_raises (BOXSCORE_SCHEME : string -> option string)
  (BOXSCORE_ELEMENT_INDEX : string -> option nat)
  (field scheme block : string) (index : nat) (boxscore : PyQuery)
  (others : list string) :
  BOXSCORE_SCHEME field = Some scheme ->
  BOXSCORE_ELEMENT_INDEX field = Some index ->
  Pq.texts boxscore scheme = block :: others ->
  nth_error (PyStr.split PyStr.newline block) 1 = None ->
  NHL._parse_game_date_and_location BOXSCORE_SCHEME BOXSCORE_ELEMENT_INDEX
    field boxscore = Raise IndexError.
Proof.
  intros Hs Hi Ht Hl.
  unfold NHL._parse_game_date_and_location, subscript, item.
  rewrite Hs, Hi. cbn [bind]. rewrite Ht.
  change (nth_error (block :: others) 0) with (Some block). cbn [bind].
  now rewrite Hl.
Qed.

(** C2, as stated, fails: a block of a single line has no round label on
    line 1 and [date] is configured to read line 0, which the block has; the
    function raises [IndexError] at its test of line 1 and reads nothing. *)
Lemma one_line_block_reads_no_field :
  let parse := NHL._parse_game_date_and_location Sample.scheme
                 Sample.element_index in
  let boxscore := Sample.page Sample.one_line_block "2" "2" in
  let game_info := PyStr.split PyStr.newline Sample.one_line_block in
  game_info = ["Wed, Oct 18, 2017, 7:00 PM"]
  /\ ~ has_round_label (read_line game_info 1)
  /\ Sample.element_index "date" = Some 0
  /\ parse "date" boxscore = Raise IndexError
  /\ parse "date" boxscore <> Ok (read_line game_info 0).
Proof.
  cbv zeta. split; [reflexivity|]. split.
  - intros H. apply is_playoff_round_label in H. discriminate H.
  - split; [reflexivity|]. split; [reflexivity | discriminate].
Qed.

(** ** Indexes out of range and pages that cannot be retrieved *)

Section BoxscoreConstruction.

Variable BOXSCORE_URL : string -> string.
Variable BOXSCORE_SCHEME : string -> option string.
Variable BOXSCORE_ELEMENT_INDEX : string -> option nat.
Variable pq_url : string -> Result PyQuery.
Variable _remove_html_comment_tags : PyQuery -> PyQuery.
Variable _parse_field :
  (string -> option string) -> PyQuery -> string -> nat -> Result PyValue.

Let parse := NHL._parse_game_date_and_location BOXSCORE_SCHEME
               BOXSCORE_ELEMENT_INDEX.
Let Boxscore := NHL.Boxscore BOXSCORE_URL BOXSCORE_SCHEME
                  BOXSCORE_ELEMENT_INDEX pq_url _remove_html_comment_tags
                  _parse_field.

(** A selector that finds nothing makes the function raise. *)
Lemma parse_no_items (field scheme : string) (boxscore : PyQuery) :
  BOXSCORE_SCHEME field = Some scheme ->
  Pq.texts boxscore scheme = [] ->
  parse field boxscore = Raise IndexError.
Proof.
  intros Hs Ht.
  unfold parse, NHL._parse_game_date_and_location, subscript, item.
  rewrite Hs. cbn [bind]. now rewrite Ht.
Qed.

Lemma parse_attribute_uri (boxscore : PyQuery) (self : Instance) :
  NHL.parse_attribute BOXSCORE_SCHEME BOXSCORE_ELEMENT_INDEX _parse_field
    boxscore self "_uri" = Ok self.
Proof. reflexivity. Qed.

Lemma parse_attribute_date (boxscore : PyQuery) (self : Instance) :
  NHL.parse_attribute BOXSCORE_SCHEME BOXSCORE_ELEMENT_INDEX _parse_field
    boxscore self "_date"
  = (value <- parse "date" boxscore ;; Ok (setattr self "_date" (VStr value))).
Proof. reflexivity. Qed.

Lemma new_boxscore_names (uri : string) :
  map fst (NHL.new_boxscore uri)
  = "_uri" :: "_date" :: tl NHL.boxscore_attributes.
Proof. reflexivity. Qed.

Lemma foldM_cons {A S : Type} (body : S -> A -> Result S) (x : A)
  (xs : list A) (s : S) :
  foldM body (x :: xs) s = (s' <- body s x ;; foldM body xs s').
Proof. reflexivity. Qed.

(** The error of the first parsed attribute leaves the constructor. *)
Lemma Boxscore_no_date_items (uri scheme : string) (url_data : PyQuery) :
  pq_url (BOXSCORE_URL uri) = Ok url_data ->
  Pq.truth (_remove_html_comment_tags url_data) = true ->
  BOXSCORE_SCHEME "date" = Some scheme ->
  Pq.texts (_remove_html_comment_tags url_data) scheme = [] ->
  Boxscore uri = Raise IndexError.
Proof.
  intros Hp Ht Hs Hi.
  unfold Boxscore, NHL.Boxscore, NHL._parse_game_data,
    NHL._retrieve_html_page.
  rewrite Hp, Ht, new_boxscore_names.
  rewrite foldM_cons, parse_attribute_uri.
  cbn [bind negb].
  rewrite foldM_cons, parse_attribute_date.
  rewrite (parse_no_items "date" scheme _ Hs Hi).
  reflexivity.
Qed.

(** C4, as amended: when the selector of a date/location field finds no
    item, [_parse_game_date_and_location] raises [IndexError], and for the
    first parsed field the error leaves [Boxscore]; when the block has a
    second line but no line at the index the field reads (the configured
    index, or one more after a round label), the function returns the empty
    string and raises nothing. *)
Theorem out_of_range_line_reads_empty (field scheme block round_line : string)
  (index : nat) (boxscore : PyQuery) (others : list string) :
  BOXSCORE_SCHEME field = Some scheme ->
  (Pq.texts boxscore scheme = [] -> parse field boxscore = Raise IndexError)
  /\ (forall uri url_data,
        field = "date" ->
        pq_url (BOXSCORE_URL uri) = Ok url_data ->
        boxscore = _remove_html_comment_tags url_data ->
        Pq.truth boxscore = true ->
        Pq.texts boxscore scheme = [] ->
        Boxscore uri = Raise IndexError)
  /\ (BOXSCORE_ELEMENT_INDEX field = Some index ->
      Pq.texts boxscore scheme = block :: others ->
      nth_error (PyStr.split PyStr.newline block) 1 = Some round_line ->
      let game_info := PyStr.split PyStr.newline block in
      (List.length game_info <= index ->
       parse field boxscore = Ok EmptyString)
      /\ (has_round_label round_line -> field <> "date" -> field <> "time" ->
          List.length game_info <= index + 1 ->
          parse field boxscore = Ok EmptyString)).
Proof.
  intros Hs. split; [|split].
  - now apply parse_no_items.
  - intros uri url_data -> Hp -> Ht Hi.
    now apply Boxscore_no_date_items with (scheme := scheme) (url_data := url_data).
  - intros Hi Ht Hl game_info.
    pose proof (parse_block BOXSCORE_SCHEME BOXSCORE_ELEMENT_INDEX field
                  scheme block round_line index boxscore others Hs Hi Ht Hl)
      as E.
    fold parse game_info in E.
    split.
    + intros Hlen. rewrite E. unfold read_line. f_equal.
      apply nth_overflow.
      destruct (NHL.is_playoff_round round_line); [|exact Hlen].
      destruct (_ && _); lia.
    + intros Hr Hd Htm Hlen. rewrite E. unfold read_line. f_equal.
      apply nth_overflow.
      apply is_playoff_round_label in Hr. rewrite Hr.
      apply String.eqb_neq in Hd, Htm. rewrite Hd, Htm. exact Hlen.
Qed.

(** C5: when the download raises, [_retrieve_html_page] yields no document,
    [Boxscore] returns without raising, and the instance is the one
    [__init__] started from: every attribute it declared is [None] and the
    two side counts are not set. *)
Theorem failed_retrieval_leaves_boxscore_empty (uri : string) (e : Exn) :
  pq_url (BOXSCORE_URL uri) = Raise e ->
  NHL._retrieve_html_page BOXSCORE_URL pq_url _remove_html_comment_tags uri
  = None
  /\ Boxscore uri = Ok (NHL.new_boxscore uri)
  /\ (forall name, In name NHL.boxscore_attributes ->
        getattr (NHL.new_boxscore uri) name = Ok VNone)
  /\ lookup_attr (NHL.new_boxscore uri) "_away_skaters" = None
  /\ lookup_attr (NHL.new_boxscore uri) "_away_goalies" = None.
Proof.
  intros Hp.
  assert (Hr : NHL._retrieve_html_page BOXSCORE_URL pq_url
                 _remove_html_comment_tags uri = None).
  { unfold NHL._retrieve_html_page. now rewrite Hp. }
  split; [exact Hr|]. split.
  - unfold Boxscore, NHL.Boxscore, NHL._parse_game_data. now rewrite Hr.
  - split; [|split; reflexivity].
    intros name Hin. simpl in Hin.
    repeat (destruct Hin as [<-|Hin]; [reflexivity|]). contradiction.
Qed.

End BoxscoreConstruction.

(** C4, as stated, fails: a block of two lines read at index 3 gives the
    empty string and raises nothing. *)
Lemma short_block_reads_empty_string :
  let parse := NHL._parse_game_date_and_location Sample.scheme
                 Sample.element_index in
  let boxscore := Sample.page Sample.short_block "2" "2" in
  Sample.element_index "duration" = Some 3
  /\ List.length (PyStr.split PyStr.newline Sample.short_block) = 2
  /\ parse "duration" boxscore = Ok EmptyString
  /\ ~ raises (parse "duration" boxscore).
Proof.
  repeat split.
  intros [e He]. discriminate He.
Qed.

Lemma out_of_range_line_reads_empty_witness :
  let missing := fun _ : string => Some "missing" in
  let boxscore := Sample.page Sample.short_block "2" "2" in
  NHL._parse_game_date_and_location missing Sample.element_index "date"
    boxscore = Raise IndexError
  /\ NHL.Boxscore Sample.boxscore_url missing Sample.element_index
       Sample.site (fun p => p) Sample.parse_field "201806070VEG"
     = Raise IndexError
  /\ NHL._parse_game_date_and_location Sample.scheme Sample.element_index
       "duration" boxscore = Ok EmptyString.
Proof.
  intros missing boxscore.
  split; [|split].
  - destruct (out_of_range_line_reads_empty Sample.boxscore_url missing
                Sample.element_index Sample.site (fun p => p)
                Sample.parse_field "date" "missing" EmptyString EmptyString 0
                boxscore [] eq_refl) as [H _].
    apply H. reflexivity.
  - destruct (out_of_range_line_reads_empty Sample.boxscore_url missing
                Sample.element_index Sample.site (fun p => p)
                Sample.parse_field "date" "missing" EmptyString EmptyString 0
                (Sample.page Sample.playoff_block "4" "3") [] eq_refl)
      as [_ [H _]].
    apply (H "201806070VEG" (Sample.page Sample.playoff_block "4" "3"));
      reflexivity.
  - destruct (out_of_range_line_reads_empty Sample.boxscore_url Sample.scheme
                Sample.element_index Sample.site (fun p => p)
                Sample.parse_field "duration" "duration" Sample.short_block
                "Arena: X" 3 boxscore [] eq_refl) as [_ [_ H]].
    destruct (H eq_refl eq_refl eq_refl) as [H3 _].
    apply H3. simpl. lia.
Defined.

Lemma failed_retrieval_leaves_boxscore_empty_witness :
  Sample.Boxscore "201901010XXX" = Ok (NHL.new_boxscore "201901010XXX")
  /\ getattr (NHL.new_boxscore "201901010XXX") "_home_goals" = Ok VNone.
Proof.
  destruct (failed_retrieval_leaves_boxscore_empty Sample.boxscore_url
              Sample.scheme Sample.element_index Sample.site (fun p => p)
              Sample.parse_field "201901010XXX" ValueError eq_refl)
    as [_ [H [Hnone _]]].
  split; [exact H|].
  apply Hnone. member.
Defined.

(** ** The properties of a box score *)

Section Properties.

Variable HOME AWAY : string.
Variable _parse_abbreviation : PyValue -> Result string.
Variable int_property_decorator :
  (Instance -> Result PyValue) -> Instance -> Result (option Z).
Variable float_property_decorator :
  (Instance -> Result PyValue) -> Instance -> Result (option spec_float).

Let home_goals := NHL.home_goals int_property_decorator.
Let away_goals := NHL.away_goals int_property_decorator.
Let winner := NHL.winner HOME AWAY int_property_decorator.
Let winning_name := NHL.winning_name HOME AWAY int_property_decorator.
Let losing_name := NHL.losing_name HOME AWAY int_property_decorator.
Let winning_abbr :=
  NHL.winning_abbr HOME AWAY _parse_abbreviation int_property_decorator.
Let losing_abbr :=
  NHL.losing_abbr HOME AWAY _parse_abbreviation int_property_decorator.
Let properties :=
  NHL.properties HOME AWAY _parse_abbreviation int_property_decorator
    float_property_decorator.

Lemma winner_of_goals (self : Instance) (home away : Z) :
  home_goals self = Ok (Some home) ->
  away_goals self = Ok (Some away) ->
  winner self = Ok (if (away <? home)%Z then HOME else AWAY).
Proof.
  intros Hh Ha.
  unfold winner, NHL.winner. fold home_goals away_goals.
  rewrite Hh, Ha. cbn [bind gt].
  now destruct (away <? home)%Z.
Qed.

(** C10: with both goal totals coerced, [winner] is [HOME] exactly when the
    home total is strictly greater and [AWAY] in every other case, a tie
    included; it is never anything else; and the names and abbreviations of
    the winning and losing sides are taken from the home or away name tag by
    the same comparison. *)
Theorem winner_follows_goal_comparison (self : Instance) (home away : Z)
  (home_tag away_tag : PyValue) :
  HOME <> AWAY ->
  home_goals self = Ok (Some home) ->
  away_goals self = Ok (Some away) ->
  getattr self "_home_name" = Ok home_tag ->
  getattr self "_away_name" = Ok away_tag ->
  (winner self = Ok HOME <-> (away < home)%Z)
  /\ ((home <= away)%Z -> winner self = Ok AWAY)
  /\ (home = away -> winner self = Ok AWAY)
  /\ (winner self = Ok HOME \/ winner self = Ok AWAY)
  /\ ((away < home)%Z ->
      winning_name self = tag_text home_tag
      /\ winning_abbr self = _parse_abbreviation home_tag
      /\ losing_name self = tag_text away_tag
      /\ losing_abbr self = _parse_abbreviation away_tag)
  /\ ((home <= away)%Z ->
      winning_name self = tag_text away_tag
      /\ winning_abbr self = _parse_abbreviation away_tag
      /\ losing_name self = tag_text home_tag
      /\ losing_abbr self = _parse_abbreviation home_tag).
Proof.
  intros Hne Hh Ha Hht Hat.
  pose proof (winner_of_goals self home away Hh Ha) as W.
  assert (Eh : String.eqb HOME HOME = true) by apply String.eqb_refl.
  assert (Ea : String.eqb AWAY HOME = false).
  { apply String.eqb_neq. congruence. }
  destruct (Z.ltb_spec away home) as [Hlt|Hge].
  - split; [split; [intros _; exact Hlt | intros _; exact W]|].
    split; [intros; lia|]. split; [intros; lia|]. split; [now left|].
    split; [|intros; lia]. intros _.
    unfold winning_name, winning_abbr, losing_name, losing_abbr,
      NHL.winning_name, NHL.winning_abbr, NHL.losing_name, NHL.losing_abbr.
    fold winner. rewrite W. cbn [bind]. rewrite Eh, Hht, Hat.
    repeat split.
  - split; [split; [intros E; rewrite W in E; congruence | intros; lia]|].
    split; [intros _; exact W|]. split; [intros _; exact W|].
    split; [now right|]. split; [intros; lia|]. intros _.
    unfold winning_name, winning_abbr, losing_name, losing_abbr,
      NHL.winning_name, NHL.winning_abbr, NHL.losing_name, NHL.losing_abbr.
    fold winner. rewrite W. cbn [bind]. rewrite Ea, Hht, Hat.
    repeat split.
Qed.

(** *** A record without data *)

Hypothesis int_keeps_no_data : keeps_no_data int_property_decorator.
Hypothesis float_keeps_no_data : keeps_no_data float_property_decorator.

Lemma int_property_no_data (func : Instance -> Result PyValue)
  (self : Instance) :
  raises (func self) \/ func self = Ok VNone ->
  reports_no_data (NHL.int_property (int_property_decorator func) self).
Proof.
  intros H. unfold NHL.int_property.
  destruct (int_keeps_no_data func self H) as [[e He]|He]; rewrite He.
  - left. now exists e.
  - now right.
Qed.

Lemma float_property_no_data (func : Instance -> Result PyValue)
  (self : Instance) :
  raises (func self) \/ func self = Ok VNone ->
  reports_no_data (NHL.float_property (float_property_decorator func) self).
Proof.
  intros H. unfold NHL.float_property.
  destruct (float_keeps_no_data func self H) as [[e He]|He]; rewrite He.
  - left. now exists e.
  - now right.
Qed.

(** The comparison of [winner] has nothing to compare. *)
Lemma winner_no_data (uri : string) : raises (winner (NHL.new_boxscore uri)).
Proof.
  unfold winner, NHL.winner, NHL.home_goals, NHL.away_goals.
  destruct (int_keeps_no_data (NHL.attr "_home_goals") (NHL.new_boxscore uri)
              (or_intror eq_refl)) as [[e He]|He]; rewrite He.
  - now exists e.
  - cbn [bind].
    destruct (int_keeps_no_data (NHL.attr "_away_goals")
                (NHL.new_boxscore uri) (or_intror eq_refl))
      as [[e He']|He']; rewrite He'.
    + now exists e.
    + now exists TypeError.
Qed.

Lemma after_winner_no_data (uri : string)
  (k : string -> Result string) :
  reports_no_data
    (NHL.str_property (fun self => w <- winner self ;; k w)
       (NHL.new_boxscore uri)).
Proof.
  unfold NHL.str_property.
  destruct (winner_no_data uri) as [e He]. rewrite He.
  left. now exists e.
Qed.

(** C9: on a record whose attributes are all [None], [date] and [arena]
    raise [AttributeError], and every typed property of the class reports no
    data: it raises or returns [None], never a number or a string. *)
Theorem empty_boxscore_reports_no_data (uri name : string)
  (property : Instance -> Result PyValue) :
  NHL.date (NHL.new_boxscore uri) = Raise AttributeError
  /\ NHL.arena (NHL.new_boxscore uri) = Raise AttributeError
  /\ (In (name, property) properties ->
      reports_no_data (property (NHL.new_boxscore uri))).
Proof.
  split; [reflexivity|]. split; [reflexivity|].
  intros Hin. unfold properties, NHL.properties in Hin. simpl in Hin.
  repeat (destruct Hin as [E|Hin];
    [injection E as <- <-;
     first [ left; exists AttributeError; reflexivity
           | apply int_property_no_data;
             first [right; reflexivity | left; eexists; reflexivity]
           | apply float_property_no_data; right; reflexivity
           | apply after_winner_no_data
           | unfold NHL.str_property; fold winner;
             destruct (winner_no_data uri) as [e He]; rewrite He;
             left; now exists e ]
    |]).
  contradiction.
Qed.

End Properties.

(** ** Floats of integers *)

Section FloatOfInt.

Local Open Scope Z_scope.









(** The integer of [div_half_even] is within half a unit of the quotient. *)
Lemma div_half_even_nearest (num den : Z) :
  0 < den ->
  Z.abs (2 * (num - PyFloat.div_half_even num den * den)) <= den.
Proof.
  intros Hd. unfold PyFloat.div_half_even.
  pose proof (Z.div_mod num den ltac:(lia)) as E.
  pose proof (Z.mod_pos_bound num den Hd) as B.
  destruct (Z.compare_spec (2 * (num mod den)) den) as [C|C|C].
  - destruct (Z.even (num / den)); nia.
  - nia.
  - nia.
Qed.



End FloatOfInt.

Section SavePercentage.

Variable int_property_decorator :
  (Instance -> Result PyValue) -> Instance -> Result (option Z).

Let home_shots_on_goal := NHL.home_shots_on_goal int_property_decorator.
Let away_shots_on_goal := NHL.away_shots_on_goal int_property_decorator.
Let away_save_percentage := NHL.away_save_percentage int_property_decorator.
Let home_save_percentage := NHL.home_save_percentage int_property_decorator.



End SavePercentage.

(** ** Schedules *)

Lemma same_day_of_datetime (game : Instance) (d date : PyDatetime.datetime) :
  NBA.datetime game = Ok d ->
  NBA.same_day game date
  = Ok ((PyDatetime.year d =? PyDatetime.year date)
        && (PyDatetime.month d =? PyDatetime.month date)
        && (PyDatetime.day d =? PyDatetime.day date))%nat.
Proof.
  intros Hd. unfold NBA.same_day. rewrite Hd. cbn [bind].
  destruct (PyDatetime.year d =? PyDatetime.year date)%nat; [|reflexivity].
  destruct (PyDatetime.month d =? PyDatetime.month date)%nat; reflexivity.
Qed.

Lemma same_date_test (d date : PyDatetime.datetime) :
  ((PyDatetime.year d =? PyDatetime.year date)
   && (PyDatetime.month d =? PyDatetime.month date)
   && (PyDatetime.day d =? PyDatetime.day date))%nat = true
  <-> same_date d date.
Proof.
  unfold same_date. rewrite !andb_true_iff, !Nat.eqb_eq. tauto.
Qed.

Lemma call_skips_other_days (pre rest : list Instance)
  (date : PyDatetime.datetime) :
  (forall p, In p pre ->
     exists dp, NBA.datetime p = Ok dp /\ ~ same_date dp date) ->
  NBA.__call__ (pre ++ rest) date = NBA.__call__ rest date.
Proof.
  induction pre as [|p pre IH]; intros Hpre; [reflexivity|].
  destruct (Hpre p (or_introl eq_refl)) as [dp [Hdp Hno]].
  cbn [app NBA.__call__].
  rewrite (same_day_of_datetime p dp date Hdp).
  destruct (_ && _)%bool eqn:E.
  - exfalso. apply Hno. now apply same_date_test.
  - cbn [bind]. apply IH. intros q Hq. apply Hpre. now right.
Qed.

(** C7, amended: when the date of every game before it parses to another
    day, [Schedule.__call__] returns the first game, in the order of the
    collection, whose parsed date has the year, month and day of the query,
    whatever the time of the query; when the date of every game parses and
    none has that day, it raises [ValueError]. *)
Theorem call_returns_first_game_of_the_day (games : list Instance)
  (date : PyDatetime.datetime) :
  (forall pre game post d,
     games = pre ++ game :: post ->
     (forall p, In p pre ->
        exists dp, NBA.datetime p = Ok dp /\ ~ same_date dp date) ->
     NBA.datetime game = Ok d ->
     same_date d date ->
     NBA.__call__ games date = Ok game)
  /\ ((forall game, In game games ->
         exists d, NBA.datetime game = Ok d /\ ~ same_date d date) ->
      NBA.__call__ games date = Raise ValueError).
Proof.
  split.
  - intros pre game post d -> Hpre Hd Hsame.
    rewrite call_skips_other_days by exact Hpre.
    cbn [NBA.__call__].
    rewrite (same_day_of_datetime game d date Hd).
    apply same_date_test in Hsame. now rewrite Hsame.
  - intros Hall.
    rewrite <- (app_nil_r games).
    now rewrite call_skips_other_days.
Qed.

(** C7, as stated, fails: behind a game whose date does not parse, the game
    of the queried day is not returned, the [ValueError] of the parse leaves
    the call; and on a game without a date, which matches no day, the call
    raises [TypeError], not [ValueError]. *)
Lemma call_stops_at_a_date_that_does_not_parse :
  let bad := Sample.game "Wed, Oct 18, 2017" "201710180DET" in
  let game := Sample.game "2017-10-18" "201710180DET" in
  let date := PyDatetime.mkDatetime 2017 10 18 20 0 0 in
  NBA.datetime game = Ok (PyDatetime.mkDatetime 2017 10 18 0 0 0)
  /\ NBA.datetime bad = Raise ValueError
  /\ NBA.__call__ [bad; game] date = Raise ValueError
  /\ NBA.__call__ [bad; game] date <> Ok game
  /\ getattr Sample.undated "_date" = Ok VNone
  /\ NBA.__call__ [Sample.undated] date = Raise TypeError
  /\ NBA.__call__ [Sample.undated] date <> Raise ValueError.
Proof.
  cbv zeta.
  split; [reflexivity|]. split; [reflexivity|]. split; [reflexivity|].
  split; [discriminate|]. split; [reflexivity|]. split; [reflexivity|].
  discriminate.
Qed.

(** Without a game of that day the call never returns a game, whether or
    not every date parses. *)
Lemma call_raises_without_match (games : list Instance)
  (date : PyDatetime.datetime) :
  (forall game d, In game games -> NBA.datetime game = Ok d ->
     ~ same_date d date) ->
  raises (NBA.__call__ games date).
Proof.
  induction games as [|game games IH]; intros Hno.
  - now exists ValueError.
  - cbn [NBA.__call__].
    destruct (NBA.datetime game) as [d|e] eqn:Hd.
    + rewrite (same_day_of_datetime game d date Hd).
      destruct (_ && _)%bool eqn:E.
      * exfalso. apply (Hno game d (or_introl eq_refl) Hd).
        now apply same_date_test.
      * cbn [bind]. apply IH. intros g d' Hg. apply Hno. now right.
    + unfold NBA.same_day. rewrite Hd. now exists e.
Qed.

Section ScheduleConstruction.

Variable SCHEDULE_SCHEME : string -> option string.
Variable SCHEDULE_URL : string -> string -> string.
Variable pq_url : string -> Result PyQuery.
Variable _parse_field :
  (string -> option string) -> PyQuery -> string -> nat -> Result PyValue.
Variable _find_year_for_season : string -> string.
Variable _get_stats_table : PyQuery -> string -> list PyQuery.

Let Game := NBA.Game SCHEDULE_SCHEME _parse_field.
Let _add_games_to_schedule :=
  NBA._add_games_to_schedule SCHEDULE_SCHEME _parse_field.
Let Schedule :=
  NBA.Schedule SCHEDULE_SCHEME SCHEDULE_URL pq_url _parse_field
    _find_year_for_season _get_stats_table.

Let built := built_by Game.

Lemma add_games_appends (rows : list PyQuery) :
  forall (games new : list Instance),
    built (data_rows rows) new ->
    _add_games_to_schedule games rows = Ok (games ++ new).
Proof.
  unfold _add_games_to_schedule, NBA._add_games_to_schedule.
  induction rows as [|item rows IH]; intros games new Hb.
  - inversion Hb. now rewrite app_nil_r.
  - cbn [foldM]. unfold NBA.add_game at 1.
    unfold data_rows in Hb. cbn [filter] in Hb.
    destruct (NBA.is_header_row item); cbn [negb] in Hb.
    + cbn [bind]. now apply IH.
    + inversion Hb as [|? game ? new' Hg Hrest]; subst.
      fold Game. rewrite Hg. cbn [bind].
      rewrite (IH (games ++ [game]) new' Hrest).
      now rewrite <- app_assoc.
Qed.

(** C8: a row whose markup carries a header-separator class never produces
    a game; the remaining rows produce the games in document order; and when
    the document has a playoff block, the games of the regular season come
    before the games of the playoffs. *)
Theorem schedule_keeps_document_order (abbreviation : string)
  (year : option string) (doc : PyQuery)
  (regular_season playoffs : list Instance) :
  let year' :=
    match year with
    | None | Some EmptyString => _find_year_for_season "nba"
    | Some y => y
    end in
  pq_url (SCHEDULE_URL abbreviation year') = Ok doc ->
  built (data_rows (_get_stats_table doc "table#tgl_basic")) regular_season ->
  built (if PyStr.contains "tgl_basic_playoffs" (Pq.str doc)
         then data_rows (_get_stats_table doc "div#all_tgl_basic_playoffs")
         else [])
        playoffs ->
  Schedule abbreviation year = Ok (regular_season ++ playoffs)
  /\ (forall item, In item (_get_stats_table doc "table#tgl_basic") ->
        NBA.is_header_row item = true ->
        ~ In item (data_rows (_get_stats_table doc "table#tgl_basic")))
  /\ (forall item,
        In item (_get_stats_table doc "div#all_tgl_basic_playoffs") ->
        NBA.is_header_row item = true ->
        ~ In item
            (data_rows (_get_stats_table doc "div#all_tgl_basic_playoffs")))
  /\ List.length regular_season
     = List.length (data_rows (_get_stats_table doc "table#tgl_basic")).
Proof.
  intros year' Hdoc Hreg Hplay.
  split; [|split; [|split]].
  - unfold Schedule, NBA.Schedule, NBA._pull_schedule.
    fold year'. rewrite Hdoc. cbn [bind].
    fold _add_games_to_schedule.
    rewrite (add_games_appends _ [] regular_season Hreg). cbn [bind app].
    destruct (PyStr.contains "tgl_basic_playoffs" (Pq.str doc)).
    + now apply add_games_appends.
    + inversion Hplay. now rewrite app_nil_r.
  - intros item _ Hh Hin. apply filter_In in Hin.
    destruct Hin as [_ Hk]. now rewrite Hh in Hk.
  - intros item _ Hh Hin. apply filter_In in Hin.
    destruct Hin as [_ Hk]. now rewrite Hh in Hk.
  - symmetry. exact (Forall2_length Hreg).
Qed.

End ScheduleConstruction.

(** ** Substitutions on a line *)

Section Substitution.

Local Open Scope string_scope.

Lemma match_len_star_cons (p : list PyRe.Re) (d : ascii) (r : string) :
  PyRe.match_len (PyRe.DotStar :: p) (String d r)
  = if Ascii.eqb d PyStr.newline then PyRe.match_len p (String d r)
    else match PyRe.match_len (PyRe.DotStar :: p) r with
         | Some n => Some (S n)
         | None => PyRe.match_len p (String d r)
         end.
Proof. reflexivity. Qed.

Lemma match_len_star_nil (p : list PyRe.Re) :
  PyRe.match_len (PyRe.DotStar :: p) EmptyString
  = PyRe.match_len p EmptyString.
Proof. reflexivity. Qed.

(** A literal prefix of a pattern consumes itself. *)
Lemma match_len_lits (m : string) (rest : list PyRe.Re) (s : string) :
  PyRe.match_len (PyRe.lits m ++ rest) (m ++ s)
  = option_map (Nat.add (String.length m)) (PyRe.match_len rest s).
Proof.
  induction m as [|c m IH]; cbn [PyRe.lits app append String.length].
  - now destruct (PyRe.match_len rest s).
  - cbn [PyRe.match_len]. rewrite Ascii.eqb_refl, IH.
    now destruct (PyRe.match_len rest s).
Qed.

Lemma match_len_lits_fails (m : string) (rest : list PyRe.Re) (s : string) :
  PyStr.startswith m s = false ->
  PyRe.match_len (PyRe.lits m ++ rest) s = None.
Proof.
  revert s.
  induction m as [|c m IH]; intros s H; [discriminate|].
  cbn [PyRe.lits app PyRe.match_len].
  destruct s as [|d s]; [reflexivity|].
  cbn [PyStr.startswith] in H.
  destruct (Ascii.eqb c d); [|reflexivity].
  cbn [andb] in H. now rewrite IH.
Qed.

Lemma startswith_app (m s : string) : PyStr.startswith m (m ++ s) = true.
Proof.
  induction m as [|c m IH]; [reflexivity|].
  cbn [append PyStr.startswith]. now rewrite Ascii.eqb_refl.
Qed.

Lemma contains_false_cons (m : string) (c : ascii) (s : string) :
  PyStr.contains m (String c s) = false ->
  PyStr.startswith m (String c s) = false /\ PyStr.contains m s = false.
Proof.
  cbn [PyStr.contains]. intros H. now apply orb_false_iff in H.
Qed.

Lemma contains_false_startswith (m s : string) :
  PyStr.contains m s = false -> PyStr.startswith m s = false.
Proof.
  destruct s; cbn [PyStr.contains]; intros H;
    apply orb_false_iff in H; tauto.
Qed.

Lemma contains_false_app (m a b : string) :
  PyStr.contains m (a ++ b) = false -> PyStr.contains m b = false.
Proof.
  induction a as [|c a IH]; cbn [append]; intros H; [exact H|].
  apply IH. now apply contains_false_cons in H.
Qed.

Lemma app_empty_r (a : string) : a ++ EmptyString = a.
Proof.
  induction a as [|c a IH]; [reflexivity|].
  cbn [append]. now rewrite IH.
Qed.

Lemma length_app (a b : string) :
  String.length (a ++ b) = String.length a + String.length b.
Proof.
  induction a as [|c a IH]; [reflexivity|].
  cbn [append String.length]. now rewrite IH.
Qed.

(** [.*] followed by a literal that does not occur finds nothing. *)
Lemma star_lits_none (m s : string) :
  PyStr.contains m s = false ->
  PyRe.match_len (PyRe.DotStar :: PyRe.lits m) s = None.
Proof.
  intros H.
  assert (L : forall t, PyStr.startswith m t = false ->
                        PyRe.match_len (PyRe.lits m) t = None).
  { intros t Ht. rewrite <- (app_nil_r (PyRe.lits m)).
    now apply match_len_lits_fails. }
  induction s as [|d s IH].
  - rewrite match_len_star_nil. apply L.
    now apply contains_false_startswith.
  - apply contains_false_cons in H. destruct H as [H1 H2].
    rewrite match_len_star_cons, (IH H2), (L _ H1).
    now destruct (Ascii.eqb d PyStr.newline).
Qed.

Lemma no_newline_cons (c : ascii) (s : string) :
  no_newline (String c s) ->
  Ascii.eqb c PyStr.newline = false /\ no_newline s.
Proof.
  unfold no_newline. intros H. apply contains_false_cons in H.
  destruct H as [H1 H2]. split; [|exact H2].
  cbn [PyStr.startswith] in H1.
  rewrite andb_true_r in H1. now rewrite Ascii.eqb_sym.
Qed.

(** [.*] followed by a literal stops after the last occurrence of the
    literal on the line. *)
Lemma star_lits_last (m p r : string) :
  m <> EmptyString ->
  no_newline p ->
  PyStr.contains m (PyStr.drop 1 (m ++ r)) = false ->
  PyRe.match_len (PyRe.DotStar :: PyRe.lits m) (p ++ m ++ r)
  = Some (String.length p + String.length m).
Proof.
  intros Hm Hp Hlast.
  assert (L : PyRe.match_len (PyRe.lits m) (m ++ r)
              = Some (String.length m)).
  { rewrite <- (app_nil_r (PyRe.lits m)), match_len_lits.
    cbn [PyRe.match_len option_map]. f_equal. lia. }
  induction p as [|c p IH].
  - cbn [append String.length Nat.add].
    destruct m as [|m0 m']; [contradiction|].
    cbn [append] in *. cbn [PyStr.drop] in Hlast.
    rewrite match_len_star_cons, (star_lits_none _ _ Hlast), L.
    now destruct (Ascii.eqb m0 PyStr.newline).
  - apply no_newline_cons in Hp. destruct Hp as [Hc Hp].
    cbn [append String.length Nat.add].
    now rewrite match_len_star_cons, Hc, (IH Hp).
Qed.

(** [.*] alone takes the rest of the line. *)
Lemma star_takes_line (s : string) :
  no_newline s ->
  PyRe.match_len [PyRe.DotStar] s = Some (String.length s).
Proof.
  induction s as [|c s IH]; intros H; [reflexivity|].
  apply no_newline_cons in H. destruct H as [Hc Hs].
  now rewrite match_len_star_cons, Hc, (IH Hs).
Qed.

Lemma sub_scan_skip (pat : list PyRe.Re) (repl a b : string) :
  PyRe.sub_scan pat repl (a ++ b) (String.length a)
  = PyRe.sub_scan pat repl b 0.
Proof.
  induction a as [|c a IH]; [reflexivity|].
  cbn [append String.length PyRe.sub_scan]. exact IH.
Qed.

(** Where the pattern matches nowhere the text is copied. *)
Lemma sub_scan_copy (pat : list PyRe.Re) (repl a b : string) :
  (forall a1 c a2, a = a1 ++ String c a2 ->
     PyRe.match_len pat (String c a2 ++ b) = None) ->
  PyRe.sub_scan pat repl (a ++ b) 0 = a ++ PyRe.sub_scan pat repl b 0.
Proof.
  induction a as [|c a IH]; intros H; [reflexivity|].
  cbn [append PyRe.sub_scan].
  pose proof (H EmptyString c a eq_refl) as H0. cbn [append] in H0.
  rewrite H0. f_equal. apply IH.
  intros a1 d a2 E. apply (H (String c a1) d a2). cbn [append]. now f_equal.
Qed.

Lemma sub_scan_no_occurrence (m repl s : string) :
  m <> EmptyString ->
  PyStr.contains m s = false ->
  PyRe.sub_scan (PyRe.DotStar :: PyRe.lits m) repl s 0 = s.
Proof.
  intros Hm.
  induction s as [|c s IH]; intros H.
  - cbn [PyRe.sub_scan]. now rewrite (star_lits_none _ _ H).
  - cbn [PyRe.sub_scan]. rewrite (star_lits_none _ _ H).
    apply contains_false_cons in H. f_equal. now apply IH.
Qed.

(** The first substitution: the text after the last occurrence of the
    literal. *)
Lemma sub_up_to_last (m p r : string) :
  m <> EmptyString ->
  no_newline p ->
  PyStr.contains m (PyStr.drop 1 (m ++ r)) = false ->
  PyRe.sub (PyRe.DotStar :: PyRe.lits m) EmptyString (p ++ m ++ r) = r.
Proof.
  intros Hm Hp Hlast. unfold PyRe.sub.
  pose proof (star_lits_last m p r Hm Hp Hlast) as M.
  assert (Hr : PyStr.contains m r = false).
  { destruct m as [|m0 m']; [contradiction|].
    cbn [append PyStr.drop] in Hlast.
    now apply contains_false_app in Hlast. }
  destruct (p ++ m ++ r) as [|c t] eqn:E.
  - destruct p; [destruct m; [contradiction|]|]; discriminate E.
  - cbn [PyRe.sub_scan]. rewrite M.
    assert (El : String.length p + String.length m
                 = S (String.length (PyStr.drop 1 (p ++ m)))).
    { destruct p as [|c' p']; cbn [append String.length PyStr.drop].
      - destruct m; [contradiction|reflexivity].
      - now rewrite length_app. }
    rewrite El. cbn [append].
    assert (Et : t = PyStr.drop 1 (p ++ m) ++ r).
    { destruct p as [|c' p']; cbn [append] in E |- *.
      - destruct m; [contradiction|]. cbn [append] in E |- *.
        now inversion E.
      - inversion E. cbn [PyStr.drop].
        clear. induction p' as [|x p' IH]; [reflexivity|].
        cbn [append]. now f_equal. }
    rewrite Et, sub_scan_skip.
    now apply sub_scan_no_occurrence.
Qed.

Lemma html_overlap (x s : string) :
  x <> EmptyString ->
  PyStr.startswith ".html" (x ++ ".html" ++ s) = true ->
  PyStr.startswith ".html" x = true.
Proof.
  intros Hx.
  destruct x as [|c1 [|c2 [|c3 [|c4 [|c5 x]]]]]; [contradiction| | | | |];
    cbn [append PyStr.startswith]; intros H;
    repeat (apply andb_true_iff in H; destruct H as [? H]);
    try discriminate;
    repeat (apply andb_true_iff; split); auto.
Qed.

(** The second substitution: the text before the first [.html]. *)
Lemma sub_from_html (id s : string) :
  PyStr.contains ".html" id = false ->
  no_newline s ->
  PyRe.sub PyRe.from_html EmptyString (id ++ ".html" ++ s) = id.
Proof.
  intros Hid Hs. unfold PyRe.sub.
  rewrite sub_scan_copy.
  - assert (M : PyRe.match_len PyRe.from_html (".html" ++ s)
                = Some (5 + String.length s)).
    { unfold PyRe.from_html. rewrite match_len_lits, star_takes_line by easy.
      reflexivity. }
    assert (T : PyRe.sub_scan PyRe.from_html EmptyString (".html" ++ s) 0
                = EmptyString).
    { change (".html" ++ s) with (String "." ("html" ++ s)) in *.
      cbn [PyRe.sub_scan]. rewrite M. cbn [Nat.add append].
      pose proof (sub_scan_skip PyRe.from_html EmptyString
                    ("html" ++ s) EmptyString) as K.
      rewrite app_empty_r in K. exact K. }
    rewrite T. apply app_empty_r.
  - intros a1 c a2 E.
    apply match_len_lits_fails.
    destruct (PyStr.startswith ".html" (String c a2 ++ ".html" ++ s))
      eqn:St; [|reflexivity].
    apply html_overlap in St; [|discriminate].
    rewrite E in Hid. apply contains_false_app in Hid.
    apply contains_false_startswith in Hid. congruence.
Qed.

End Substitution.

Lemma getattr_setattr (self : Instance) (name : string) (v : PyValue) :
  getattr (setattr self name v) name = Ok v.
Proof.
  unfold getattr.
  induction self as [|[k w] rest IH]; cbn [setattr lookup_attr].
  - now rewrite String.eqb_refl.
  - destruct (String.eqb k name) eqn:E; cbn [lookup_attr]; rewrite E.
    + reflexivity.
    + exact IH.
Qed.

(** C3, as amended: for an input [p ++ "/boxscores/" ++ id ++ ".html" ++ s]
    where [p] and [s] have no newline, [/boxscores/] does not occur again
    after the marker and [id] does not contain [.html],
    [Game._parse_boxscore] stores exactly [id] and
    [Boxscores._get_boxscore_uri] returns [id] without the whitespace around
    it, which is [id] itself when there is none. *)
Theorem boxscore_uri_between_markers (p id s : string) (url : PyQuery)
  (game_data : PyQuery) (self : Instance) :
  no_newline p ->
  no_newline s ->
  PyStr.contains "/boxscores/"
    (PyStr.drop 1 ("/boxscores/" ++ id ++ ".html" ++ s)) = false ->
  PyStr.contains ".html" id = false ->
  let input := (p ++ "/boxscores/" ++ id ++ ".html" ++ s)%string in
  (Pq.str url = input ->
   NHL.Boxscores._get_boxscore_uri url = PyStr.strip id
   /\ (PyStr.strip id = id -> NHL.Boxscores._get_boxscore_uri url = id))
  /\ (Pq.str
        (Pq.select game_data
           ("td[data-stat=" ++ PyStr.quoted "box_score_text" ++ "]:first"))
      = input ->
      getattr (NBA._parse_boxscore self game_data) "_boxscore"
      = Ok (VStr id))
  /\ NBA.boxscore_uri input = id.
Proof.
  intros Hp Hs Hlast Hid input.
  assert (E : PyRe.sub PyRe.from_html EmptyString
                (PyRe.sub PyRe.up_to_boxscores EmptyString input) = id).
  { unfold input, PyRe.up_to_boxscores.
    rewrite sub_up_to_last by (assumption || discriminate).
    now apply sub_from_html. }
  split; [|split].
  - intros Hu.
    assert (U : NHL.Boxscores._get_boxscore_uri url = PyStr.strip id).
    { unfold NHL.Boxscores._get_boxscore_uri. now rewrite Hu, E. }
    split; [exact U|]. intros Hstrip. now rewrite U.
  - intros Hg. unfold NBA._parse_boxscore, NBA.boxscore_uri.
    rewrite getattr_setattr, Hg, E. reflexivity.
  - exact E.
Qed.

Lemma boxscore_uri_between_markers_witness :
  NHL.Boxscores._get_boxscore_uri Sample.anchor = "201806070VEG"
  /\ getattr (NBA._parse_boxscore NBA.new_game
                (Sample.row "2017-10-18" "201710180DET")) "_boxscore"
     = Ok (VStr "201710180DET").
Proof.
  split.
  - destruct (boxscore_uri_between_markers
                ("<a href=" ++ String (ascii_of_nat 34) EmptyString)
                "201806070VEG"
                (String (ascii_of_nat 34) ">Final</a>")
                Sample.anchor [] []
                eq_refl eq_refl eq_refl eq_refl) as [H _].
    destruct (H eq_refl) as [_ H']. apply H'. reflexivity.
  - destruct (boxscore_uri_between_markers
                ("<td data-stat=" ++ PyStr.quoted "box_score_text"
                 ++ "><a href=" ++ String (ascii_of_nat 34) EmptyString)
                "201710180DET"
                (String (ascii_of_nat 34) ">Box Score</a></td>")
                [] (Sample.row "2017-10-18" "201710180DET") NBA.new_game
                eq_refl eq_refl eq_refl eq_refl) as [_ [H _]].
    apply H. reflexivity.
Defined.

(** C3, as stated, fails: a newline after [.html] stays in what
    [_parse_boxscore] stores, and a line before the marker stays in what
    [_get_boxscore_uri] returns. *)
Lemma boxscore_uri_keeps_other_lines :
  let nl := String PyStr.newline EmptyString in
  NBA.boxscore_uri
    (EmptyString ++ "/boxscores/" ++ "201710180DET" ++ ".html" ++ nl)
  = ("201710180DET" ++ nl)%string
  /\ NBA.boxscore_uri
       (EmptyString ++ "/boxscores/" ++ "201710180DET" ++ ".html" ++ nl)
     <> "201710180DET"
  /\ NHL.Boxscores._get_boxscore_uri
       [Sample.leaf (("<td>" ++ nl) ++ "/boxscores/" ++ "201806070VEG"
                     ++ ".html" ++ "</td>") EmptyString]
     = ("<td>" ++ nl ++ "201806070VEG")%string
  /\ NHL.Boxscores._get_boxscore_uri
       [Sample.leaf (("<td>" ++ nl) ++ "/boxscores/" ++ "201806070VEG"
                     ++ ".html" ++ "</td>") EmptyString]
     <> "201806070VEG".
Proof.
  cbv zeta. split; [reflexivity|]. split; [discriminate|].
  split; [reflexivity|]. discriminate.
Qed.

(** ** The statements on the sample data *)


Lemma call_returns_first_game_of_the_day_witness :
  let game := Sample.game "2017-10-18" "201710180DET" in
  NBA.__call__ [game] (PyDatetime.mkDatetime 2017 10 18 20 0 0) = Ok game
  /\ NBA.__call__ [game] (PyDatetime.mkDatetime 2017 10 19 0 0 0)
     = Raise ValueError.
Proof.
  intros game. split.
  - destruct (call_returns_first_game_of_the_day [game]
                (PyDatetime.mkDatetime 2017 10 18 20 0 0)) as [H _].
    apply (H [] game [] (PyDatetime.mkDatetime 2017 10 18 0 0 0) eq_refl).
    + intros p [].
    + reflexivity.
    + repeat split.
  - destruct (call_returns_first_game_of_the_day [game]
                (PyDatetime.mkDatetime 2017 10 19 0 0 0)) as [_ H].
    apply H. intros g [<-|[]].
    exists (PyDatetime.mkDatetime 2017 10 18 0 0 0).
    split; [reflexivity|].
    intros [_ [_ Hday]]. discriminate Hday.
Defined.

Lemma schedule_keeps_document_order_witness :
  Sample.Schedule "DET" (Some "2018")
  = Ok ([Sample.game "2017-10-18" "201710180DET";
         Sample.game "2017-10-20" "201710200WAS"]
        ++ [Sample.game "2018-04-14" "201804140DET"]).
Proof.
  apply (schedule_keeps_document_order Sample.scheme Sample.schedule_url
           Sample.schedule_site Sample.parse_field (fun _ => "2018")
           Sample.get_stats_table "DET" (Some "2018") Sample.schedule_doc).
  - reflexivity.
  - repeat constructor.
  - repeat constructor.
Defined.

Lemma int_decorator_keeps_no_data :
  keeps_no_data Decorators.int_property_decorator.
Proof.
  intros func self [[e He]|He]; unfold Decorators.int_property_decorator;
    rewrite He; left; eexists; reflexivity.
Qed.

Lemma float_decorator_keeps_no_data :
  keeps_no_data Decorators.float_property_decorator.
Proof.
  intros func self [[e He]|He]; unfold Decorators.float_property_decorator;
    rewrite He; left; eexists; reflexivity.
Qed.

Lemma empty_boxscore_reports_no_data_witness :
  let self := NHL.new_boxscore "201901010XXX" in
  NHL.date self = Raise AttributeError
  /\ NHL.arena self = Raise AttributeError
  /\ reports_no_data
       (NHL.int_property (NHL.attendance Decorators.int_property_decorator)
          self)
  /\ reports_no_data
       (NHL.int_property (NHL.home_goals Decorators.int_property_decorator)
          self).
Proof.
  intros self.
  pose proof (fun name property =>
    empty_boxscore_reports_no_data "Home" "Away" Sample.parse_abbreviation
      Decorators.int_property_decorator Decorators.float_property_decorator
      int_decorator_keeps_no_data float_decorator_keeps_no_data
      "201901010XXX" name property) as T.
  split; [apply (T "date" (fun _ => Ok VNone))|].
  split; [apply (T "date" (fun _ => Ok VNone))|].
  split.
  - apply (T "attendance"
             (NHL.int_property
                (NHL.attendance Decorators.int_property_decorator))).
    member.
  - apply (T "home_goals"
             (NHL.int_property
                (NHL.home_goals Decorators.int_property_decorator))).
    member.
Defined.

Lemma winner_follows_goal_comparison_witness :
  let winner := NHL.winner "Home" "Away" Decorators.int_property_decorator in
  winner Sample.played = Ok "Away"
  /\ winner Sample.tied = Ok "Away"
  /\ NHL.winning_name "Home" "Away" Decorators.int_property_decorator
       Sample.played = Ok "Washington Capitals"
  /\ NHL.losing_abbr "Home" "Away" Sample.parse_abbreviation
       Decorators.int_property_decorator Sample.played = Ok "VEG".
Proof.
  intros winner.
  assert (Hne : "Home" <> "Away") by discriminate.
  destruct (winner_follows_goal_comparison "Home" "Away"
              Sample.parse_abbreviation Decorators.int_property_decorator
              Sample.played 3 4
              (VTag [Sample.team_tag "VEG" "Vegas Golden Knights"])
              (VTag [Sample.team_tag "WSH" "Washington Capitals"])
              Hne eq_refl eq_refl eq_refl eq_refl)
    as [_ [Haway [_ [_ [_ Hnames]]]]].
  destruct (winner_follows_goal_comparison "Home" "Away"
              Sample.parse_abbreviation Decorators.int_property_decorator
              Sample.tied 2 2
              (VTag [Sample.team_tag "VEG" "Vegas Golden Knights"])
              (VTag [Sample.team_tag "WSH" "Washington Capitals"])
              Hne eq_refl eq_refl eq_refl eq_refl)
    as [_ [_ [Htie _]]].
  assert (Hle : (3 <= 4)%Z) by lia.
  destruct (Hnames Hle) as [Hwn [_ [_ Hla]]].
  split; [exact (Haway Hle)|].
  split; [exact (Htie eq_refl)|].
  split; [exact Hwn | exact Hla].
Defined.

(** ** Readings of the sample page *)

Example sample_attendance :
  NHL.attendance Decorators.int_property_decorator Sample.played
  = Ok (Some 1234%Z).
Proof. reflexivity. Qed.

Example sample_date_and_time :
  NHL.date Sample.played = Ok "Wed, Oct 18, 2017"
  /\ NHL.time Sample.played = Ok "7:00 PM".
Proof. split; reflexivity. Qed.

Example sample_arena_and_duration :
  NHL.arena Sample.played = Ok "X" /\ NHL.duration Sample.played = Ok "2:31".
Proof. split; reflexivity. Qed.

Example sample_parse_field_single :
  Sample.parse_field Sample.scheme (Sample.page Sample.regular_block "2" "2")
    "away_goals" 0 = Ok (VStr "2").
Proof. reflexivity. Qed.

Example sample_parse_field_absent :
  Sample.parse_field Sample.scheme (Sample.page Sample.regular_block "2" "2")
    "away_points" 0 = Ok (VStr EmptyString).
Proof. reflexivity. Qed.

Example sample_abbreviation :
  NHL.Boxscores._parse_abbreviation [Sample.team_tag "VEG" "Vegas Golden Knights"]
  = "VEG".
Proof. reflexivity. Qed.

Example round_ties_to_even :
  (x <- PyFloat.of_int 1 ;; y <- PyFloat.of_int 16 ;;
   q <- PyFloat.truediv x y ;; Ok (PyFloat.round q 3))
  = Ok (S754_finite false 8935141660703064 (-57)).
Proof. reflexivity. Qed.

Example float_of_large_int_overflows :
  PyFloat.of_int (2 ^ 1024) = Raise OverflowError.
Proof. reflexivity. Qed.

(** * Further properties *)

(** ** Loops that set attributes *)

Lemma lookup_setattr_other (self : Instance) (k name : string) (v : PyValue) :
  k <> name -> lookup_attr (setattr self k v) name = lookup_attr self name.
Proof.
  intros Hk.
  induction self as [|[k' w] rest IH]; cbn [setattr lookup_attr].
  - apply String.eqb_neq in Hk. now rewrite Hk.
  - destruct (String.eqb k' k) eqn:E; cbn [lookup_attr].
    + apply String.eqb_eq in E. subst k'.
      apply String.eqb_neq in Hk. now rewrite Hk.
    + now rewrite IH.
Qed.

Lemma names_setattr (self : Instance) (k : string) (v : PyValue) :
  In k (map fst self) -> map fst (setattr self k v) = map fst self.
Proof.
  induction self as [|[k' w] rest IH]; cbn [setattr map fst In];
    [contradiction|].
  intros [E|Hin].
  - subst k'. now rewrite String.eqb_refl.
  - destruct (String.eqb k' k); cbn [map fst]; [reflexivity|].
    now rewrite IH.
Qed.

Lemma names_setattr_new (self : Instance) (k : string) (v : PyValue) :
  ~ In k (map fst self) -> map fst (setattr self k v) = map fst self ++ [k].
Proof.
  induction self as [|[k' w] rest IH]; cbn [setattr map fst In app];
    [reflexivity|].
  intros Hn.
  destruct (String.eqb_spec k' k) as [E|E]; [tauto|].
  cbn [map fst]. rewrite IH by tauto. reflexivity.
Qed.

Lemma foldM_app {A S : Type} (body : S -> A -> Result S) (xs ys : list A)
  (s : S) :
  foldM body (xs ++ ys) s = (s' <- foldM body xs s ;; foldM body ys s').
Proof.
  revert s.
  induction xs as [|x xs IH]; intros s; cbn [app foldM bind]; [reflexivity|].
  destruct (body s x); cbn [bind]; [apply IH | reflexivity].
Qed.

Lemma in_list_In (name : string) (names : list string) :
  in_list name names = true <-> In name names.
Proof.
  unfold in_list. rewrite existsb_exists. split.
  - intros [x [Hx E]]. apply String.eqb_eq in E. now subst.
  - intros H. exists name. split; [exact H | apply String.eqb_refl].
Qed.

Lemma distinct_split (names : list string) (name : string) :
  distinct names = true ->
  In name names ->
  exists pre post,
    names = pre ++ name :: post /\ ~ In name pre /\ ~ In name post.
Proof.
  induction names as [|x rest IH]; cbn [distinct In]; [contradiction|].
  intros Hd Hin. apply andb_true_iff in Hd. destruct Hd as [Hx Hrest].
  apply negb_true_iff in Hx.
  assert (Hnx : ~ In x rest).
  { intros H. apply in_list_In in H. congruence. }
  destruct (String.eqb_spec x name) as [E|E].
  - subst x. exists [], rest. repeat split; auto.
  - destruct Hin as [Hin|Hin]; [contradiction|].
    destruct (IH Hrest Hin) as [pre [post [Ep [Hpre Hpost]]]].
    exists (x :: pre), post. subst rest. repeat split; auto.
    intros [H|H]; [contradiction | now apply Hpre].
Qed.

Section SetattrLoops.

Variable body : Instance -> string -> Result Instance.

(** Each turn leaves the instance or sets the attribute it is run for. *)
Hypothesis body_shape :
  forall self field self',
    body self field = Ok self' ->
    self' = self \/ exists v, self' = setattr self field v.

Lemma loop_keeps_names (fields : list string) :
  forall self self',
    (forall f, In f fields -> In f (map fst self)) ->
    foldM body fields self = Ok self' ->
    map fst self' = map fst self.
Proof.
  induction fields as [|f fields IH]; intros self self' Hin H;
    cbn [foldM] in H.
  - now inversion H.
  - destruct (body self f) as [s1|e] eqn:Hb; cbn [bind] in H;
      [|discriminate].
    assert (N : map fst s1 = map fst self).
    { destruct (body_shape _ _ _ Hb) as [->|[v ->]]; [reflexivity|].
      apply names_setattr. apply Hin. now left. }
    rewrite <- N. apply IH; [|exact H].
    intros g Hg. rewrite N. apply Hin. now right.
Qed.

Lemma loop_keeps_other (fields : list string) (name : string) :
  forall self self',
    ~ In name fields ->
    foldM body fields self = Ok self' ->
    lookup_attr self' name = lookup_attr self name.
Proof.
  induction fields as [|f fields IH]; intros self self' Hn H;
    cbn [foldM] in H.
  - now inversion H.
  - destruct (body self f) as [s1|e] eqn:Hb; cbn [bind] in H;
      [|discriminate].
    rewrite (IH s1 self') by (try exact H; intros Hi; apply Hn; now right).
    destruct (body_shape _ _ _ Hb) as [->|[v ->]]; [reflexivity|].
    apply lookup_setattr_other. intros E. apply Hn. now left.
Qed.

(** An attribute whose turn does nothing keeps its value. *)
Lemma loop_keeps_frozen (fields : list string) (name : string) :
  (forall self self', body self name = Ok self' -> self' = self) ->
  forall self self',
    foldM body fields self = Ok self' ->
    lookup_attr self' name = lookup_attr self name.
Proof.
  intros Hfrozen.
  induction fields as [|f fields IH]; intros self self' H; cbn [foldM] in H.
  - now inversion H.
  - destruct (body self f) as [s1|e] eqn:Hb; cbn [bind] in H;
      [|discriminate].
    rewrite (IH s1 self' H).
    destruct (String.eqb_spec f name) as [E|E].
    + subst f. now rewrite (Hfrozen _ _ Hb).
    + destruct (body_shape _ _ _ Hb) as [->|[v ->]]; [reflexivity|].
      now apply lookup_setattr_other.
Qed.

(** An attribute whose turn sets [v] holds [v] at the end, when the loop
    meets it once. *)
Lemma loop_keeps_written (fields : list string) (name : string)
  (v : PyValue) :
  distinct fields = true ->
  In name fields ->
  (forall self self', body self name = Ok self' ->
                      self' = setattr self name v) ->
  forall self self',
    foldM body fields self = Ok self' ->
    lookup_attr self' name = Some v.
Proof.
  intros Hd Hin Hset self self' H.
  destruct (distinct_split fields name Hd Hin)
    as [pre [post [E [_ Hpost]]]].
  subst fields. rewrite foldM_app in H.
  destruct (foldM body pre self) as [s1|e]; cbn [bind foldM] in H;
    [|discriminate].
  destruct (body s1 name) as [s2|e] eqn:Hb; cbn [bind] in H; [|discriminate].
  rewrite (loop_keeps_other post name s2 self' Hpost H).
  rewrite (Hset _ _ Hb).
  pose proof (getattr_setattr s1 name v) as G. unfold getattr in G.
  destruct (lookup_attr (setattr s1 name v) name); now inversion G.
Qed.

End SetattrLoops.

(** ** What the construction of a box score keeps *)

Section BoxscoreInvariants.

Variable BOXSCORE_URL : string -> string.
Variable BOXSCORE_SCHEME : string -> option string.
Variable BOXSCORE_ELEMENT_INDEX : string -> option nat.
Variable pq_url : string -> Result PyQuery.
Variable _remove_html_comment_tags : PyQuery -> PyQuery.
Variable _parse_field :
  (string -> option string) -> PyQuery -> string -> nat -> Result PyValue.

Let parse_attribute :=
  NHL.parse_attribute BOXSCORE_SCHEME BOXSCORE_ELEMENT_INDEX _parse_field.
Let Boxscore := NHL.Boxscore BOXSCORE_URL BOXSCORE_SCHEME
                  BOXSCORE_ELEMENT_INDEX pq_url _remove_html_comment_tags
                  _parse_field.

Lemma parse_attribute_shape (boxscore : PyQuery) (self : Instance)
  (field : string) (self' : Instance) :
  parse_attribute boxscore self field = Ok self' ->
  self' = self \/ exists v, self' = setattr self field v.
Proof.
  unfold parse_attribute, NHL.parse_attribute.
  repeat match goal with
         | |- context [if ?b then _ else _] => destruct b
         end;
    intros H;
    repeat match type of H with
           | bind ?r _ = _ => destruct r; cbn [bind] in H; try discriminate
           end;
    inversion H; subst; eauto.
Qed.

Lemma parse_attribute_skips (boxscore : PyQuery) (self self' : Instance)
  (name : string) :
  In name ("_uri" :: derived_attributes) ->
  parse_attribute boxscore self name = Ok self' -> self' = self.
Proof.
  intros Hin H. cbn [In derived_attributes] in Hin.
  repeat (destruct Hin as [<-|Hin]; [now inversion H|]). contradiction.
Qed.

Lemma count_away_players_sets (boxscore : PyQuery) (self self' : Instance) :
  NHL.count_away_players BOXSCORE_SCHEME boxscore self = Ok self' ->
  exists skaters goalies,
    self' = setattr (setattr self "_away_skaters" (VInt skaters))
              "_away_goalies" (VInt goalies).
Proof.
  unfold NHL.count_away_players. intros H.
  destruct (subscript BOXSCORE_SCHEME "away_skaters") as [sk|];
    cbn [bind] in H; [|discriminate].
  destruct (subscript BOXSCORE_SCHEME "away_goalies") as [go|];
    cbn [bind] in H; [|discriminate].
  destruct (Pq.items (Pq.select boxscore go)) as [|t0 [|t1 ts]];
    try discriminate.
  inversion H. eauto.
Qed.

(** X1: whatever the page holds, a box score that is built keeps the [uri]
    it was asked for, leaves the five derived attributes ([_winner] and the
    names and abbreviations of winner and loser) at [None], and has exactly
    the attributes [__init__] declared, followed by the two side counts when
    the page was parsed. *)
Theorem boxscore_keeps_uri_and_derived_attributes (uri : string)
  (self : Instance) :
  Boxscore uri = Ok self ->
  getattr self "_uri" = Ok (VStr uri)
  /\ (forall name, In name derived_attributes -> getattr self name = Ok VNone)
  /\ (map fst self = map fst (NHL.new_boxscore uri)
      \/ map fst self
         = map fst (NHL.new_boxscore uri)
           ++ ["_away_skaters"; "_away_goalies"]).
Proof.
  unfold Boxscore, NHL.Boxscore, NHL._parse_game_data. intros H.
  assert (Hnew : forall name, In name derived_attributes ->
                   getattr (NHL.new_boxscore uri) name = Ok VNone).
  { intros name Hin. cbn [In derived_attributes] in Hin.
    repeat (destruct Hin as [<-|Hin]; [reflexivity|]). contradiction. }
  destruct (NHL._retrieve_html_page BOXSCORE_URL pq_url
              _remove_html_comment_tags uri) as [boxscore|].
  2:{ inversion H. subst. repeat split; auto. }
  destruct (negb (Pq.truth boxscore)).
  { inversion H. subst. repeat split; auto. }
  fold parse_attribute in H.
  destruct (foldM (parse_attribute boxscore) (map fst (NHL.new_boxscore uri))
              (NHL.new_boxscore uri)) as [s1|e] eqn:Hloop;
    cbn [bind] in H; [|discriminate].
  destruct (count_away_players_sets boxscore s1 self H)
    as [skaters [goalies ->]].
  assert (K : forall name, In name ("_uri" :: derived_attributes) ->
                lookup_attr
                  (setattr (setattr s1 "_away_skaters" (VInt skaters))
                     "_away_goalies" (VInt goalies)) name
                = lookup_attr (NHL.new_boxscore uri) name).
  { intros name Hin.
    rewrite !lookup_setattr_other
      by (cbn [In derived_attributes] in Hin; intros <-;
          repeat (destruct Hin as [Hin|Hin]; [discriminate Hin|]);
          contradiction).
    apply (loop_keeps_frozen (parse_attribute boxscore)
             (parse_attribute_shape boxscore)
             (map fst (NHL.new_boxscore uri)) name); [|exact Hloop].
    intros s0 s0'. now apply parse_attribute_skips. }
  assert (N : map fst s1 = map fst (NHL.new_boxscore uri)).
  { apply (loop_keeps_names (parse_attribute boxscore)
             (parse_attribute_shape boxscore) _ _ _ (fun f Hf => Hf) Hloop). }
  split; [|split].
  - unfold getattr. rewrite (K "_uri") by now left. reflexivity.
  - intros name Hin. unfold getattr. rewrite (K name) by now right.
    apply Hnew in Hin. exact Hin.
  - right.
    rewrite names_setattr_new, names_setattr_new, N, <- app_assoc;
      [reflexivity| |].
    + rewrite N. intros Hin. cbn in Hin.
      repeat (destruct Hin as [Hin|Hin]; [discriminate Hin|]). exact Hin.
    + rewrite names_setattr_new, N.
      * intros Hin. apply in_app_or in Hin. cbn in Hin.
        destruct Hin as [Hin|[Hin|[]]]; [|discriminate Hin].
        repeat (destruct Hin as [Hin|Hin]; [discriminate Hin|]). exact Hin.
      * rewrite N. intros Hin. cbn in Hin.
        repeat (destruct Hin as [Hin|Hin]; [discriminate Hin|]). exact Hin.
Qed.

End BoxscoreInvariants.

Lemma boxscore_keeps_uri_and_derived_attributes_witness :
  getattr Sample.played "_uri" = Ok (VStr "201806070VEG")
  /\ getattr Sample.played "_winning_name" = Ok VNone.
Proof.
  destruct (boxscore_keeps_uri_and_derived_attributes Sample.boxscore_url
              Sample.scheme Sample.element_index Sample.site (fun p => p)
              Sample.parse_field "201806070VEG" Sample.played eq_refl)
    as [Huri [Hnone _]].
  split; [exact Huri|]. apply Hnone. member.
Defined.

Section ParsedBoxscore.

Variable BOXSCORE_URL : string -> string.
Variable BOXSCORE_SCHEME : string -> option string.
Variable BOXSCORE_ELEMENT_INDEX : string -> option nat.
Variable pq_url : string -> Result PyQuery.
Variable _remove_html_comment_tags : PyQuery -> PyQuery.
Variable _parse_field :
  (string -> option string) -> PyQuery -> string -> nat -> Result PyValue.

Let parse_attribute :=
  NHL.parse_attribute BOXSCORE_SCHEME BOXSCORE_ELEMENT_INDEX _parse_field.
Let Boxscore := NHL.Boxscore BOXSCORE_URL BOXSCORE_SCHEME
                  BOXSCORE_ELEMENT_INDEX pq_url _remove_html_comment_tags
                  _parse_field.

Lemma parse_attribute_special (boxscore : PyQuery) (self : Instance)
  (field : string) :
  In field NHL.fields_to_special_parse ->
  parse_attribute boxscore self (String "_" field)
  = (scheme <- subscript BOXSCORE_SCHEME field ;;
     Ok (setattr self (String "_" field)
           (VList (Pq.texts boxscore scheme)))).
Proof.
  intros Hin. cbn [In NHL.fields_to_special_parse] in Hin.
  repeat (destruct Hin as [<-|Hin]; [reflexivity|]). contradiction.
Qed.

Lemma special_is_declared (uri field : string) :
  In field NHL.fields_to_special_parse ->
  In (String "_" field) (map fst (NHL.new_boxscore uri)).
Proof.
  intros Hin. cbn [In NHL.fields_to_special_parse] in Hin.
  repeat (destruct Hin as [<-|Hin]; [member|]). contradiction.
Qed.

(** X2: on a box score built from a retrieved page, an attribute that is
    parsed specially holds the texts of all cells its selector finds,
    [_away_skaters] the number of elements the [away_skaters] selector finds
    and [_away_goalies] the number of rows of the second table the
    [away_goalies] selector finds; so each property under
    [nhl_int_property_decorator] (twelve of the fourteen attributes parsed
    this way; the two save percentages are not under it) is the sum of the
    integer cells of its selector on its side of that count. *)
Theorem parsed_boxscore_sums_the_cells_of_its_selector (uri field : string)
  (url_data : PyQuery) (self : Instance) (selector skaters goalies : string)
  (first table : PyQuery) (others : list PyQuery) :
  let boxscore := _remove_html_comment_tags url_data in
  let cells := Pq.texts boxscore selector in
  let num_skaters := Pq.len (Pq.select boxscore skaters) in
  let num_goalies := Pq.len (Pq.select table "tbody tr") in
  pq_url (BOXSCORE_URL uri) = Ok url_data ->
  Pq.truth boxscore = true ->
  Boxscore uri = Ok self ->
  In field NHL.fields_to_special_parse ->
  BOXSCORE_SCHEME field = Some selector ->
  BOXSCORE_SCHEME "away_skaters" = Some skaters ->
  BOXSCORE_SCHEME "away_goalies" = Some goalies ->
  Pq.items (Pq.select boxscore goalies) = first :: table :: others ->
  getattr self (String "_" field) = Ok (VList cells)
  /\ getattr self "_away_skaters" = Ok (VInt (Z.of_nat num_skaters))
  /\ getattr self "_away_goalies" = Ok (VInt (Z.of_nat num_goalies))
  /\ (In field nhl_decorated_properties ->
      NHL.nhl_property field self
      = Ok (Zsum (parsed_ints
             (let index :=
                if in_list field NHL.goalie_properties then num_goalies
                else num_skaters in
              if PyStr.contains "home" field then skipn index cells
              else firstn index cells)))).
Proof.
  intros boxscore cells num_skaters num_goalies Hp Ht Hb Hin Hs Hsk Hgo Hit.
  unfold Boxscore, NHL.Boxscore, NHL._parse_game_data,
    NHL._retrieve_html_page in Hb.
  rewrite Hp in Hb. fold boxscore in Hb. rewrite Ht in Hb. cbn [negb] in Hb.
  fold parse_attribute in Hb.
  destruct (foldM (parse_attribute boxscore) (map fst (NHL.new_boxscore uri))
              (NHL.new_boxscore uri)) as [s1|e] eqn:Hloop;
    cbn [bind] in Hb; [|discriminate].
  unfold NHL.count_away_players, subscript in Hb.
  rewrite Hsk, Hgo in Hb. cbn [bind] in Hb. rewrite Hit in Hb.
  injection Hb as Hself. fold num_skaters num_goalies in Hself.
  assert (Hfield : lookup_attr s1 (String "_" field) = Some (VList cells)).
  { apply (loop_keeps_written (parse_attribute boxscore)
             (parse_attribute_shape BOXSCORE_SCHEME BOXSCORE_ELEMENT_INDEX
                _parse_field boxscore)
             (map fst (NHL.new_boxscore uri)) (String "_" field)
             (VList cells) eq_refl (special_is_declared uri field Hin))
      with (self := NHL.new_boxscore uri); [|exact Hloop].
    intros s0 s0' H0. fold parse_attribute in H0.
    rewrite parse_attribute_special in H0 by exact Hin.
    unfold subscript in H0. rewrite Hs in H0. now inversion H0. }
  assert (Hne : forall name, In name ["_away_skaters"; "_away_goalies"] ->
                  name <> String "_" field).
  { intros name Hn E. subst name.
    cbn [In NHL.fields_to_special_parse] in Hin.
    repeat (destruct Hin as [<-|Hin];
            [destruct Hn as [Hn|[Hn|[]]]; discriminate Hn|]).
    contradiction. }
  assert (G1 : getattr self (String "_" field) = Ok (VList cells)).
  { subst self. unfold getattr.
    rewrite !lookup_setattr_other by (apply Hne; member).
    now rewrite Hfield. }
  assert (G2 : getattr self "_away_skaters"
               = Ok (VInt (Z.of_nat num_skaters))).
  { subst self. unfold getattr.
    rewrite lookup_setattr_other by discriminate.
    apply getattr_setattr. }
  assert (G3 : getattr self "_away_goalies"
               = Ok (VInt (Z.of_nat num_goalies))).
  { subst self. apply getattr_setattr. }
  split; [exact G1|]. split; [exact G2|]. split; [exact G3|].
  intros _.
  rewrite (nhl_property_list field self cells num_skaters num_goalies
             G1 G2 G3).
  reflexivity.
Qed.

End ParsedBoxscore.

Lemma parsed_boxscore_sums_the_cells_of_its_selector_witness :
  getattr Sample.played "_home_saves"
  = Ok (VList ["1"; EmptyString; "2"; EmptyString; "3"])
  /\ getattr Sample.played "_away_skaters" = Ok (VInt 3)
  /\ getattr Sample.played "_away_goalies" = Ok (VInt 1)
  /\ NHL.nhl_property "home_saves" Sample.played = Ok 5%Z.
Proof.
  assert (Hspecial : In "home_saves" NHL.fields_to_special_parse) by member.
  assert (Hdecorated : In "home_saves" nhl_decorated_properties) by member.
  destruct (parsed_boxscore_sums_the_cells_of_its_selector
              Sample.boxscore_url Sample.scheme Sample.element_index
              Sample.site (fun p => p) Sample.parse_field "201806070VEG"
              "home_saves" (Sample.page Sample.playoff_block "4" "3")
              Sample.played "home_saves" "away_skaters" "away_goalies"
              [Sample.leaf "<table></table>" EmptyString]
              [Sample.goalie_table] []
              eq_refl eq_refl eq_refl Hspecial eq_refl eq_refl eq_refl
              eq_refl) as [Hcells [Hskaters [Hgoalies Hsum]]].
  split; [exact Hcells|]. split; [exact Hskaters|].
  split; [exact Hgoalies|]. exact (Hsum Hdecorated).
Defined.

(** ** Pages without elements and the data frame *)

Section EmptyBoxscore.

Variable BOXSCORE_URL : string -> string.
Variable BOXSCORE_SCHEME : string -> option string.
Variable BOXSCORE_ELEMENT_INDEX : string -> option nat.
Variable pq_url : string -> Result PyQuery.
Variable _remove_html_comment_tags : PyQuery -> PyQuery.
Variable _parse_field :
  (string -> option string) -> PyQuery -> string -> nat -> Result PyValue.
Variable HOME AWAY : string.
Variable _parse_abbreviation : PyValue -> Result string.
Variable int_property_decorator :
  (Instance -> Result PyValue) -> Instance -> Result (option Z).
Variable float_property_decorator :
  (Instance -> Result PyValue) -> Instance -> Result (option spec_float).

Let Boxscore := NHL.Boxscore BOXSCORE_URL BOXSCORE_SCHEME
                  BOXSCORE_ELEMENT_INDEX pq_url _remove_html_comment_tags
                  _parse_field.
Let dataframe := NHLFrame.dataframe HOME AWAY _parse_abbreviation
                   int_property_decorator float_property_decorator.

(** X3: a page that is retrieved but has no element leaves the box score as
    a failed download does, with nothing parsed, and on that box score
    [dataframe] returns [None] instead of raising. *)
Theorem empty_page_gives_no_data_frame (uri : string) (url_data : PyQuery) :
  pq_url (BOXSCORE_URL uri) = Ok url_data ->
  Pq.truth (_remove_html_comment_tags url_data) = false ->
  Boxscore uri = Ok (NHL.new_boxscore uri)
  /\ (forall self, Boxscore uri = Ok self -> dataframe self = Ok None).
Proof.
  intros Hp Ht.
  assert (E : Boxscore uri = Ok (NHL.new_boxscore uri)).
  { unfold Boxscore, NHL.Boxscore, NHL._parse_game_data,
      NHL._retrieve_html_page.
    now rewrite Hp, Ht. }
  split; [exact E|].
  intros self Hs. rewrite E in Hs. now inversion Hs.
Qed.

Lemma mapM_built {A B : Type} (f : A -> Result B) (xs : list A) :
  forall ys, mapM f xs = Ok ys -> Forall2 (fun x y => f x = Ok y) xs ys.
Proof.
  induction xs as [|x xs IH]; intros ys H; cbn [mapM] in H.
  - inversion H. constructor.
  - destruct (f x) as [y|e] eqn:Hf; cbn [bind] in H; [|discriminate].
    destruct (mapM f xs) as [ys'|e]; cbn [bind] in H; [|discriminate].
    inversion H. constructor; [exact Hf | now apply IH].
Qed.

Lemma mapM_raises {A B : Type} (f : A -> Result B) (xs : list A) (x : A) :
  In x xs -> raises (f x) -> raises (mapM f xs).
Proof.
  induction xs as [|x' xs IH]; cbn [In mapM]; [contradiction|].
  intros [->|Hin] [e He].
  - rewrite He. now exists e.
  - destruct (f x') as [y|e']; cbn [bind]; [|now exists e'].
    destruct (IH Hin (ex_intro _ e He)) as [e' He']. rewrite He'.
    now exists e'.
Qed.

(** X4: [dataframe] returns [None] when both goal attributes are [None],
    whatever the other attributes hold.  Otherwise it is all or nothing:
    a frame that is returned has the [uri] attribute as its index and one
    row whose columns are the forty-two properties in the order of
    [fields_to_include], each with the value the property returns; and when
    one of these properties raises, [dataframe] raises. *)
Theorem dataframe_is_all_or_nothing (self : Instance)
  (away_goals home_goals : PyValue) :
  getattr self "_away_goals" = Ok away_goals ->
  getattr self "_home_goals" = Ok home_goals ->
  (away_goals = VNone -> home_goals = VNone -> dataframe self = Ok None)
  /\ (forall frame,
        dataframe self = Ok (Some frame) ->
        (away_goals <> VNone \/ home_goals <> VNone)
        /\ exists uri row,
             getattr self "_uri" = Ok uri
             /\ NHLFrame.frame_index frame = [uri]
             /\ NHLFrame.frame_rows frame = [row]
             /\ map fst row = NHLFrame.fields_to_include
             /\ Forall (fun column =>
                          NHLFrame.read_property HOME AWAY
                            _parse_abbreviation int_property_decorator
                            float_property_decorator (fst column) self
                          = Ok (snd column)) row)
  /\ (forall name,
        away_goals <> VNone \/ home_goals <> VNone ->
        In name NHLFrame.fields_to_include ->
        raises (NHLFrame.read_property HOME AWAY _parse_abbreviation
                  int_property_decorator float_property_decorator name self)
        -> raises (dataframe self)).
Proof.
  intros Ha Hh.
  unfold dataframe, NHLFrame.dataframe. rewrite Ha, Hh. cbn [bind].
  set (column := fun name =>
         value <- NHLFrame.read_property HOME AWAY _parse_abbreviation
                    int_property_decorator float_property_decorator name
                    self ;;
         Ok (name, value)).
  split; [|split].
  - now intros -> ->.
  - intros frame H.
    assert (Hsome : away_goals <> VNone \/ home_goals <> VNone).
    { destruct away_goals; try (left; congruence).
      destruct home_goals; try (right; congruence).
      discriminate H. }
    split; [exact Hsome|].
    destruct (NHLFrame.is_none away_goals && NHLFrame.is_none home_goals);
      [discriminate|].
    destruct (mapM column NHLFrame.fields_to_include) as [row|e] eqn:Hm;
      cbn [bind] in H; [|discriminate].
    destruct (getattr self "_uri") as [uri|e]; cbn [bind] in H;
      [|discriminate].
    inversion H. subst frame. exists uri, row.
    repeat split.
    + apply mapM_built in Hm. clear H.
      induction Hm as [|name c names cs Hc _ IH]; [reflexivity|].
      cbn [map]. f_equal; [|exact IH].
      unfold column in Hc.
      destruct (NHLFrame.read_property _ _ _ _ _ name self);
        cbn [bind] in Hc; inversion Hc; reflexivity.
    + apply mapM_built in Hm. clear H.
      induction Hm as [|name c names cs Hc _ IH]; constructor; [|exact IH].
      unfold column in Hc.
      destruct (NHLFrame.read_property _ _ _ _ _ name self) eqn:Hr;
        cbn [bind] in Hc; inversion Hc; cbn [fst snd]; exact Hr.
  - intros name Hsome Hin [e He].
    assert (Hn : NHLFrame.is_none away_goals && NHLFrame.is_none home_goals
                 = false).
    { destruct Hsome as [Hs|Hs].
      - destruct away_goals; try reflexivity. contradiction.
      - destruct home_goals; try (now rewrite andb_false_r). contradiction. }
    rewrite Hn.
    destruct (mapM_raises column NHLFrame.fields_to_include name Hin)
      as [e' He'].
    { exists e. unfold column. now rewrite He. }
    rewrite He'. now exists e'.
Qed.

End EmptyBoxscore.

Lemma empty_page_gives_no_data_frame_witness :
  NHL.Boxscore Sample.boxscore_url Sample.scheme Sample.element_index
    SampleFull.empty_site (fun p => p) Sample.parse_field "201901010XXX"
  = Ok (NHL.new_boxscore "201901010XXX")
  /\ SampleFull.dataframe (NHL.new_boxscore "201901010XXX") = Ok None.
Proof.
  destruct (empty_page_gives_no_data_frame Sample.boxscore_url Sample.scheme
              Sample.element_index SampleFull.empty_site (fun p => p)
              Sample.parse_field "Home" "Away" Sample.parse_abbreviation
              Decorators.int_property_decorator
              Decorators.float_property_decorator "201901010XXX" []
              eq_refl eq_refl) as [H1 H2].
  split; [exact H1|]. apply H2. exact H1.
Defined.

Lemma dataframe_is_all_or_nothing_witness :
  SampleFull.dataframe (NHL.new_boxscore "201901010XXX") = Ok None
  /\ map fst (hd [] (NHLFrame.frame_rows SampleFull.frame))
     = NHLFrame.fields_to_include
  /\ raises (SampleFull.dataframe Sample.played).
Proof.
  split; [|split].
  - destruct (dataframe_is_all_or_nothing "Home" "Away"
                Sample.parse_abbreviation Decorators.int_property_decorator
                Decorators.float_property_decorator
                (NHL.new_boxscore "201901010XXX") VNone VNone
                eq_refl eq_refl) as [H _].
    now apply H.
  - destruct (dataframe_is_all_or_nothing "Home" "Away"
                Sample.parse_abbreviation Decorators.int_property_decorator
                Decorators.float_property_decorator
                SampleFull.played (VStr "4") (VStr "3")
                eq_refl eq_refl) as [_ [H _]].
    destruct (H SampleFull.frame eq_refl)
      as [_ [uri [row [_ [_ [Hrows [Hnames _]]]]]]].
    rewrite Hrows. exact Hnames.
  - destruct (dataframe_is_all_or_nothing "Home" "Away"
                Sample.parse_abbreviation Decorators.int_property_decorator
                Decorators.float_property_decorator
                Sample.played (VStr "4") (VStr "3")
                eq_refl eq_refl) as [_ [_ H]].
    apply (H "away_assists").
    + left. discriminate.
    + member.
    + exists ValueError. reflexivity.
Defined.

(** ** What the construction of a game and of a schedule keeps *)

Lemma foldM_ran {A S : Type} (body : S -> A -> Result S) (xs : list A) :
  forall s s' x,
    foldM body xs s = Ok s' -> In x xs -> exists s0 s1, body s0 x = Ok s1.
Proof.
  induction xs as [|y xs IH]; intros s s' x H Hin; [contradiction|].
  cbn [foldM] in H.
  destruct (body s y) as [s1|e] eqn:Hb; cbn [bind] in H; [|discriminate].
  destruct Hin as [->|Hin]; [now exists s, s1|].
  exact (IH s1 s' x H Hin).
Qed.

Lemma foldM_raised {A S : Type} (body : S -> A -> Result S) (xs : list A) :
  forall s e,
    foldM body xs s = Raise e -> exists s0 x, In x xs /\ body s0 x = Raise e.
Proof.
  induction xs as [|y xs IH]; intros s e H; [discriminate|].
  cbn [foldM] in H.
  destruct (body s y) as [s1|e'] eqn:Hb; cbn [bind] in H.
  - destruct (IH s1 e H) as [s0 [x [Hin Hx]]].
    exists s0, x. split; [now right | exact Hx].
  - inversion H. subst. exists s, y. split; [now left | exact Hb].
Qed.

Lemma foldM_total {A S : Type} (body : S -> A -> Result S) (xs : list A) :
  (forall s x, In x xs -> exists s', body s x = Ok s') ->
  forall s, exists s', foldM body xs s = Ok s'.
Proof.
  induction xs as [|y xs IH]; intros Hall s; [now exists s|].
  cbn [foldM].
  destruct (Hall s y (or_introl eq_refl)) as [s1 Hb]. rewrite Hb.
  cbn [bind]. apply IH. intros s0 x Hx. apply Hall. now right.
Qed.

Section GameConstruction.

Variable SCHEDULE_SCHEME : string -> option string.
Variable _parse_field :
  (string -> option string) -> PyQuery -> string -> nat -> Result PyValue.

Let Game := NBA.Game SCHEDULE_SCHEME _parse_field.
Let parse_attribute := NBA.parse_attribute SCHEDULE_SCHEME _parse_field.

(** The turn of an attribute that is read with [_parse_field]. *)
Lemma game_parse_attribute_plain (game_data : PyQuery) (self : Instance)
  (field : string) :
  In field NBA.game_attributes ->
  field <> "_datetime" -> field <> "_boxscore" ->
  parse_attribute game_data self field
  = (value <- _parse_field SCHEDULE_SCHEME game_data (PyStr.drop 1 field) 0 ;;
     Ok (setattr self field value)).
Proof.
  intros Hin Hd Hb. cbn [In NBA.game_attributes] in Hin.
  repeat (destruct Hin as [<-|Hin];
          [first [reflexivity | contradiction]|]).
  contradiction.
Qed.

(** The loop of [_parse_game_data], which only meets declared attributes. *)
Let turn (game_data : PyQuery) (self : Instance) (field : string)
  : Result Instance :=
  if in_list field NBA.game_attributes
  then parse_attribute game_data self field else Ok self.

Lemma game_loop_turns (game_data : PyQuery) (self : Instance) :
  foldM (parse_attribute game_data) NBA.game_attributes self
  = foldM (turn game_data) NBA.game_attributes self.
Proof.
  assert (G : forall fields s,
            (forall f, In f fields -> In f NBA.game_attributes) ->
            foldM (parse_attribute game_data) fields s
            = foldM (turn game_data) fields s).
  { induction fields as [|f fields IH]; intros s Hsub; [reflexivity|].
    cbn [foldM]. unfold turn at 1.
    rewrite (proj2 (in_list_In f NBA.game_attributes))
      by (apply Hsub; now left).
    destruct (parse_attribute game_data s f); cbn [bind]; [|reflexivity].
    apply IH. intros g Hg. apply Hsub. now right. }
  apply G. auto.
Qed.

Lemma game_turn_shape (game_data : PyQuery) (self : Instance)
  (field : string) (self' : Instance) :
  turn game_data self field = Ok self' ->
  self' = self \/ exists v, self' = setattr self field v.
Proof.
  unfold turn.
  destruct (in_list field NBA.game_attributes) eqn:E;
    [|intros H; inversion H; now left].
  apply in_list_In in E.
  destruct (String.eqb_spec field "_datetime") as [->|Hd];
    [intros H; inversion H; now left|].
  destruct (String.eqb_spec field "_boxscore") as [->|Hb];
    [intros H; inversion H; right; now eexists|].
  rewrite game_parse_attribute_plain by assumption.
  destruct (_parse_field SCHEDULE_SCHEME game_data (PyStr.drop 1 field) 0);
    cbn [bind]; intros H; inversion H. right. now eexists.
Qed.

Lemma game_turn_declared (game_data : PyQuery) (self : Instance)
  (field : string) :
  In field NBA.game_attributes ->
  turn game_data self field = parse_attribute game_data self field.
Proof.
  intros Hin. unfold turn.
  now rewrite (proj2 (in_list_In field NBA.game_attributes) Hin).
Qed.

(** X5: a game that is built has exactly the attributes [__init__]
    declared; [_datetime] is never set; [_boxscore] is always a string, the
    markup of the box-score cell after the two substitutions (the empty
    string when the row has no such cell); and every other attribute holds
    what [_parse_field] returned for its name without the underscore. *)
Theorem game_holds_what_was_parsed (game_data : PyQuery) (self : Instance) :
  Game game_data = Ok self ->
  map fst self = NBA.game_attributes
  /\ getattr self "_datetime" = Ok VNone
  /\ getattr self "_boxscore"
     = Ok (VStr (NBA.boxscore_uri
                   (Pq.str
                      (Pq.select game_data
                         ("td[data-stat=" ++ PyStr.quoted "box_score_text"
                          ++ "]:first")))))
  /\ (Pq.select game_data
        ("td[data-stat=" ++ PyStr.quoted "box_score_text" ++ "]:first") = []
      -> getattr self "_boxscore" = Ok (VStr EmptyString))
  /\ (forall field,
        In field NBA.game_attributes ->
        field <> "_datetime" -> field <> "_boxscore" ->
        exists v,
          _parse_field SCHEDULE_SCHEME game_data (PyStr.drop 1 field) 0 = Ok v
          /\ getattr self field = Ok v).
Proof.
  unfold Game, NBA.Game, NBA._parse_game_data. fold parse_attribute.
  change (map fst NBA.new_game) with NBA.game_attributes.
  rewrite game_loop_turns. intros H.
  pose proof (game_turn_shape game_data) as Shape.
  assert (B : getattr self "_boxscore"
              = Ok (VStr (NBA.boxscore_uri
                     (Pq.str
                        (Pq.select game_data
                           ("td[data-stat=" ++ PyStr.quoted "box_score_text"
                            ++ "]:first")))))).
  { unfold getattr.
    rewrite (loop_keeps_written (turn game_data) Shape
               NBA.game_attributes "_boxscore"
               (VStr (NBA.boxscore_uri
                        (Pq.str
                           (Pq.select game_data
                              ("td[data-stat="
                               ++ PyStr.quoted "box_score_text"
                               ++ "]:first")))))
               eq_refl ltac:(member)) with
      (self := NBA.new_game) (self' := self); [reflexivity| |exact H].
    intros s0 s0' H0. now inversion H0. }
  split; [|split; [|split; [|split]]].
  - transitivity (map fst NBA.new_game); [|reflexivity].
    apply (loop_keeps_names (turn game_data) Shape
             NBA.game_attributes NBA.new_game self (fun f Hf => Hf) H).
  - unfold getattr.
    rewrite (loop_keeps_frozen (turn game_data) Shape
               NBA.game_attributes "_datetime") with
      (self := NBA.new_game) (self' := self); [reflexivity| |exact H].
    intros s0 s0' H0. now inversion H0.
  - exact B.
  - intros Hnone. rewrite B, Hnone. reflexivity.
  - intros field Hin Hd Hb.
    destruct (foldM_ran _ _ _ _ field H Hin) as [s0 [s1 Hrun]].
    rewrite game_turn_declared, game_parse_attribute_plain in Hrun
      by assumption.
    destruct (_parse_field SCHEDULE_SCHEME game_data (PyStr.drop 1 field) 0)
      as [v|e] eqn:Hv; cbn [bind] in Hrun; [|discriminate].
    exists v. split; [reflexivity|].
    unfold getattr.
    rewrite (loop_keeps_written (turn game_data) Shape
               NBA.game_attributes field v eq_refl Hin) with
      (self := NBA.new_game) (self' := self); [reflexivity| |exact H].
    intros s2 s2' H2.
    rewrite game_turn_declared, game_parse_attribute_plain in H2
      by assumption.
    rewrite Hv in H2. now inversion H2.
Qed.

(** X6: [Game] raises only what [_parse_field] raises: it returns a game
    when [_parse_field] returns for every declared attribute other than
    [_datetime] and [_boxscore], and an exception that leaves it was raised
    by [_parse_field] on one of these attributes. *)
Theorem game_raises_only_what_the_extractor_raises (game_data : PyQuery) :
  ((forall field,
      In field NBA.game_attributes ->
      field <> "_datetime" -> field <> "_boxscore" ->
      exists v,
        _parse_field SCHEDULE_SCHEME game_data (PyStr.drop 1 field) 0 = Ok v)
   -> exists self, Game game_data = Ok self)
  /\ (forall e,
        Game game_data = Raise e ->
        exists field,
          In field NBA.game_attributes
          /\ _parse_field SCHEDULE_SCHEME game_data (PyStr.drop 1 field) 0
             = Raise e).
Proof.
  unfold Game, NBA.Game, NBA._parse_game_data. fold parse_attribute.
  change (map fst NBA.new_game) with NBA.game_attributes.
  split.
  - intros Hall. apply foldM_total. intros s field Hin.
    destruct (String.eqb_spec field "_datetime") as [->|Hd];
      [now exists s|].
    destruct (String.eqb_spec field "_boxscore") as [->|Hb];
      [now eexists|].
    rewrite game_parse_attribute_plain by assumption.
    destruct (Hall field Hin Hd Hb) as [v Hv]. rewrite Hv. now eexists.
  - intros e H.
    destruct (foldM_raised _ _ _ _ H) as [s0 [field [Hin Hr]]].
    exists field. split; [exact Hin|].
    destruct (String.eqb_spec field "_datetime") as [->|Hd];
      [discriminate Hr|].
    destruct (String.eqb_spec field "_boxscore") as [->|Hb];
      [discriminate Hr|].
    rewrite game_parse_attribute_plain in Hr by assumption.
    destruct (_parse_field SCHEDULE_SCHEME game_data (PyStr.drop 1 field) 0);
      cbn [bind] in Hr; [discriminate Hr | now inversion Hr].
Qed.

End GameConstruction.

Lemma parse_field_first_item (marker : string)
  (scheme : string -> option string) (html : PyQuery) (field selector : string) :
  scheme field = Some selector ->
  exists text, Utils._parse_field marker scheme html field 0 = Ok (VStr text).
Proof.
  intros Hs. unfold Utils._parse_field, subscript. rewrite Hs. cbn [bind].
  destruct (if String.eqb selector marker then _ else _) as [|t [|t' ts]];
    now eexists.
Qed.

Lemma game_holds_what_was_parsed_witness :
  let self := Sample.game "2017-10-18" "201710180DET" in
  map fst self = NBA.game_attributes
  /\ getattr self "_datetime" = Ok VNone
  /\ getattr self "_boxscore" = Ok (VStr "201710180DET")
  /\ getattr self "_date" = Ok (VStr "2017-10-18").
Proof.
  intros self.
  destruct (game_holds_what_was_parsed Sample.scheme Sample.parse_field
              (Sample.row "2017-10-18" "201710180DET") self eq_refl)
    as [Hnames [Hdt [Hbox [_ Hplain]]]].
  split; [exact Hnames|]. split; [exact Hdt|]. split; [exact Hbox|].
  destruct (Hplain "_date") as [v [Hv Hg]];
    [member | discriminate | discriminate |].
  rewrite Hg, <- Hv. reflexivity.
Defined.

Lemma game_raises_only_what_the_extractor_raises_witness :
  (exists self, Sample.Game (Sample.row "2017-10-18" "201710180DET") = Ok self)
  /\ exists field,
       In field NBA.game_attributes
       /\ Sample.parse_field (fun _ => None)
            (Sample.row "2017-10-18" "201710180DET") (PyStr.drop 1 field) 0
          = Raise KeyError.
Proof.
  split.
  - apply (game_raises_only_what_the_extractor_raises Sample.scheme
             Sample.parse_field (Sample.row "2017-10-18" "201710180DET")).
    intros field _ _ _.
    destruct (parse_field_first_item "table" Sample.scheme
                (Sample.row "2017-10-18" "201710180DET")
                (PyStr.drop 1 field) (PyStr.drop 1 field) eq_refl)
      as [text Ht].
    now exists (VStr text).
  - apply (game_raises_only_what_the_extractor_raises (fun _ => None)
             Sample.parse_field (Sample.row "2017-10-18" "201710180DET")).
    reflexivity.
Defined.

Section ScheduleAccess.

Variable SCHEDULE_SCHEME : string -> option string.
Variable SCHEDULE_URL : string -> string -> string.
Variable pq_url : string -> Result PyQuery.
Variable _parse_field :
  (string -> option string) -> PyQuery -> string -> nat -> Result PyValue.
Variable _find_year_for_season : string -> string.
Variable _get_stats_table : PyQuery -> string -> list PyQuery.

Let Game := NBA.Game SCHEDULE_SCHEME _parse_field.
Let _add_games_to_schedule :=
  NBA._add_games_to_schedule SCHEDULE_SCHEME _parse_field.
Let Schedule :=
  NBA.Schedule SCHEDULE_SCHEME SCHEDULE_URL pq_url _parse_field
    _find_year_for_season _get_stats_table.
Let built := built_by Game.

(** X7: [_add_games_to_schedule] only appends: when it returns, the games
    it was given come first, unchanged, followed by one game per row that is
    not a header, in order; and when it raises, the exception comes from the
    construction of the game of such a row. *)
Theorem add_games_only_appends (rows : list PyQuery) :
  forall games,
    (forall games',
       _add_games_to_schedule games rows = Ok games' ->
       exists new,
         games' = games ++ new /\ built (data_rows rows) new)
    /\ (forall e,
          _add_games_to_schedule games rows = Raise e ->
          exists item,
            In item (data_rows rows) /\ Game item = Raise e).
Proof.
  unfold _add_games_to_schedule, NBA._add_games_to_schedule, built, built_by.
  induction rows as [|item rows IH]; intros games.
  - split.
    + intros games' H. inversion H. exists []. split.
      * now rewrite app_nil_r.
      * constructor.
    + intros e H. discriminate H.
  - cbn [foldM]. unfold NBA.add_game at 1 3. unfold data_rows.
    cbn [filter]. fold (data_rows rows).
    destruct (NBA.is_header_row item); cbn [negb bind].
    + apply IH.
    + fold Game. destruct (Game item) as [game|e0] eqn:Hg; cbn [bind].
      * destruct (IH (games ++ [game])) as [Hok Hraise]. split.
        -- intros games' H. destruct (Hok games' H) as [new [E Hb]].
           exists (game :: new). split.
           ++ rewrite E, <- app_assoc. reflexivity.
           ++ constructor; assumption.
        -- intros e H. destruct (Hraise e H) as [it [Hin Hr]].
           exists it. split; [now right | exact Hr].
      * split; [intros games' H; discriminate H|].
        intros e H. inversion H. subst. exists item.
        split; [now left | exact Hg].
Qed.

Lemma index_of_nat {A : Type} (xs : list A) (i : nat) :
  index xs (Z.of_nat i) = item xs i.
Proof.
  unfold index.
  destruct (Z.ltb_spec (Z.of_nat i) 0); [lia|].
  destruct (Z.ltb_spec (Z.of_nat i) 0); [lia|].
  now rewrite Nat2Z.id.
Qed.

Lemma built_nth (rows : list PyQuery) (games : list Instance) :
  built rows games ->
  forall i row, nth_error rows i = Some row ->
    exists game, nth_error games i = Some game /\ Game row = Ok game.
Proof.
  induction 1 as [|row0 game0 rows games H0 _ IH]; intros i row Hn.
  - destruct i; discriminate Hn.
  - destruct i as [|i]; cbn [nth_error] in *.
    + inversion Hn. subst. now exists game0.
    + now apply IH.
Qed.

(** X8: every schedule that is built has one game per row that is not a
    header, the rows of the regular season first and those of the playoff
    block (read only when the document names it) after them; [len] counts
    these rows, [schedule[i]] is the game of the i-th of them, and an index
    equal to [len] raises [IndexError]. *)
Theorem schedule_indexes_its_data_rows (abbreviation : string)
  (year : option string) (games : list Instance) :
  Schedule abbreviation year = Ok games ->
  exists doc,
    let rows :=
      data_rows (_get_stats_table doc "table#tgl_basic")
      ++ (if PyStr.contains "tgl_basic_playoffs" (Pq.str doc)
          then data_rows (_get_stats_table doc "div#all_tgl_basic_playoffs")
          else []) in
    built rows games
    /\ NBASchedule.__len__ games = List.length rows
    /\ NBASchedule.__iter__ games = games
    /\ (forall i row,
          nth_error rows i = Some row ->
          exists game,
            NBASchedule.__getitem__ games (Z.of_nat i) = Ok game
            /\ Game row = Ok game)
    /\ NBASchedule.__getitem__ games (Z.of_nat (List.length rows))
       = Raise IndexError.
Proof.
  unfold Schedule, NBA.Schedule, NBA._pull_schedule. intros H.
  destruct (pq_url _) as [doc|e]; cbn [bind] in H; [|discriminate].
  exists doc. fold _add_games_to_schedule in H.
  destruct (_add_games_to_schedule []
              (_get_stats_table doc "table#tgl_basic")) as [regular|e] eqn:Hr;
    cbn [bind] in H; [|discriminate].
  destruct (add_games_only_appends (_get_stats_table doc "table#tgl_basic")
              []) as [Hreg _].
  destruct (Hreg regular Hr) as [new [E Hb]]. cbn [app] in E. subst new.
  assert (B : built
                (data_rows (_get_stats_table doc "table#tgl_basic")
                 ++ (if PyStr.contains "tgl_basic_playoffs" (Pq.str doc)
                     then data_rows
                            (_get_stats_table doc
                               "div#all_tgl_basic_playoffs")
                     else [])) games).
  { destruct (PyStr.contains "tgl_basic_playoffs" (Pq.str doc)).
    - destruct (add_games_only_appends
                  (_get_stats_table doc "div#all_tgl_basic_playoffs") regular)
        as [Hplay _].
      destruct (Hplay games H) as [new [E Hp]]. subst games.
      now apply Forall2_app.
    - inversion H. subst. now rewrite app_nil_r. }
  cbv zeta. split; [exact B|].
  split; [symmetry; exact (Forall2_length B)|].
  split; [reflexivity|]. split.
  - intros i row Hn.
    destruct (built_nth _ _ B i row Hn) as [game [Hg Hrow]].
    exists game. split; [|exact Hrow].
    unfold NBASchedule.__getitem__. rewrite index_of_nat.
    unfold item. now rewrite Hg.
  - unfold NBASchedule.__getitem__. rewrite index_of_nat.
    unfold item. rewrite (Forall2_length B).
    now rewrite (proj2 (nth_error_None games (List.length games))).
Qed.

End ScheduleAccess.

(** X9: a game that [Schedule.__call__] returns is in the collection, its
    date parses and has the year, month and day of the query, and the date
    of every game before it parses to another day. *)
Theorem call_returns_only_a_matching_game (games : list Instance)
  (date : PyDatetime.datetime) (game : Instance) :
  NBA.__call__ games date = Ok game ->
  exists pre post d,
    games = pre ++ game :: post
    /\ NBA.datetime game = Ok d
    /\ same_date d date
    /\ forall p, In p pre ->
         exists dp, NBA.datetime p = Ok dp /\ ~ same_date dp date.
Proof.
  induction games as [|g games IH]; cbn [NBA.__call__]; intros H;
    [discriminate|].
  destruct (NBA.datetime g) as [d|e] eqn:Hd.
  - rewrite (same_day_of_datetime g d date Hd) in H. cbn [bind] in H.
    destruct (_ && _)%bool eqn:E.
    + inversion H. subst g. exists [], games, d.
      repeat split; try (apply same_date_test in E; apply E); auto.
      intros p [].
    + destruct (IH H) as [pre [post [d' [Eg [Hd' [Hs Hpre]]]]]].
      exists (g :: pre), post, d'. subst games.
      repeat split; try apply Hs; auto.
      intros p [<-|Hp]; [|now apply Hpre].
      exists d. split; [exact Hd|].
      intros Hsame. apply same_date_test in Hsame. congruence.
  - unfold NBA.same_day in H. rewrite Hd in H. discriminate H.
Qed.

Lemma add_games_only_appends_witness :
  let earlier := Sample.game "2017-10-17" "201710170CLE" in
  exists new,
    [earlier; Sample.game "2017-10-18" "201710180DET";
     Sample.game "2017-10-20" "201710200WAS"] = [earlier] ++ new
    /\ built_by Sample.Game
         (data_rows [Sample.row "2017-10-18" "201710180DET";
                     Sample.header_row;
                     Sample.row "2017-10-20" "201710200WAS"]) new.
Proof.
  intros earlier.
  destruct (add_games_only_appends Sample.scheme Sample.parse_field
              [Sample.row "2017-10-18" "201710180DET"; Sample.header_row;
               Sample.row "2017-10-20" "201710200WAS"] [earlier])
    as [H _].
  apply H. reflexivity.
Defined.

Lemma schedule_indexes_its_data_rows_witness :
  let games := [Sample.game "2017-10-18" "201710180DET";
                Sample.game "2017-10-20" "201710200WAS";
                Sample.game "2018-04-14" "201804140DET"] in
  exists doc,
    let rows :=
      data_rows (Sample.get_stats_table doc "table#tgl_basic")
      ++ (if PyStr.contains "tgl_basic_playoffs" (Pq.str doc)
          then data_rows
                 (Sample.get_stats_table doc "div#all_tgl_basic_playoffs")
          else []) in
    built_by Sample.Game rows games
    /\ NBASchedule.__len__ games = List.length rows
    /\ NBASchedule.__iter__ games = games
    /\ (forall i row,
          nth_error rows i = Some row ->
          exists game,
            NBASchedule.__getitem__ games (Z.of_nat i) = Ok game
            /\ Sample.Game row = Ok game)
    /\ NBASchedule.__getitem__ games (Z.of_nat (List.length rows))
       = Raise IndexError.
Proof.
  intros games.
  exact (schedule_indexes_its_data_rows Sample.scheme Sample.schedule_url
           Sample.schedule_site Sample.parse_field (fun _ => "2018")
           Sample.get_stats_table "DET" None games eq_refl).
Defined.

Lemma call_returns_only_a_matching_game_witness :
  let game := Sample.game "2017-10-18" "201710180DET" in
  exists pre post d,
    [Sample.game "2017-10-17" "201710170CLE"; game] = pre ++ game :: post
    /\ NBA.datetime game = Ok d
    /\ same_date d (PyDatetime.mkDatetime 2017 10 18 19 30 0).
Proof.
  intros game.
  destruct (call_returns_only_a_matching_game
              [Sample.game "2017-10-17" "201710170CLE"; game]
              (PyDatetime.mkDatetime 2017 10 18 19 30 0) game eq_refl)
    as [pre [post [d [E [Hd [Hs _]]]]]].
  now exists pre, post, d.
Defined.

(** ** Markup with and without the markers *)

Section Markers.

Local Open Scope string_scope.

(** A pattern that starts with a literal copies a text where the literal
    does not occur. *)
Lemma sub_lits_no_occurrence (m : string) (rest : list PyRe.Re)
  (repl s : string) :
  m <> EmptyString ->
  PyStr.contains m s = false ->
  PyRe.sub (PyRe.lits m ++ rest) repl s = s.
Proof.
  intros Hm Hs. unfold PyRe.sub.
  rewrite <- (app_empty_r s) at 1.
  rewrite sub_scan_copy.
  - cbn [PyRe.sub_scan].
    rewrite match_len_lits_fails; [apply app_empty_r|].
    destruct m; [contradiction|reflexivity].
  - intros a1 c a2 E. rewrite app_empty_r.
    apply match_len_lits_fails.
    rewrite E in Hs. apply contains_false_app in Hs.
    now apply contains_false_startswith.
Qed.

(** X10: a markup that contains neither [/boxscores/] nor [.html] passes
    through both substitutions unchanged: [_parse_boxscore] stores it as it
    is and [_get_boxscore_uri] returns it stripped; for a cell or an anchor
    that is missing this is the empty string, not [None]. *)
Theorem markup_without_markers_is_kept (markup : string) (url : PyQuery) :
  PyStr.contains "/boxscores/" markup = false ->
  PyStr.contains ".html" markup = false ->
  NBA.boxscore_uri markup = markup
  /\ (Pq.str url = markup ->
      NHL.Boxscores._get_boxscore_uri url = PyStr.strip markup)
  /\ NHL.Boxscores._get_boxscore_uri [] = EmptyString.
Proof.
  intros Hb Hh.
  assert (E : PyRe.sub PyRe.from_html EmptyString
                (PyRe.sub PyRe.up_to_boxscores EmptyString markup) = markup).
  { unfold PyRe.up_to_boxscores, PyRe.sub at 2.
    rewrite sub_scan_no_occurrence by (assumption || discriminate).
    apply sub_lits_no_occurrence; [discriminate | exact Hh]. }
  split; [exact E|]. split; [|reflexivity].
  intros Hu. unfold NHL.Boxscores._get_boxscore_uri. now rewrite Hu, E.
Qed.

(** The second substitution for a one-character literal. *)
Lemma sub_from_slash (abbr s : string) :
  PyStr.contains "/" abbr = false ->
  no_newline s ->
  PyRe.sub PyRe.from_slash EmptyString (abbr ++ "/" ++ s) = abbr.
Proof.
  intros Ha Hs. unfold PyRe.sub.
  rewrite sub_scan_copy.
  - assert (M : PyRe.match_len PyRe.from_slash ("/" ++ s)
                = Some (1 + String.length s)).
    { unfold PyRe.from_slash. rewrite match_len_lits, star_takes_line by easy.
      reflexivity. }
    change ("/" ++ s) with (String "/" s) in *.
    cbn [PyRe.sub_scan]. rewrite M. cbn [Nat.add append].
    pose proof (sub_scan_skip PyRe.from_slash EmptyString s EmptyString) as K.
    rewrite app_empty_r in K. rewrite K. apply app_empty_r.
  - intros a1 c a2 E.
    apply match_len_lits_fails.
    rewrite E in Ha. apply contains_false_app in Ha.
    apply contains_false_startswith in Ha.
    cbn [append PyStr.startswith] in Ha |- *. exact Ha.
Qed.

(** X11: for the markup [p ++ "/teams/" ++ abbr ++ "/" ++ s] of a name tag,
    where [p] and [s] have no newline, [/teams/] does not occur again after
    the marker and [abbr] has no slash, [Boxscores._parse_abbreviation]
    returns exactly [abbr]; a markup without [/teams/] and without any slash
    is returned as it is. *)
Theorem team_abbreviation_between_markers (p abbr s : string)
  (tag : PyQuery) :
  (no_newline p ->
   no_newline s ->
   PyStr.contains "/teams/" (PyStr.drop 1 ("/teams/" ++ abbr ++ "/" ++ s))
   = false ->
   PyStr.contains "/" abbr = false ->
   Pq.str tag = p ++ "/teams/" ++ abbr ++ "/" ++ s ->
   NHL.Boxscores._parse_abbreviation tag = abbr)
  /\ (PyStr.contains "/" (Pq.str tag) = false ->
      NHL.Boxscores._parse_abbreviation tag = Pq.str tag).
Proof.
  split.
  - intros Hp Hs Hlast Ha Ht.
    unfold NHL.Boxscores._parse_abbreviation, PyRe.up_to_teams.
    rewrite Ht, sub_up_to_last by (assumption || discriminate).
    now apply sub_from_slash.
  - intros Hno.
    assert (Ht : PyStr.contains "/teams/" (Pq.str tag) = false).
    { clear -Hno. induction (Pq.str tag) as [|c t IH]; [reflexivity|].
      apply contains_false_cons in Hno. destruct Hno as [H1 H2].
      cbn [PyStr.contains]. rewrite (IH H2), orb_false_r.
      cbn [PyStr.startswith] in H1 |- *.
      rewrite andb_true_r in H1. now rewrite H1. }
    unfold NHL.Boxscores._parse_abbreviation, PyRe.up_to_teams,
      PyRe.sub at 2.
    rewrite sub_scan_no_occurrence by (assumption || discriminate).
    apply sub_lits_no_occurrence; [discriminate | exact Hno].
Qed.

End Markers.

Lemma markup_without_markers_is_kept_witness :
  NBA.boxscore_uri "<td></td>" = "<td></td>"
  /\ NHL.Boxscores._get_boxscore_uri [Sample.leaf " <a>Preview</a> " "Preview"]
     = "<a>Preview</a>".
Proof.
  split.
  - destruct (markup_without_markers_is_kept "<td></td>" [] eq_refl eq_refl)
      as [H _].
    exact H.
  - destruct (markup_without_markers_is_kept " <a>Preview</a> "
                [Sample.leaf " <a>Preview</a> " "Preview"] eq_refl eq_refl)
      as [_ [H _]].
    exact (H eq_refl).
Defined.

Lemma team_abbreviation_between_markers_witness :
  NHL.Boxscores._parse_abbreviation
    [Sample.team_tag "VEG" "Vegas Golden Knights"] = "VEG"
  /\ NHL.Boxscores._parse_abbreviation [Sample.leaf "<span>TBD" "TBD"]
     = "<span>TBD".
Proof.
  split.
  - destruct (team_abbreviation_between_markers
                ("<a href=" ++ String (ascii_of_nat 34) EmptyString) "VEG"
                ("2018.html" ++ String (ascii_of_nat 34)
                                  ">Vegas Golden Knights</a>")
                [Sample.team_tag "VEG" "Vegas Golden Knights"]) as [H _].
    apply H; reflexivity.
  - destruct (team_abbreviation_between_markers EmptyString EmptyString
                EmptyString [Sample.leaf "<span>TBD" "TBD"]) as [_ H].
    apply H. reflexivity.
Defined.

(** ** Lines and commas *)

Section Splitting.

Local Open Scope string_scope.

Lemma app_assoc_string (a b c : string) : (a ++ b) ++ c = a ++ b ++ c.
Proof.
  induction a as [|x a IH]; [reflexivity|]. cbn [append]. now rewrite IH.
Qed.

Lemma rev_onto_app (s acc : string) :
  PyStr.rev_onto s acc = PyStr.rev s ++ acc.
Proof.
  unfold PyStr.rev. revert acc.
  induction s as [|c s IH]; intros acc; [reflexivity|].
  cbn [PyStr.rev_onto].
  rewrite (IH (String c acc)), (IH (String c EmptyString)).
  now rewrite app_assoc_string.
Qed.

Lemma rev_rev_onto (b acc : string) :
  PyStr.rev (PyStr.rev_onto b acc) = PyStr.rev acc ++ b.
Proof.
  revert acc.
  induction b as [|c b IH]; intros acc; cbn [PyStr.rev_onto].
  - now rewrite app_empty_r.
  - rewrite IH. unfold PyStr.rev. cbn [PyStr.rev_onto].
    rewrite (rev_onto_app acc (String c EmptyString)).
    now rewrite app_assoc_string.
Qed.

Lemma sep_free_cons (sep c : ascii) (s : string) :
  sep_free sep (String c s) ->
  Ascii.eqb c sep = false /\ sep_free sep s.
Proof.
  unfold sep_free. intros H. apply contains_false_cons in H.
  destruct H as [H1 H2]. split; [|exact H2].
  cbn [PyStr.startswith] in H1.
  rewrite andb_true_r in H1. now rewrite Ascii.eqb_sym.
Qed.

Lemma sep_free_intro (sep c : ascii) (s : string) :
  Ascii.eqb c sep = false -> sep_free sep s -> sep_free sep (String c s).
Proof.
  unfold sep_free. intros Hc Hs. cbn [PyStr.contains PyStr.startswith].
  now rewrite Hs, Ascii.eqb_sym, Hc.
Qed.

Lemma sep_free_app (sep : ascii) (a b : string) :
  sep_free sep a -> sep_free sep b -> sep_free sep (a ++ b).
Proof.
  induction a as [|c a IH]; intros Ha Hb; [exact Hb|].
  apply sep_free_cons in Ha. destruct Ha as [Hc Ha].
  cbn [append]. apply sep_free_intro; auto.
Qed.

Lemma sep_free_rev (sep : ascii) (s : string) :
  sep_free sep s -> sep_free sep (PyStr.rev s).
Proof.
  unfold PyStr.rev.
  assert (G : forall acc, sep_free sep s -> sep_free sep acc ->
                          sep_free sep (PyStr.rev_onto s acc)).
  { induction s as [|c s IH]; intros acc Hs Ha; [exact Ha|].
    apply sep_free_cons in Hs. destruct Hs as [Hc Hs].
    cbn [PyStr.rev_onto]. apply IH; [exact Hs|].
    now apply sep_free_intro. }
  intros Hs. now apply G.
Qed.

(** The pieces of [split] do not contain the separator. *)
Lemma split_acc_sep_free (sep : ascii) (s : string) :
  forall cur piece,
    sep_free sep cur ->
    In piece (PyStr.split_acc sep s cur) -> sep_free sep piece.
Proof.
  induction s as [|c s IH]; intros cur piece Hcur Hin;
    cbn [PyStr.split_acc] in Hin.
  - destruct Hin as [<-|[]]. now apply sep_free_rev.
  - destruct (Ascii.eqb c sep) eqn:E.
    + destruct Hin as [<-|Hin]; [now apply sep_free_rev|].
      apply (IH EmptyString piece); [reflexivity | exact Hin].
    + apply (IH (String c cur) piece); [|exact Hin].
      now apply sep_free_intro.
Qed.

Lemma split_acc_one_piece (sep : ascii) (b : string) :
  forall cur,
    sep_free sep b ->
    PyStr.split_acc sep b cur = [PyStr.rev cur ++ b].
Proof.
  induction b as [|c b IH]; intros cur Hb; cbn [PyStr.split_acc].
  - now rewrite app_empty_r.
  - apply sep_free_cons in Hb. destruct Hb as [Hc Hb]. rewrite Hc.
    rewrite (IH (String c cur) Hb). f_equal.
    unfold PyStr.rev. cbn [PyStr.rev_onto].
    rewrite (rev_onto_app cur (String c EmptyString)).
    now rewrite app_assoc_string.
Qed.

Lemma split_acc_app (sep : ascii) (a b : string) :
  forall cur,
    PyStr.split_acc sep (a ++ String sep b) cur
    = (PyStr.split_acc sep a cur ++ PyStr.split_acc sep b EmptyString)%list.
Proof.
  induction a as [|c a IH]; intros cur; cbn [append PyStr.split_acc].
  - now rewrite Ascii.eqb_refl.
  - destruct (Ascii.eqb c sep); [cbn [app]; f_equal|]; apply IH.
Qed.

Lemma split_acc_not_nil (sep : ascii) (s cur : string) :
  PyStr.split_acc sep s cur <> [].
Proof.
  revert cur. induction s as [|c s IH]; intros cur; cbn [PyStr.split_acc];
    [discriminate|].
  destruct (Ascii.eqb c sep); [discriminate | apply IH].
Qed.

(** [sep.join(s.split(sep))] is [s]. *)
Lemma join_split_acc (sep : ascii) (s : string) :
  forall cur,
    PyStr.join (String sep EmptyString) (PyStr.split_acc sep s cur)
    = PyStr.rev cur ++ s.
Proof.
  induction s as [|c s IH]; intros cur; cbn [PyStr.split_acc].
  - cbn [PyStr.join]. now rewrite app_empty_r.
  - destruct (Ascii.eqb_spec c sep) as [->|Hc].
    + pose proof (split_acc_not_nil sep s EmptyString) as Hn.
      pose proof (IH EmptyString) as J.
      destruct (PyStr.split_acc sep s EmptyString) as [|q qs];
        [contradiction|].
      change (PyStr.join (String sep EmptyString)
                (PyStr.rev cur :: q :: qs))
        with (PyStr.rev cur ++ String sep EmptyString
              ++ PyStr.join (String sep EmptyString) (q :: qs)).
      rewrite J. reflexivity.
    + rewrite (IH (String c cur)).
      unfold PyStr.rev. cbn [PyStr.rev_onto].
      rewrite (rev_onto_app cur (String c EmptyString)).
      now rewrite app_assoc_string.
Qed.

(** X12: the properties [date] and [time] cut the first line at its last
    comma: for a raw value [a ++ "," ++ b] where [b] has no comma, [date]
    is [a] and [time] is [b] without the whitespace around it; for a raw
    value without any comma, [date] is the empty string and [time] the
    whole value, stripped. *)
Theorem date_and_time_cut_at_the_last_comma (self : Instance)
  (a b : string) :
  sep_free "," b ->
  (getattr self "_date" = Ok (VStr (a ++ "," ++ b)) ->
   NHL.date self = Ok a)
  /\ (getattr self "_time" = Ok (VStr (a ++ "," ++ b)) ->
      NHL.time self = Ok (PyStr.strip b))
  /\ (getattr self "_date" = Ok (VStr b) -> NHL.date self = Ok EmptyString)
  /\ (getattr self "_time" = Ok (VStr b) ->
      NHL.time self = Ok (PyStr.strip b)).
Proof.
  intros Hb.
  assert (S2 : PyStr.split "," (a ++ "," ++ b)
               = (PyStr.split "," a ++ [b])%list).
  { unfold PyStr.split. change ("," ++ b) with (String "," b).
    rewrite split_acc_app. f_equal. now apply split_acc_one_piece. }
  assert (S1 : PyStr.split "," b = [b]).
  { unfold PyStr.split. now apply split_acc_one_piece. }
  unfold NHL.date, NHL.time.
  split; [|split; [|split]]; intros H; rewrite H; cbn [bind as_str].
  - rewrite S2, removelast_last. f_equal.
    unfold PyStr.split. apply (join_split_acc "," a EmptyString).
  - rewrite S2, last_last. reflexivity.
  - rewrite S1. reflexivity.
  - rewrite S1. reflexivity.
Qed.

End Splitting.

Lemma date_and_time_cut_at_the_last_comma_witness :
  NHL.date Sample.played = Ok "Wed, Oct 18, 2017"
  /\ NHL.time Sample.played = Ok "7:00 PM"
  /\ NHL.date (setattr Sample.played "_date" (VStr "TBD")) = Ok EmptyString.
Proof.
  split; [|split].
  - destruct (date_and_time_cut_at_the_last_comma Sample.played
                "Wed, Oct 18, 2017" " 7:00 PM" eq_refl) as [H _].
    apply H. reflexivity.
  - destruct (date_and_time_cut_at_the_last_comma Sample.played
                "Wed, Oct 18, 2017" " 7:00 PM" eq_refl) as [_ [H _]].
    apply H. reflexivity.
  - destruct (date_and_time_cut_at_the_last_comma
                (setattr Sample.played "_date" (VStr "TBD"))
                EmptyString "TBD" eq_refl) as [_ [_ [H _]]].
    apply H. reflexivity.
Defined.

Section SingleLine.

Variable BOXSCORE_SCHEME : string -> option string.
Variable BOXSCORE_ELEMENT_INDEX : string -> option nat.

(** X13: whatever the field and the page, a value that
    [_parse_game_date_and_location] returns is a single line (it contains no
    newline), and the function raises [KeyError] for a field without a
    scheme entry before it looks at the page. *)
Theorem date_and_location_value_is_one_line (field : string)
  (boxscore : PyQuery) :
  (forall value,
     NHL._parse_game_date_and_location BOXSCORE_SCHEME
       BOXSCORE_ELEMENT_INDEX field boxscore = Ok value ->
     no_newline value)
  /\ (BOXSCORE_SCHEME field = None ->
      NHL._parse_game_date_and_location BOXSCORE_SCHEME
        BOXSCORE_ELEMENT_INDEX field boxscore = Raise KeyError).
Proof.
  unfold NHL._parse_game_date_and_location, subscript. split.
  - intros value H.
    destruct (BOXSCORE_SCHEME field) as [scheme|]; cbn [bind] in H;
      [|discriminate].
    destruct (item (Pq.texts boxscore scheme) 0) as [block|];
      cbn [bind] in H; [|discriminate].
    destruct (BOXSCORE_ELEMENT_INDEX field) as [index|]; cbn [bind] in H;
      [|discriminate].
    destruct (item (PyStr.split PyStr.newline block) 1) as [line|];
      cbn [bind] in H; [|discriminate].
    set (i := if NHL.is_playoff_round line then _ else _) in H.
    unfold item, try_except in H.
    destruct (nth_error (PyStr.split PyStr.newline block) i) as [l|] eqn:E.
    + inversion H. subst l. apply nth_error_In in E.
      apply (split_acc_sep_free PyStr.newline block EmptyString value);
        [reflexivity | exact E].
    + cbn in H. inversion H. reflexivity.
  - intros Hs. now rewrite Hs.
Qed.

End SingleLine.

Lemma date_and_location_value_is_one_line_witness :
  no_newline "Arena: X"
  /\ NHL._parse_game_date_and_location (fun _ => None) Sample.element_index
       "arena" (Sample.page Sample.playoff_block "4" "3") = Raise KeyError.
Proof.
  split.
  - destruct (date_and_location_value_is_one_line Sample.scheme
                Sample.element_index "arena"
                (Sample.page Sample.playoff_block "4" "3")) as [H _].
    apply H. reflexivity.
  - destruct (date_and_location_value_is_one_line (fun _ => None)
                Sample.element_index "arena"
                (Sample.page Sample.playoff_block "4" "3")) as [_ H].
    apply H. reflexivity.
Defined.

(** ** The two sides of a list of cells *)

Lemma parsed_ints_app (a b : list string) :
  parsed_ints (a ++ b) = parsed_ints a ++ parsed_ints b.
Proof. unfold parsed_ints. apply flat_map_app. Qed.

Lemma Zsum_app (a b : list Z) : Zsum (a ++ b) = (Zsum a + Zsum b)%Z.
Proof.
  unfold Zsum.
  induction a as [|x a IH]; cbn [app fold_right]; [reflexivity|].
  rewrite IH. lia.
Qed.

(** X14: when the away and the home property of a statistic read the same
    list of cells (as they do when the scheme gives both the same selector),
    nothing is lost or counted twice: the two totals add up to the sum of
    all integer cells of the list.  When the recorded count is at least the
    length of the list the away side takes everything and the home total is
    0; when the count is 0 the away total is 0. *)
Theorem away_and_home_totals_partition_the_cells (self : Instance)
  (statistic : string) (value : list string) (skaters goalies : nat) :
  In statistic split_statistics ->
  getattr self (String "_" ("away_" ++ statistic)) = Ok (VList value) ->
  getattr self (String "_" ("home_" ++ statistic)) = Ok (VList value) ->
  getattr self "_away_skaters" = Ok (VInt (Z.of_nat skaters)) ->
  getattr self "_away_goalies" = Ok (VInt (Z.of_nat goalies)) ->
  let count :=
    if in_list statistic ["saves"; "shutout"] then goalies else skaters in
  exists away home,
    NHL.nhl_property ("away_" ++ statistic) self = Ok away
    /\ NHL.nhl_property ("home_" ++ statistic) self = Ok home
    /\ (away + home)%Z = Zsum (parsed_ints value)
    /\ (List.length value <= count ->
        home = 0%Z /\ away = Zsum (parsed_ints value))
    /\ (count = 0 -> away = 0%Z /\ home = Zsum (parsed_ints value)).
Proof.
  intros Hin Ha Hh Hs Hg count.
  pose proof (nhl_property_list _ self value skaters goalies Ha Hs Hg) as Ea.
  pose proof (nhl_property_list _ self value skaters goalies Hh Hs Hg) as Eh.
  exists (Zsum (parsed_ints (firstn count value))),
         (Zsum (parsed_ints (skipn count value))).
  assert (E : NHL.nhl_property ("away_" ++ statistic) self
              = Ok (Zsum (parsed_ints (firstn count value)))
              /\ NHL.nhl_property ("home_" ++ statistic) self
                 = Ok (Zsum (parsed_ints (skipn count value)))).
  { subst count. cbn [In split_statistics] in Hin.
    repeat (destruct Hin as [<-|Hin]; [split; [exact Ea | exact Eh]|]).
    contradiction. }
  destruct E as [E1 E2].
  split; [exact E1|]. split; [exact E2|]. split; [|split].
  - rewrite <- Zsum_app, <- parsed_ints_app. now rewrite firstn_skipn.
  - intros Hlen. rewrite skipn_all2, firstn_all2 by exact Hlen.
    split; reflexivity.
  - intros ->. cbn [firstn skipn]. split; reflexivity.
Qed.

Lemma away_and_home_totals_partition_the_cells_witness :
  exists away home,
    NHL.nhl_property "away_saves" Sample.played = Ok away
    /\ NHL.nhl_property "home_saves" Sample.played = Ok home
    /\ (away + home)%Z = 6%Z.
Proof.
  destruct (away_and_home_totals_partition_the_cells Sample.played "saves"
              ["1"; EmptyString; "2"; EmptyString; "3"] 3 1
              ltac:(member) eq_refl eq_refl eq_refl eq_refl)
    as [away [home [Ha [Hh [Hsum _]]]]].
  exists away, home. split; [exact Ha|]. split; [exact Hh|]. exact Hsum.
Defined.

(** ** The games of a day *)

Lemma index_last {A : Type} (x : A) (xs : list A) (d : A) :
  index (x :: xs) (-1) = Ok (last (x :: xs) d).
Proof.
  unfold index.
  change (-1 <? 0)%Z with true. cbv iota.
  destruct (Z.ltb_spec (-1 + Z.of_nat (List.length (x :: xs))) 0) as [H|H];
    [cbn [List.length] in H; lia|].
  replace (Z.to_nat (-1 + Z.of_nat (List.length (x :: xs))))
    with (List.length xs) by (cbn [List.length]; lia).
  unfold item.
  assert (E : nth_error (x :: xs) (List.length xs)
              = Some (last (x :: xs) d)).
  { clear H. revert x.
    induction xs as [|y xs IH]; intros x; [reflexivity|].
    cbn [List.length nth_error]. rewrite (IH y). reflexivity. }
  now rewrite E.
Qed.

Lemma extract_game_with_links (all : list NHLBoxscores.game_info)
  (game : PyQuery) :
  Pq.select game "td a" <> [] ->
  NHLBoxscores.extract_game all game = Ok (all ++ [info_of game]).
Proof.
  intros Hl.
  unfold NHLBoxscores.extract_game, NHLBoxscores._get_team_names, info_of.
  destruct (Pq.select game "td a") as [|first links]; [contradiction|].
  cbn [Pq.items map]. unfold item at 1. cbn [nth_error bind].
  unfold PyQuery.
  rewrite (index_last [first] (map (fun e => [e]) links) []).
  reflexivity.
Qed.

Lemma extract_game_without_links (all : list NHLBoxscores.game_info)
  (game : PyQuery) :
  Pq.select game "td a" = [] ->
  NHLBoxscores.extract_game all game = Raise IndexError.
Proof.
  intros Hl.
  unfold NHLBoxscores.extract_game, NHLBoxscores._get_team_names.
  now rewrite Hl.
Qed.

(** X15: [_extract_game_info] gives one dictionary per game, in the order
    of the page, with the away team read from the first link of the game and
    the home team from the last (the same link when there is only one); a
    game without any link makes it raise [IndexError], and no list is
    returned. *)
Theorem extract_game_info_maps_the_games (games : list PyQuery) :
  ((forall game, In game games -> Pq.select game "td a" <> []) ->
   NHLBoxscores._extract_game_info games = Ok (map info_of games))
  /\ (forall game,
        In game games -> Pq.select game "td a" = [] ->
        NHLBoxscores._extract_game_info games = Raise IndexError).
Proof.
  unfold NHLBoxscores._extract_game_info.
  assert (G : forall all,
            ((forall game, In game games -> Pq.select game "td a" <> []) ->
             foldM NHLBoxscores.extract_game games all
             = Ok (all ++ map info_of games))
            /\ (forall game,
                  In game games -> Pq.select game "td a" = [] ->
                  foldM NHLBoxscores.extract_game games all
                  = Raise IndexError)).
  { induction games as [|g games IH]; intros all.
    - split; [intros _; cbn; now rewrite app_nil_r | intros game []].
    - destruct (IH (all ++ [info_of g])) as [IHok IHraise].
      cbn [foldM map]. split.
      + intros Hall.
        rewrite extract_game_with_links by (apply Hall; now left).
        cbn [bind]. rewrite IHok by (intros x Hx; apply Hall; now right).
        now rewrite <- app_assoc.
      + intros game Hin Hnone.
        destruct (Pq.select g "td a") as [|l ls] eqn:Hg.
        * now rewrite extract_game_without_links.
        * rewrite extract_game_with_links by (rewrite Hg; discriminate).
          cbn [bind]. destruct Hin as [->|Hin]; [congruence|].
          exact (IHraise game Hin Hnone). }
  exact (G []).
Qed.

Section GamesOfADay.

Variable BOXSCORES_URL : nat -> nat -> nat -> string.
Variable pq_url : string -> Result PyQuery.

Let games := NHLBoxscores.games BOXSCORES_URL pq_url.
Let _create_url := NHLBoxscores._create_url BOXSCORES_URL.

(** X16: [Boxscores] reads only the month, day and year of its date, so two
    dates of the same day give the same games; a page without game tables
    gives the empty list; and, unlike [Boxscore], it does not catch a failed
    download: the exception of the retrieval leaves it. *)
Theorem games_of_a_day_depend_on_the_day_only
  (date other : PyDatetime.datetime) :
  (same_date date other -> games date = games other)
  /\ (forall page,
        pq_url (_create_url date) = Ok page ->
        Pq.select page ("table[class=" ++ PyStr.quoted "teams" ++ "]") = [] ->
        games date = Ok [])
  /\ (forall e, pq_url (_create_url date) = Raise e -> games date = Raise e).
Proof.
  unfold games, NHLBoxscores.games, NHLBoxscores._find_games,
    NHLBoxscores._get_requested_page.
  fold _create_url.
  split; [|split].
  - intros [Hy [Hm Hd]].
    unfold _create_url, NHLBoxscores._create_url. now rewrite Hy, Hm, Hd.
  - intros page Hp Hnone. rewrite Hp. cbn [bind]. now rewrite Hnone.
  - intros e Hp. now rewrite Hp.
Qed.

End GamesOfADay.

Lemma extract_game_info_maps_the_games_witness :
  SampleDay.games (PyDatetime.mkDatetime 2018 6 7 19 0 0)
  = Ok [NHLBoxscores.mkGameInfo "201806070VEG" "Washington Capitals" "WSH"
          "Vegas Golden Knights" "VEG";
        NHLBoxscores.mkGameInfo "201806070NYR" "Boston Bruins" "BOS"
          "New York Rangers" "NYR"]
  /\ NHLBoxscores._extract_game_info
       (Pq.items SampleDay.day_page ++ [SampleDay.empty_day_page])
     = Raise IndexError.
Proof.
  split.
  - destruct (extract_game_info_maps_the_games
                (Pq.items
                   (Pq.select SampleDay.day_page
                      ("table[class=" ++ PyStr.quoted "teams" ++ "]"))))
      as [H _].
    apply H. intros game Hin.
    cbn in Hin. destruct Hin as [<-|[<-|[]]]; discriminate.
  - destruct (extract_game_info_maps_the_games
                (Pq.items SampleDay.day_page ++ [SampleDay.empty_day_page]))
      as [_ H].
    apply (H SampleDay.empty_day_page); [member | reflexivity].
Defined.

Lemma games_of_a_day_depend_on_the_day_only_witness :
  SampleDay.games (PyDatetime.mkDatetime 2018 6 7 19 0 0)
  = SampleDay.games (PyDatetime.mkDatetime 2018 6 7 0 0 0)
  /\ SampleDay.games (PyDatetime.mkDatetime 2018 7 1 0 0 0) = Ok []
  /\ SampleDay.games (PyDatetime.mkDatetime 2017 7 1 0 0 0)
     = Raise ValueError.
Proof.
  split; [|split].
  - destruct (games_of_a_day_depend_on_the_day_only SampleDay.boxscores_url
                SampleDay.site (PyDatetime.mkDatetime 2018 6 7 19 0 0)
                (PyDatetime.mkDatetime 2018 6 7 0 0 0)) as [H _].
    apply H. repeat split.
  - destruct (games_of_a_day_depend_on_the_day_only SampleDay.boxscores_url
                SampleDay.site (PyDatetime.mkDatetime 2018 7 1 0 0 0)
                (PyDatetime.mkDatetime 2018 7 1 0 0 0)) as [_ [H _]].
    apply (H SampleDay.empty_day_page); reflexivity.
  - destruct (games_of_a_day_depend_on_the_day_only SampleDay.boxscores_url
                SampleDay.site (PyDatetime.mkDatetime 2017 7 1 0 0 0)
                (PyDatetime.mkDatetime 2017 7 1 0 0 0)) as [_ [_ H]].
    apply H. reflexivity.
Defined.

(** ** The properties of a game *)

Lemma lower_char_at (c : ascii) :
  Ascii.eqb (PyStr.lower_char c) "@" = Ascii.eqb c "@".
Proof.
  destruct c as [[] [] [] [] [] [] [] []]; vm_compute; reflexivity.
Qed.

Lemma lower_char_l (c : ascii) :
  Ascii.eqb (PyStr.lower_char c) "l" = Ascii.eqb c "L" || Ascii.eqb c "l".
Proof.
  destruct c as [[] [] [] [] [] [] [] []]; vm_compute; reflexivity.
Qed.

Lemma lower_is_empty (s : string) :
  String.eqb (PyStr.lower s) EmptyString = String.eqb s EmptyString.
Proof. now destruct s. Qed.

Lemma lower_is_at (s : string) :
  String.eqb (PyStr.lower s) "@" = String.eqb s "@".
Proof.
  destruct s as [|c r]; [reflexivity|].
  cbn [PyStr.lower String.eqb]. now rewrite lower_char_at, lower_is_empty.
Qed.

Lemma lower_is_l (s : string) :
  String.eqb (PyStr.lower s) "l" = String.eqb s "L" || String.eqb s "l".
Proof.
  destruct s as [|c r]; [reflexivity|].
  cbn [PyStr.lower String.eqb]. rewrite lower_char_l, lower_is_empty.
  destruct (Ascii.eqb c "L"), (Ascii.eqb c "l"), (String.eqb r EmptyString);
    reflexivity.
Qed.

(** X17: [Game.location] is AWAY exactly when the parsed location is the
    string "@" and HOME for every other string; [Game.result] is LOSS exactly
    when the parsed result is "L" or "l" and WIN for every other string, the
    empty one and a longer one included; on a game whose field was not parsed
    (None) both raise [AttributeError]. *)
Theorem location_and_result_test_one_string
  (WIN LOSS HOME AWAY : string) (self : Instance) :
  (forall s,
     getattr self "_location" = Ok (VStr s) ->
     NBAGame.location HOME AWAY self
     = Ok (if String.eqb s "@" then AWAY else HOME))
  /\ (forall s,
        getattr self "_result" = Ok (VStr s) ->
        NBAGame.result WIN LOSS self
        = Ok (if String.eqb s "L" || String.eqb s "l" then LOSS else WIN))
  /\ (getattr self "_location" = Ok VNone ->
      NBAGame.location HOME AWAY self = Raise AttributeError)
  /\ (getattr self "_result" = Ok VNone ->
      NBAGame.result WIN LOSS self = Raise AttributeError).
Proof.
  unfold NBAGame.location, NBAGame.result.
  split; [|split; [|split]].
  - intros s ->. cbn [bind as_str]. rewrite lower_is_at.
    now destruct (String.eqb s "@").
  - intros s ->. cbn [bind as_str]. rewrite lower_is_l.
    now destruct (String.eqb s "L" || String.eqb s "l").
  - now intros ->.
  - now intros ->.
Qed.

Lemma location_and_result_test_one_string_witness :
  NBAGame.location "Home" "Away"
    (setattr NBA.new_game "_location" (VStr "@")) = Ok "Away"
  /\ NBAGame.result "Win" "Loss"
       (setattr NBA.new_game "_result" (VStr "L")) = Ok "Loss"
  /\ NBAGame.result "Win" "Loss"
       (setattr NBA.new_game "_result" (VStr "Lost")) = Ok "Win"
  /\ NBAGame.location "Home" "Away" NBA.new_game = Raise AttributeError
  /\ NBAGame.result "Win" "Loss" NBA.new_game = Raise AttributeError.
Proof.
  split; [|split; [|split; [|split]]].
  - destruct (location_and_result_test_one_string "Win" "Loss" "Home" "Away"
                (setattr NBA.new_game "_location" (VStr "@"))) as [H _].
    exact (H "@" eq_refl).
  - destruct (location_and_result_test_one_string "Win" "Loss" "Home" "Away"
                (setattr NBA.new_game "_result" (VStr "L"))) as [_ [H _]].
    exact (H "L" eq_refl).
  - destruct (location_and_result_test_one_string "Win" "Loss" "Home" "Away"
                (setattr NBA.new_game "_result" (VStr "Lost"))) as [_ [H _]].
    exact (H "Lost" eq_refl).
  - destruct (location_and_result_test_one_string "Win" "Loss" "Home" "Away"
                NBA.new_game) as [_ [_ [H _]]].
    exact (H eq_refl).
  - destruct (location_and_result_test_one_string "Win" "Loss" "Home" "Away"
                NBA.new_game) as [_ [_ [_ H]]].
    exact (H eq_refl).
Defined.

(** ** The day of a game *)

Lemma digit_bound (c : ascii) (n : nat) :
  PyDatetime.digit c = Some n -> (n <= 9)%nat.
Proof.
  unfold PyDatetime.digit, PyStr.is_digit. cbv zeta.
  destruct ((48 <=? PyStr.code c)%nat && (PyStr.code c <=? 57)%nat) eqn:E;
    [|discriminate].
  intros H. injection H as <-.
  apply andb_prop in E as [_ E]. apply Nat.leb_le in E. lia.
Qed.

Lemma digit_is_digit (c : ascii) :
  PyStr.is_digit c = false -> PyDatetime.digit c = None.
Proof. unfold PyDatetime.digit. now intros ->. Qed.

Lemma some_inj {A : Type} (a b : A) : Some a = Some b -> a = b.
Proof. now intros [= ->]. Qed.

Lemma some_pair_inj {A B : Type} (a c : A) (b d : B) :
  Some (a, b) = Some (c, d) -> a = c /\ b = d.
Proof. intros H. apply some_inj in H. now apply pair_equal_spec in H. Qed.

Ltac directive_bounds :=
  repeat match goal with
         | H : PyDatetime.digit _ = Some _ |- _ => apply digit_bound in H
         | H : (_ || _)%bool = true |- _ => apply orb_prop in H as [H|H]
         | H : (_ && _)%bool = true |- _ => apply andb_prop in H as [? H]
         | H : (_ =? _)%nat = true |- _ => apply Nat.eqb_eq in H
         | H : (_ <=? _)%nat = true |- _ => apply Nat.leb_le in H
         end.

Ltac directive_cases :=
  repeat match goal with
         | H : context [match ?x with _ => _ end] |- _ =>
             destruct x eqn:?; try discriminate
         | H : Some (_, _) = Some (_, _) |- _ =>
             apply some_pair_inj in H as [? ?]
         | H : Some ?p = Some _ |- _ =>
             is_var p; apply some_inj in H; subst p
         end;
  subst; directive_bounds.

Lemma directive_Y_bound (s r : string) (y : nat) :
  PyDatetime.directive_Y s = Some (y, r) -> (Z.of_nat y <= 9999)%Z.
Proof.
  unfold PyDatetime.directive_Y. intros H. directive_cases. lia.
Qed.

Lemma directive_m_bound (s r : string) (m : nat) :
  PyDatetime.directive_m s = Some (m, r) -> (1 <= m <= 12)%nat.
Proof.
  unfold PyDatetime.directive_m. cbv zeta. intros H. directive_cases; lia.
Qed.

Lemma directive_d_bound (s r : string) (d : nat) :
  PyDatetime.directive_d s = Some (d, r) -> (1 <= d)%nat.
Proof.
  unfold PyDatetime.directive_d. cbv zeta. intros H. directive_cases; lia.
Qed.

Lemma strptime_ymd_valid (s : string) (d : PyDatetime.datetime) :
  PyDatetime.strptime_ymd s = Some d ->
  (1 <= Z.of_nat (PyDatetime.year d) <= 9999)%Z
  /\ (1 <= PyDatetime.month d <= 12)%nat
  /\ (1 <= PyDatetime.day d
      <= PyDatetime.days_in_month (PyDatetime.year d) (PyDatetime.month d))%nat
  /\ PyDatetime.hour d = 0%nat /\ PyDatetime.minute d = 0%nat
  /\ PyDatetime.second d = 0%nat.
Proof.
  unfold PyDatetime.strptime_ymd.
  destruct (PyDatetime.directive_Y s) as [[y s1]|] eqn:HY; [|discriminate].
  destruct (PyDatetime.dash s1) as [s2|]; [|discriminate].
  destruct (PyDatetime.directive_m s2) as [[m s3]|] eqn:Hm; [|discriminate].
  destruct (PyDatetime.dash s3) as [s4|]; [|discriminate].
  destruct (PyDatetime.directive_d s4) as [[day [|c r]]|] eqn:Hd;
    try discriminate.
  destruct ((1 <=? y)%nat && (day <=? PyDatetime.days_in_month y m)%nat)
    eqn:Hc; [|discriminate].
  intros H. injection H as <-. cbn.
  apply directive_Y_bound in HY. apply directive_m_bound in Hm.
  apply directive_d_bound in Hd.
  apply andb_prop in Hc as [Hy Hday].
  apply Nat.leb_le in Hy. apply Nat.leb_le in Hday.
  repeat split; lia.
Qed.

Lemma strptime_ymd_needs_a_digit (c : ascii) (r : string) :
  PyStr.is_digit c = false -> PyDatetime.strptime_ymd (String c r) = None.
Proof.
  intros Hc. unfold PyDatetime.strptime_ymd, PyDatetime.directive_Y.
  destruct r as [|b [|c' [|d rest]]]; try reflexivity.
  now rewrite (digit_is_digit c Hc).
Qed.

(** X18: what [Game.datetime] returns is always a day of the calendar at
    midnight: a year from 1 to 9999, a month from 1 to 12, a day that exists
    in that month of that year, and no time of day.  A game whose date was
    not parsed (None) raises [TypeError], and a date string that does not
    start with a digit, such as the form 'Wed, Oct 18, 2017' of the
    docstring of [Game.date], raises [ValueError]. *)
Theorem game_datetime_is_a_calendar_day (self : Instance) :
  (forall d,
     NBA.datetime self = Ok d ->
     (1 <= Z.of_nat (PyDatetime.year d) <= 9999)%Z
     /\ (1 <= PyDatetime.month d <= 12)%nat
     /\ (1 <= PyDatetime.day d
         <= PyDatetime.days_in_month (PyDatetime.year d)
              (PyDatetime.month d))%nat
     /\ PyDatetime.hour d = 0%nat /\ PyDatetime.minute d = 0%nat
     /\ PyDatetime.second d = 0%nat)
  /\ (getattr self "_date" = Ok VNone -> NBA.datetime self = Raise TypeError)
  /\ (forall c r,
        getattr self "_date" = Ok (VStr (String c r)) ->
        PyStr.is_digit c = false ->
        NBA.datetime self = Raise ValueError).
Proof.
  unfold NBA.datetime. split; [|split].
  - intros d. destruct (getattr self "_date") as [[| s | | | |]|e];
      cbn [bind]; try discriminate.
    destruct (PyDatetime.strptime_ymd s) as [d'|] eqn:Hs; [|discriminate].
    intros H. injection H as <-. exact (strptime_ymd_valid s d' Hs).
  - now intros ->.
  - intros c r -> Hc. cbn [bind].
    now rewrite (strptime_ymd_needs_a_digit c r Hc).
Qed.

Lemma game_datetime_is_a_calendar_day_witness :
  ((1 <= Z.of_nat 2017 <= 9999)%Z
   /\ (1 <= 10 <= 12)%nat
   /\ (1 <= 18 <= PyDatetime.days_in_month 2017 10)%nat
   /\ 0%nat = 0%nat /\ 0%nat = 0%nat /\ 0%nat = 0%nat)
  /\ NBA.datetime NBA.new_game = Raise TypeError
  /\ NBA.datetime (setattr NBA.new_game "_date" (VStr "Wed, Oct 18, 2017"))
     = Raise ValueError.
Proof.
  split; [|split].
  - destruct (game_datetime_is_a_calendar_day
                (Sample.game "2017-10-18" "201710180DET")) as [H _].
    exact (H (PyDatetime.mkDatetime 2017 10 18 0 0 0) eq_refl).
  - destruct (game_datetime_is_a_calendar_day NBA.new_game) as [_ [H _]].
    exact (H eq_refl).
  - destruct (game_datetime_is_a_calendar_day
                (setattr NBA.new_game "_date" (VStr "Wed, Oct 18, 2017")))
      as [_ [_ H]].
    exact (H "W"%char "ed, Oct 18, 2017" eq_refl eq_refl).
Defined.
